(** * tracetools_trace.tools.lttng_impl: session set-up against the LTTng daemon

    A shallow embedding of [tracetools_trace/tools/lttng_impl.py].  Every
    function of the module that talks to the outside (the [lttng] Python
    bindings, [subprocess], [os.environ], the file system) is a program over
    an interface of calls; a program is run against an arbitrary environment,
    and the run yields the result (a value or the Python exception raised),
    the list of calls made with their answers, and the final environment.

    Modelling conventions:
    - a Python [str] is a Rocq [string]; its characters are read as the code
      points U+0000 to U+00FF;
    - a Python [int] is a [Z]; a [bytes] object is a list of bytes, and
      [bytes.decode], whose result may hold any character, is a parameter
      ([bytes_decode]) of the development;
    - a [set] of strings is a [gset string]; the order in which Python iterates
      over a set is not determined by its contents, so it is a parameter
      ([set_iter]) of the development.  The parameter gives one order to a
      set, whereas the interpreter may iterate differently over two sets
      that hold the same strings but were built differently: every statement
      below is about the iteration of one set, and none compares two;
    - a [dict] whose iteration order matters is an insertion-ordered
      association list ([Py.dict]); a [dict] that is only indexed is a [gmap];
    - the calls of the interface are assumed to return: an exception raised
      inside [subprocess.run] or [open] (a missing program, a file that
      cannot be read) is outside the model, and no statement below lists the
      exceptions of a function exhaustively. *)

From Stdlib Require Import ZArith String Ascii.
From Stdlib.Strings Require Import Byte.
From stdpp Require Import gmap strings list fin_maps pretty.

(** ** Python values and primitives *)

Module Py.

(** The exceptions the module can raise.  A [RuntimeError] carries its
    message and a [KeyError] the missing key; a [ValueError] carries the
    string that [int] was given and rejected, not the text of Python's
    message.  [UnicodeDecodeError] is what [bytes.decode] raises (in Python a
    subclass of [ValueError]). *)
Inductive exn : Type :=
| RuntimeError (msg : string)
| KeyError (key : string)
| ValueError (msg : string)
| UnicodeDecodeError
| AssertionError.

Inductive result (A : Type) : Type :=
| Ok (a : A)
| Err (e : exn).
Arguments Ok {A} a.
Arguments Err {A} e.

Definition is_ok {A} (r : result A) : bool :=
  match r with Ok _ => true | Err _ => false end.

(** [str.isspace] on one character (code points below 256). *)
Definition isspace (a : ascii) : bool :=
  let n := N_of_ascii a in
  ((9 <=? n) && (n <=? 13) || (28 <=? n) && (n <=? 32)
   || (n =? 133) || (n =? 160))%N.

(** [str.isdigit] on one character: the ASCII digits and the superscript
    digits U+00B2, U+00B3, U+00B9. *)
Definition isdigit_char (a : ascii) : bool :=
  let n := N_of_ascii a in
  ((48 <=? n) && (n <=? 57) || (n =? 178) || (n =? 179) || (n =? 185))%N.

Definition is_decimal_char (a : ascii) : bool :=
  let n := N_of_ascii a in ((48 <=? n) && (n <=? 57))%N.

Fixpoint lstrip_with (p : ascii → bool) (s : string) : string :=
  match s with
  | EmptyString => EmptyString
  | String a s' => if p a then lstrip_with p s' else s
  end.

Definition strip_with (p : ascii → bool) (s : string) : string :=
  String.rev (lstrip_with p (String.rev (lstrip_with p s))).

(** [s.strip()] *)
Definition strip (s : string) : string := strip_with isspace s.

(** [s.strip(chars)] *)
Definition strip_chars (chars : string) (s : string) : string :=
  strip_with (λ a, bool_decide (a ∈ list_ascii_of_string chars)) s.

Fixpoint str_forallb (p : ascii → bool) (s : string) : bool :=
  match s with
  | EmptyString => true
  | String a s' => p a && str_forallb p s'
  end.

(** [s.isdigit()]: at least one character, all of them digits. *)
Definition isdigit (s : string) : bool :=
  match s with
  | EmptyString => false
  | _ => str_forallb isdigit_char s
  end.

Fixpoint decimal_value (acc : Z) (s : string) : Z :=
  match s with
  | EmptyString => acc
  | String a s' =>
      decimal_value (10 * acc + (Z.of_N (N_of_ascii a) - 48))%Z s'
  end.

(** [sys.int_max_str_digits], at its default: [int] refuses a string with
    more digits (CPython 3.11 and later, and the security releases of the
    versions before it). *)
Definition int_max_str_digits : nat := 4300.

(** [int(s)] for a string of digit characters: the value in base 10;
    [ValueError] on a digit character that is not decimal (a superscript
    digit) and on more than [int_max_str_digits] digits, leading zeros
    counted.  Signs, underscores and surrounding blanks, which [int] also
    accepts, never reach it in this module. *)
Definition int (s : string) : result Z :=
  match s with
  | EmptyString => Err (ValueError s)
  | _ => if str_forallb is_decimal_char s
         then if (String.length s <=? int_max_str_digits)%nat
              then Ok (decimal_value 0 s)
              else Err (ValueError s)
         else Err (ValueError s)
  end.

(** [str(n)] for an [int]. *)
Definition str_of_int (n : Z) : string := pretty n.

Fixpoint startswith (p s : string) : bool :=
  match p, s with
  | EmptyString, _ => true
  | String a p', String b s' => bool_decide (a = b) && startswith p' s'
  | String _ _, EmptyString => false
  end.

Definition endswith (p s : string) : bool :=
  startswith (String.rev p) (String.rev s).

(** [os.path.join(a, *p)] of [posixpath]. *)
Fixpoint os_path_join (path : string) (p : list string) : string :=
  match p with
  | [] => path
  | b :: p' =>
      if startswith "/" b then os_path_join b p'
      else if bool_decide (path = EmptyString) || endswith "/" path
           then os_path_join (path +:+ b) p'
           else os_path_join (path +:+ "/" +:+ b) p'
  end.

(** Insertion-ordered dictionaries: the items in iteration order, one per
    key. *)
Definition dict (K V : Type) : Type := list (K * V).

(** [d[k] = v]: an existing key keeps its place, a new one goes last. *)
Fixpoint dict_set `{EqDecision K} {V} (k : K) (v : V) (d : dict K V)
  : dict K V :=
  match d with
  | [] => [(k, v)]
  | (k', v') :: d' =>
      if decide (k = k') then (k', v) :: d' else (k', v') :: dict_set k v d'
  end.

Fixpoint dict_get `{EqDecision K} {V} (k : K) (d : dict K V) : option V :=
  match d with
  | [] => None
  | (k', v') :: d' => if decide (k = k') then Some v' else dict_get k d'
  end.

(** The two collection shapes [setup] accepts for event names. *)
Inductive str_collection : Type :=
| PyList (l : list string)
| PySet (s : gset string).

Definition len (c : str_collection) : nat :=
  match c with
  | PyList l => length l
  | PySet s => size s
  end.

(** [c if isinstance(c, set) else set(c)] *)
Definition to_set (c : str_collection) : gset string :=
  match c with
  | PyList l => list_to_set l
  | PySet s => s
  end.

End Py.
Export Py.

(** ** The objects of the [lttng] bindings

    The constructors [lttng.Domain()], [lttng.Channel()], [lttng.Event()] and
    [lttng.EventContext()] build plain structures; only the fields that the
    module assigns are kept. *)

Inductive domain_type : Type := DOMAIN_KERNEL | DOMAIN_UST.
Inductive buffer_type : Type := BUFFER_PER_PID | BUFFER_PER_UID | BUFFER_GLOBAL.
Inductive event_output : Type := EVENT_SPLICE | EVENT_MMAP.
Inductive event_type : Type := EVENT_TRACEPOINT.
Inductive event_loglevel_type : Type := EVENT_LOGLEVEL_ALL.

Record Domain : Type := mkDomain {
  domain_type_of : domain_type;
  buf_type : buffer_type
}.

Record ChannelAttr : Type := mkChannelAttr {
  overwrite : Z;
  subbuf_size : Z;
  num_subbuf : Z;
  switch_timer_interval : Z;
  read_timer_interval : Z;
  output : event_output
}.

Record Channel : Type := mkChannel {
  channel_name : string;
  attr : ChannelAttr
}.

Record Event : Type := mkEvent {
  event_name : string;
  event_type_of : event_type;
  loglevel_type : event_loglevel_type
}.

Record EventContext : Type := mkEventContext { ctx : Z }.

(** A [lttng.Handle] object; handles are compared and hashed by identity. *)
Definition Handle : Type := nat.

(** What [subprocess.run] returns.  The type [O] of the two captured
    streams depends on how the function is called: see [call]. *)
Record CompletedProcess (O : Type) : Type := mkCompletedProcess {
  returncode : Z;
  stdout : O;
  stderr : O
}.
Arguments mkCompletedProcess {O} returncode stdout stderr.
Arguments returncode {O} c.
Arguments stdout {O} c.
Arguments stderr {O} c.

(** ** The interface to the outside

    One constructor per external operation used by the module, indexed by the
    type of its answer.  [subprocess.run] is called in three ways, which
    differ in what the result holds for the standard output and the standard
    error of the program: [subprocess_run] captures nothing (the two
    attributes are [None]); [subprocess_run_piped] is the call with
    [stdout=PIPE, stderr=PIPE], which captures [bytes];
    [subprocess_run_piped_text] is the call with [encoding='utf-8'] as well,
    which decodes what it captures and holds [str]. *)

Inductive call : Type → Type :=
| os_environ_get (name : string) : call (option string)
| os_path_isdir (path : string) : call bool
| os_path_isfile (path : string) : call bool
| open_read (path : string) : call string
| subprocess_run (argv : list string) : call (CompletedProcess ())
| subprocess_run_piped (argv : list string)
    : call (CompletedProcess (list byte))
| subprocess_run_piped_text (argv : list string)
    : call (CompletedProcess string)
| lttng_session_daemon_alive : call Z
| lttng_create (session_name path : string) : call Z
| lttng_destroy (session_name : string) : call Z
| lttng_start (session_name : string) : call Z
| lttng_stop (session_name : string) : call Z
| lttng_Handle (session_name : string) (domain : Domain) : call (option Handle)
| lttng_enable_channel (handle : Handle) (channel : Channel) : call Z
| lttng_enable_event (handle : Handle) (event : Event) (channel_name : string)
    : call Z
| lttng_add_context (handle : Handle) (context : EventContext) : call Z.

(** A call together with the answer it got. *)
Inductive event : Type :=
| Ev {X : Type} (c : call X) (x : X).

(** Programs: return a value, raise, or make a call and go on with its
    answer. *)
Inductive prog (A : Type) : Type :=
| Ret (a : A)
| Raise (e : exn)
| Call {X : Type} (c : call X) (k : X → prog A).
Arguments Ret {A} a.
Arguments Raise {A} e.
Arguments Call {A X} c k.

Fixpoint bind {A B} (p : prog A) (f : A → prog B) : prog B :=
  match p with
  | Ret a => f a
  | Raise e => Raise e
  | Call c k => Call c (λ x, bind (k x) f)
  end.

Definition call_ {X} (c : call X) : prog X := Call c Ret.

(** A pure computation that may raise, used inside a program. *)
Definition lift {A} (r : result A) : prog A :=
  match r with
  | Ok a => Ret a
  | Err e => Raise e
  end.

Definition result_bind {A B} (r : result A) (f : A → result B) : result B :=
  match r with
  | Ok a => f a
  | Err e => Err e
  end.

#[global] Instance prog_ret : MRet prog := @Ret.
#[global] Instance prog_bind : MBind prog := λ A B f p, bind p f.
#[global] Instance result_ret : MRet result := @Ok.
#[global] Instance result_bind_inst : MBind result := λ A B f r, result_bind r f.

(** [for x in l: body(x)] *)
Fixpoint for_each {X} (l : list X) (body : X → prog ()) : prog () :=
  match l with
  | [] => Ret ()
  | x :: l' => body x ;; for_each l' body
  end.

(** The classes of calls the statements below speak about. *)
Definition is_daemon_call (e : event) : bool :=
  match e with
  | Ev (os_environ_get _) _ | Ev (os_path_isdir _) _
  | Ev (os_path_isfile _) _ | Ev (open_read _) _ => false
  | _ => true
  end.

Definition is_create (e : event) : bool :=
  match e with Ev (lttng_create _ _) _ => true | _ => false end.

Definition is_destroy (e : event) : bool :=
  match e with Ev (lttng_destroy _) _ => true | _ => false end.


(** Handle creation, channel, event and context calls: everything [setup]
    does for a domain. *)
Definition is_domain_call (e : event) : bool :=
  match e with
  | Ev (lttng_Handle _ _) _ | Ev (lttng_enable_channel _ _) _
  | Ev (lttng_enable_event _ _ _) _ | Ev (lttng_add_context _ _) _ => true
  | _ => false
  end.

Definition kernel_probe_argv : list string := ["lttng"; "list"; "-k"].

Definition is_kernel_probe (e : event) : bool :=
  match e with
  | Ev (subprocess_run argv) _ | Ev (subprocess_run_piped argv) _
  | Ev (subprocess_run_piped_text argv) _ =>
      bool_decide (argv = kernel_probe_argv)
  | _ => false
  end.

(** The calls [setup] makes for a domain, and the probe of the kernel
    tracer. *)
Definition is_domain_call_or_probe (e : event) : bool :=
  is_domain_call e || is_kernel_probe e.

(** [never P p]: whatever the answers, [p] makes no call of class [P]. *)
Fixpoint never {A} (P : event → bool) (p : prog A) : Prop :=
  match p with
  | Ret _ | Raise _ => True
  | Call c k => ∀ x, P (Ev c x) = false ∧ never P (k x)
  end.

Definition nl : string := String "010" EmptyString.

(** Truth value of an [Optional[str]]: [None] and the empty string are
    false. *)
Definition truthy (o : option string) : bool :=
  match o with
  | Some (String _ _) => true
  | _ => false
  end.

(** [f'{message}'] for an [Optional[str]]. *)
Definition format_opt (o : option string) : string :=
  match o with
  | Some s => s
  | None => "None"
  end.

(** The shapes of [context_fields]: a list, a set, or a dictionary from
    domain type name to list of names. *)
Inductive context_fields_t : Type :=
| CtxList (l : list string)
| CtxSet (s : gset string)
| CtxDict (d : gmap string (list string)).

(** [returns_only R p]: whatever the answers, a value returned by [p] is in
    [R]. *)
Fixpoint returns_only {A} (R : A → Prop) (p : prog A) : Prop :=
  match p with
  | Ret a => R a
  | Raise _ => True
  | Call c k => ∀ x, returns_only R (k x)
  end.

Definition is_alive (e : event) : bool :=
  match e with Ev lttng_session_daemon_alive _ => true | _ => false end.

Definition is_spawn (e : event) : bool :=
  match e with
  | Ev (subprocess_run argv) _ | Ev (subprocess_run_piped argv) _
  | Ev (subprocess_run_piped_text argv) _ =>
      bool_decide (argv = ["lttng-sessiond"; "--daemonize"])
  | _ => false
  end.

Definition is_environ_HOME (e : event) : bool :=
  match e with
  | Ev (os_environ_get name) _ => bool_decide (name = "HOME")
  | _ => false
  end.

(** The (handle, context) pairs of a context dictionary, in the order in
    which [_add_context] goes through them. *)
Definition context_pairs (contexts : dict Handle (list EventContext))
  : list (Handle * EventContext) :=
  contexts ≫= λ '(handle, contexts_list), (λ c, (handle, c)) <$> contexts_list.

(** ** The version of the bindings *)

(** [s.split(sep)] for a separator of one character: the pieces between the
    occurrences of [sep], empty ones included. *)
Fixpoint split_on (sep : ascii) (s : string) : list string :=
  match s with
  | EmptyString => [EmptyString]
  | String a s' =>
      if bool_decide (a = sep) then EmptyString :: split_on sep s'
      else match split_on sep s' with
           | word :: words => String a word :: words
           | [] => [String a EmptyString]
           end
  end.

(** [c not in s] *)
Definition lacks (c : ascii) (s : string) : bool :=
  str_forallb (λ a, negb (bool_decide (a = c))) s.

(** [s] is made of newlines only. *)
Definition newlines_only (s : string) : bool :=
  str_forallb (λ a, bool_decide (a = "010"%char)) s.

(** [sep.join(words)] *)
Fixpoint join_with (sep : ascii) (words : list string) : string :=
  match words with
  | [] => EmptyString
  | [word] => word
  | word :: words' => word +:+ String sep (join_with sep words')
  end.

(** A non-empty string of ASCII digits: what [[0-9]+] matches in full. *)
Definition is_number (s : string) : bool :=
  match s with
  | EmptyString => false
  | _ => str_forallb is_decimal_char s
  end.

(** [s] without its last character when that is a newline. *)
Fixpoint drop_final_newline (s : string) : string :=
  match s with
  | EmptyString => EmptyString
  | String a s' =>
      match s' with
      | EmptyString => if bool_decide (a = "010"%char) then EmptyString else s
      | _ => String a (drop_final_newline s')
      end
  end.

(** [re.compile(r'^[0-9]+\.[0-9]+\.[0-9]+$').match(s)] finds a match: three
    groups of digits separated by two dots; [$] also matches just before a
    newline that ends the string. *)
Definition version_pattern_match (s : string) : bool :=
  match split_on "."%char (drop_final_newline s) with
  | [major; minor; micro] => is_number major && is_number minor && is_number micro
  | _ => false
  end.

(** A [packaging.version.Version], kept as the string it is built from. *)
Inductive Version : Type := mkVersion (version_string : string).

(** [int(i) for i in release.split('.')]: the first group that [int]
    refuses decides. *)
Fixpoint release_numbers (groups : list string) : result (list Z) :=
  match groups with
  | [] => Ok []
  | group :: groups' =>
      n ← int group;
      numbers ← release_numbers groups';
      mret (n :: numbers)
  end.

(** [Version(version)] for a string of groups of digits separated by dots,
    the only kind [get_version] passes: the constructor converts each group
    with [int], which may raise. *)
Definition Version_of (version : string) : result Version :=
  _ ← release_numbers (split_on "."%char version);
  mret (mkVersion version).

(** What [get_version] does: it returns, or the indexing [split(' ')[1]]
    raises [IndexError], or the construction of the [Version] raises. *)
Inductive get_version_outcome : Type :=
| Returned (version : option Version)
| IndexError
| Raised (e : exn).

(** lines 37-54; [doc] is [lttng.__doc__]. *)
Definition get_version (doc : option string) : get_version_outcome :=
  let doc_lines := split_on "010"%char (format_opt doc) in
  let filtered_doc_lines := filter (λ line, line ≠ EmptyString) doc_lines in
  match filtered_doc_lines with
  | [] => Returned None
  | first_line :: _ =>
      match split_on " "%char first_line !! 1 with
      | None => IndexError
      | Some version_string =>
          if version_pattern_match version_string
          then match Version_of version_string with
               | Ok version => Returned (Some version)
               | Err e => Raised e
               end
          else Returned None
      end
  end.


(** The names of a list or set of context fields, which apply to every
    enabled domain. *)
Definition flat_names (context_fields : context_fields_t)
  : option (gset string) :=
  match context_fields with
  | CtxList l => Some (list_to_set l)
  | CtxSet s => Some s
  | CtxDict _ => None
  end.

(** ** A simulated environment

    A concrete environment, used to run the module on examples: environment
    variables, directories, files, a process table, and scripted answers for
    the daemon calls. *)

Record sim : Type := mkSim {
  sim_env : list (string * string);
  sim_dirs : list string;
  sim_files : list (string * string);
  (** live processes: PID and command name *)
  sim_procs : list (Z * string);
  (** answers of the successive [session_daemon_alive] calls, 1 afterwards *)
  sim_alive : list Z;
  (** what [lttng list -k] prints on its standard error when the kernel
      tracer is missing *)
  sim_kernel_error : option (list byte);
  (** results of the successive [create] and [destroy] calls, 0 afterwards *)
  sim_create : list Z;
  sim_destroy : list Z;
  (** result of every other daemon operation *)
  sim_result : Z;
  sim_next_handle : nat
}.

Definition sim_ps (w : sim) (pid : string) : CompletedProcess string :=
  match list_find (λ p, str_of_int p.1 = pid) (sim_procs w) with
  | Some (_, (_, comm)) => mkCompletedProcess 0 (comm +:+ nl) EmptyString
  | None => mkCompletedProcess 1 EmptyString EmptyString
  end.

Definition sim_lttng (w : sim) (argv : list string)
  : CompletedProcess (list byte) :=
  match argv with
  | ["lttng"; "list"; "-k"] =>
      match sim_kernel_error w with
      | Some e => mkCompletedProcess 1 [] e
      | None => mkCompletedProcess 0 [] []
      end
  | _ => mkCompletedProcess 0 [] []
  end.

Definition sim_text (w : sim) (argv : list string) : CompletedProcess string :=
  match argv with
  | ["ps"; "-o"; "comm="; pid] => sim_ps w pid
  | _ => mkCompletedProcess 0 EmptyString EmptyString
  end.

Definition sim_pop_alive (w : sim) : Z * sim :=
  match sim_alive w with
  | [] => (1%Z, w)
  | a :: l =>
      (a, mkSim (sim_env w) (sim_dirs w) (sim_files w) (sim_procs w) l
            (sim_kernel_error w) (sim_create w) (sim_destroy w) (sim_result w)
            (sim_next_handle w))
  end.

Definition sim_pop_create (w : sim) : Z * sim :=
  match sim_create w with
  | [] => (0%Z, w)
  | a :: l =>
      (a, mkSim (sim_env w) (sim_dirs w) (sim_files w) (sim_procs w)
            (sim_alive w) (sim_kernel_error w) l (sim_destroy w) (sim_result w)
            (sim_next_handle w))
  end.

Definition sim_pop_destroy (w : sim) : Z * sim :=
  match sim_destroy w with
  | [] => (0%Z, w)
  | a :: l =>
      (a, mkSim (sim_env w) (sim_dirs w) (sim_files w) (sim_procs w)
            (sim_alive w) (sim_kernel_error w) (sim_create w) l (sim_result w)
            (sim_next_handle w))
  end.

Definition sim_new_handle (w : sim) : option Handle * sim :=
  (Some (sim_next_handle w),
   mkSim (sim_env w) (sim_dirs w) (sim_files w) (sim_procs w)
     (sim_alive w) (sim_kernel_error w) (sim_create w) (sim_destroy w)
     (sim_result w) (S (sim_next_handle w))).

Definition sim_handler (X : Type) (c : call X) (w : sim) : X * sim :=
  match c in call X return X * sim with
  | os_environ_get name => (dict_get name (sim_env w), w)
  | os_path_isdir path => (bool_decide (path ∈ sim_dirs w), w)
  | os_path_isfile path => (bool_decide (is_Some (dict_get path (sim_files w))), w)
  | open_read path => (default EmptyString (dict_get path (sim_files w)), w)
  | subprocess_run argv => (mkCompletedProcess 0 () (), w)
  | subprocess_run_piped argv => (sim_lttng w argv, w)
  | subprocess_run_piped_text argv => (sim_text w argv, w)
  | lttng_session_daemon_alive => sim_pop_alive w
  | lttng_create _ _ => sim_pop_create w
  | lttng_destroy _ => sim_pop_destroy w
  | lttng_Handle _ _ => sim_new_handle w
  | lttng_start _ | lttng_stop _ | lttng_enable_channel _ _
  | lttng_enable_event _ _ _ | lttng_add_context _ _ => (sim_result w, w)
  end.

(** A healthy machine: a home without a recorded daemon, a daemon that
    answers, nothing on disk. *)
Definition sim_healthy : sim :=
  mkSim [("HOME", "/home/u")] [] [] [] [] None [] [] 0 1.

(** A session of the same name is left over; the daemon refuses to destroy
    it. *)
Definition sim_stale_session : sim :=
  mkSim [("HOME", "/home/u")] [] [] [] [] None [-28; 0]%Z [-1]%Z 0 1.

(** A session of the same name is left over, and creation is refused again
    after it has been destroyed. *)
Definition sim_stale_twice : sim :=
  mkSim [("HOME", "/home/u")] [] [] [] [] None [-28; -28]%Z [0]%Z 0 1.

(** The trace directory of session [s1] under [/tmp] is already there. *)
Definition sim_existing_directory : sim :=
  mkSim [("HOME", "/home/u")] ["/tmp/s1"] [] [] [] None [] [] 0 1.

(** The PID file records 0. *)
Definition sim_pid_zero : sim :=
  mkSim [("HOME", "/home/u")] []
    [("/home/u/.lttng/lttng-sessiond.pid", "0" +:+ nl)] [] [] None [] [] 0 1.

(** The PID file records 4242.  In [sim_daemon_4242] that process is the
    session daemon, in [sim_other_4242] it is a shell, in [sim_dead_4242]
    there is no such process. *)
Definition sim_daemon_4242 : sim :=
  mkSim [("HOME", "/home/u")] []
    [("/home/u/.lttng/lttng-sessiond.pid", "4242" +:+ nl)]
    [(4242%Z, "lttng-sessiond")] [] None [] [] 0 1.

Definition sim_other_4242 : sim :=
  mkSim [("HOME", "/home/u")] []
    [("/home/u/.lttng/lttng-sessiond.pid", "4242" +:+ nl)]
    [(4242%Z, "bash")] [] None [] [] 0 1.

Definition sim_dead_4242 : sim :=
  mkSim [("HOME", "/home/u")] []
    [("/home/u/.lttng/lttng-sessiond.pid", "4242" +:+ nl)]
    [] [] None [] [] 0 1.

(** The PID file holds the one character U+00B2, a superscript two. *)
Definition sim_pid_superscript : sim :=
  mkSim [("HOME", "/home/u")] []
    [("/home/u/.lttng/lttng-sessiond.pid", String "178"%char EmptyString)]
    [] [] None [] [] 0 1.

(** [a] repeated [n] times. *)
Fixpoint str_repeat (n : nat) (a : ascii) : string :=
  match n with
  | O => EmptyString
  | S n' => String a (str_repeat n' a)
  end.

(** The PID file holds 4301 times the digit 7. *)
Definition sim_pid_too_long : sim :=
  mkSim [("HOME", "/home/u")] []
    [("/home/u/.lttng/lttng-sessiond.pid", str_repeat 4301 "7")]
    [] [] None [] [] 0 1.

(** The kernel tracer is not installed. *)
Definition sim_no_kernel_tracer : sim :=
  mkSim [("HOME", "/home/u")] [] [] [] []
    (Some (list_byte_of_string ("Error: Unable to list kernel events" +:+ nl)))
    [] [] 0 1.

(** The kernel tracer is not installed, and [lttng list -k] prints the one
    byte 0xFF, which is not UTF-8. *)
Definition sim_kernel_error_not_utf8 : sim :=
  mkSim [("HOME", "/home/u")] [] [] [] [] (Some [xff]) [] [] 0 1.

(** The handles of a run with the userspace domain only, and with no domain
    at all. *)
Definition handles_userspace : dict string (option Handle) :=
  [("kernel", None); ("userspace", Some 1)].

Definition handles_none : dict string (option Handle) :=
  [("kernel", None); ("userspace", None)].

(** The handles of a run with both domains. *)
Definition handles_both : dict string (option Handle) :=
  [("kernel", Some 2); ("userspace", Some 1)].

(** Sample values for the parameters of the module. *)
Definition sample_strerror (code : Z) : string := "error " +:+ str_of_int code.

Definition sample_constants : gmap string (option string) :=
  {[ "pid" := Some "EVENT_CONTEXT_PID";
     "vpid" := Some "EVENT_CONTEXT_VPID";
     "procname" := Some "EVENT_CONTEXT_PROCNAME" ]}.

Definition sample_getattr (name : string) : option Z :=
  if String.eqb name "EVENT_CONTEXT_PID" then Some 0%Z
  else if String.eqb name "EVENT_CONTEXT_VPID" then Some 5%Z
  else if String.eqb name "EVENT_CONTEXT_PROCNAME" then Some 2%Z
  else None.

Definition sample_str_of_context (c : EventContext) : string :=
  "context " +:+ str_of_int (ctx c).

Definition sample_set_iter (s : gset string) : list string := elements s.

(** UTF-8 decoding for the sample runs, for the characters a [string] holds
    (U+0000 to U+00FF, on one byte or on two bytes that start with 0xC2 or
    0xC3).  A byte sequence that is not UTF-8 is rejected, as Python does;
    so is the encoding of a character beyond U+00FF, which the strings of
    this model cannot hold. *)
Fixpoint sample_decode (b : list byte) : result string :=
  match b with
  | [] => Ok EmptyString
  | c :: b' =>
      let n := Byte.to_N c in
      if (n <? 128)%N
      then s ← sample_decode b'; mret (String (ascii_of_byte c) s)
      else
        match b' with
        | c' :: b'' =>
            let n' := Byte.to_N c' in
            if ((n =? 194) || (n =? 195))%N && (128 <=? n')%N && (n' <? 192)%N
            then s ← sample_decode b'';
                 mret (String (ascii_of_N ((n - 192) * 64 + (n' - 128))) s)
            else Err UnicodeDecodeError
        | [] => Err UnicodeDecodeError
        end
  end.

(** Number of calls of a class in a trace. *)
Definition count_calls (P : event → bool) (tr : list event) : nat :=
  length (List.filter P tr).

(** ** The module *)

Section lttng_impl.

(** [lttng.strerror] *)
Variable strerror : Z → string.
(** [names.CONTEXT_TYPE_CONSTANTS_MAP]: generic context name to the name of
    the constant of the bindings, or [None]. *)
Variable CONTEXT_TYPE_CONSTANTS_MAP : gmap string (option string).
(** [getattr(lttng, name, None)] on the names of constants. *)
Variable lttng_getattr : string → option Z.
(** [str(context)] for an [lttng.EventContext]. *)
Variable str_of_context : EventContext → string.
(** The order in which a set is iterated: each element once. *)
Variable set_iter : gset string → list string.
Hypothesis set_iter_perm : ∀ s, set_iter s ≡ₚ elements s.
(** [b.decode()]: the text that the bytes encode in UTF-8, or the
    [UnicodeDecodeError] raised when they encode none. *)
Variable bytes_decode : list byte → result string.

(** The environment the module runs in: its state, and how it answers a
    call. *)
Variable W : Type.
Variable handler : ∀ X, call X → W → X * W.

Fixpoint run {A} (p : prog A) (w : W) : result A * list event * W :=
  match p with
  | Ret a => (Ok a, [], w)
  | Raise e => (Err e, [], w)
  | Call c k =>
      let '(x, w1) := handler _ c w in
      let '(r, tr, w2) := run (k x) w1 in
      (r, Ev c x :: tr, w2)
  end.

(** What the environment answers to [c] in state [w]. *)
Definition answer {X} (c : call X) (w : W) : X := (handler X c w).1.
Definition after {X} (c : call X) (w : W) : W := (handler X c w).2.

(** lines 57-72 *)
Definition is_kernel_tracer_available : prog (bool * option string) :=
  process ← call_ (subprocess_run_piped ["lttng"; "list"; "-k"]);
  if negb (0 =? returncode process)%Z
  then
    text ← lift (bytes_decode (stderr process));
    mret (false, Some (strip_chars nl text))
  else mret (true, None).

(** lines 75-83: [a or b] evaluates [b] only when [a] is false. *)
Definition get_lttng_home : prog (option string) :=
  home ← call_ (os_environ_get "LTTNG_HOME");
  if truthy home then mret home else call_ (os_environ_get "HOME").

(** lines 86-108 *)
Definition get_session_daemon_pid : prog (option Z) :=
  lttng_home ← get_lttng_home;
  match lttng_home with
  | Some (String _ _ as lttng_home) =>
      let lttng_sessiond_pid :=
        os_path_join lttng_home [".lttng"; "lttng-sessiond.pid"] in
      isfile ← call_ (os_path_isfile lttng_sessiond_pid);
      if negb isfile then mret None
      else
        content ← call_ (open_read lttng_sessiond_pid);
        let pid := strip content in
        if negb (isdigit pid) then mret None
        else n ← lift (int pid); mret (Some n)
  | _ => mret None
  end.

(** lines 111-137; [shlex.split] of the command line gives the four words. *)
Definition is_session_daemon_unreachable : prog bool :=
  pid ← get_session_daemon_pid;
  match pid with
  | None => mret false
  | Some pid =>
      process ← call_ (subprocess_run_piped_text
                         ["ps"; "-o"; "comm="; str_of_int pid]);
      mret ((1 =? returncode process)%Z
            || negb (String.eqb "lttng-sessiond" (strip (stdout process))))
  end.

(** lines 295-309 *)
Definition start (session_name : string) : prog () :=
  result ← call_ (lttng_start session_name);
  if (result <? 0)%Z
  then Raise (RuntimeError ("failed to start tracing: " +:+ strerror result))
  else mret ().

(** lines 312-328 *)
Definition stop (session_name : string) (ignore_error : bool) : prog () :=
  result ← call_ (lttng_stop session_name);
  if (result <? 0)%Z && negb ignore_error
  then Raise (RuntimeError ("failed to stop tracing: " +:+ strerror result))
  else mret ().

(** lines 331-347 *)
Definition destroy (session_name : string) (ignore_error : bool) : prog () :=
  result ← call_ (lttng_destroy session_name);
  if (result <? 0)%Z && negb ignore_error
  then Raise (RuntimeError
                ("failed to destroy tracing session: " +:+ strerror result))
  else mret ().

(** lines 350-366 *)
Definition _create_events (event_names : gset string) : list Event :=
  (λ event_name, mkEvent event_name EVENT_TRACEPOINT EVENT_LOGLEVEL_ALL)
    <$> set_iter event_names.

(** lines 369-387; [destroy] is called with its default [ignore_error]. *)
Definition _create_session (session_name full_path : string) : prog () :=
  result ← call_ (lttng_create session_name full_path);
  result ← (if (-28 =? result)%Z
            then destroy session_name false ;;
                 call_ (lttng_create session_name full_path)
            else mret result);
  if (result <? 0)%Z
  then Raise (RuntimeError ("session creation failed: " +:+ strerror result))
  else mret ().

(** lines 390-405 *)
Definition _create_handle (session_name : string) (domain : Domain)
  : prog Handle :=
  handle ← call_ (lttng_Handle session_name domain);
  match handle with
  | None => Raise (RuntimeError "handle creation failed")
  | Some handle => mret handle
  end.

(** lines 408-420 *)
Definition _enable_channel (handle : Handle) (channel : Channel) : prog () :=
  result ← call_ (lttng_enable_channel handle channel);
  if (result <? 0)%Z
  then Raise (RuntimeError ("channel enabling failed: " +:+ strerror result))
  else mret ().

(** lines 423-438 *)
Definition _enable_events (handle : Handle) (events_list : list Event)
    (channel_name : string) : prog () :=
  for_each events_list (λ event,
    result ← call_ (lttng_enable_event handle event channel_name);
    if (result <? 0)%Z
    then Raise (RuntimeError ("event enabling failed: " +:+ strerror result))
    else mret ()).

(** lines 441-444 *)
Definition context_map : gmap string (option Z) :=
  (λ name_constant, name_constant ≫= lttng_getattr)
    <$> CONTEXT_TYPE_CONSTANTS_MAP.

(** lines 447-456 *)
Definition _context_field_name_to_type (context_field_name : string)
  : option Z :=
  default None (context_map !! context_field_name).

Definition context_error (context_field_name : string) : exn :=
  RuntimeError ("failed to find context type: " +:+ context_field_name).

(** lines 459-477, on the names in iteration order *)
Fixpoint create_context_list_from (names : list string)
  : result (list EventContext) :=
  match names with
  | [] => Ok []
  | context_field_name :: names' =>
      match _context_field_name_to_type context_field_name with
      | Some context_type =>
          context_list ← create_context_list_from names';
          mret (mkEventContext context_type :: context_list)
      | None => Err (context_error context_field_name)
      end
  end.

Definition _create_context_list (context_fields : gset string)
  : result (list EventContext) :=
  create_context_list_from (set_iter context_fields).

(** A dictionary comprehension [{h: value(d, h) for d, h in items}]. *)
Fixpoint dict_comprehension {V} (value : string → Handle → result V)
    (items : list (string * Handle)) (acc : dict Handle V)
  : result (dict Handle V) :=
  match items with
  | [] => Ok acc
  | (d, h) :: items' =>
      v ← value d h;
      dict_comprehension value items' (dict_set h v acc)
  end.

(** line 492: the domains that have a handle *)
Definition enabled_handles (handles : dict string (option Handle))
  : dict string Handle :=
  omap (λ '(domain, handle), (λ h, (domain, h)) <$> handle) handles.

(** [context_fields[d]] *)
Definition getitem (context_fields : gmap string (list string)) (d : string)
  : result (list string) :=
  match context_fields !! d with
  | Some l => Ok l
  | None => Err (KeyError d)
  end.

(** lines 480-501 *)
Definition _normalize_contexts_dict (handles : dict string (option Handle))
    (context_fields : context_fields_t)
  : result (dict Handle (list EventContext)) :=
  let handles := enabled_handles handles in
  match context_fields with
  | CtxSet s =>
      dict_comprehension (λ _ h, _create_context_list s) handles []
  | CtxDict m =>
      dict_comprehension
        (λ d h, l ← getitem m d; _create_context_list (list_to_set l))
        handles []
  | CtxList _ => Err AssertionError
  end.

(** lines 504-517 *)
Definition _add_context (contexts : dict Handle (list EventContext))
  : prog () :=
  for_each contexts (λ '(handle, contexts_list),
    for_each contexts_list (λ context,
      result ← call_ (lttng_add_context handle context);
      if (result <? 0)%Z
      then Raise (RuntimeError
                    ("failed to add context field " +:+ str_of_context context
                     +:+ ": " +:+ strerror result))
      else mret ())).

Definition unreachable_message : string :=
  "lttng-sessiond seems to exist, but is unreachable. "
  +:+ "If using two containers with the same HOME directory, set the LTTNG_HOME environment "
  +:+ "variable to the path to a unique directory for each container and make sure that the "
  +:+ "directory exists. See: https://bugs.lttng.org/issues/1371".

Definition kernel_unavailable_message (message : option string) : string :=
  "kernel tracer is not available: " +:+ format_opt message +:+ nl
  +:+ "  cannot use kernel events:" +:+ nl
  +:+ "    'ros2 trace' command: cannot use '-k' option" +:+ nl
  +:+ "    'Trace' action: cannot set 'events_kernel'/'events-kernel' list" +:+ nl
  +:+ "  install the kernel tracer, e.g., on Ubuntu, install lttng-modules-dkms" +:+ nl
  +:+ "  see: https://github.com/ros2/ros2_tracing#building".

Definition directory_exists_message (full_path : string) : string :=
  "trace directory already exists, use the append option to append to it: "
  +:+ full_path.

(** lines 191-206 of [setup]: spawn a session daemon if there is none, then
    the two checks on it. *)
Definition ensure_session_daemon : prog () :=
  alive ← call_ lttng_session_daemon_alive;
  (if (alive =? 0)%Z
   then call_ (subprocess_run ["lttng-sessiond"; "--daemonize"]) ;; mret ()
   else mret ()) ;;
  unreachable ← is_session_daemon_unreachable;
  if unreachable : bool then Raise (RuntimeError unreachable_message)
  else
    alive ← call_ lttng_session_daemon_alive;
    if (alive =? 0)%Z
    then Raise (RuntimeError "failed to start lttng session daemon")
    else mret ().

(** lines 208-220 of [setup] *)
Definition check_kernel_tracer (kernel_events : str_collection) : prog () :=
  if (0 <? len kernel_events)%nat
  then
    available ← is_kernel_tracer_available;
    let (kernel_tracer_available, message) := available : bool * option string in
    if negb kernel_tracer_available
    then Raise (RuntimeError (kernel_unavailable_message message))
    else mret ()
  else mret ().

(** lines 235-251 and 254-268 of [setup]: the domain and channel objects *)
Definition domain_ust : Domain := mkDomain DOMAIN_UST BUFFER_PER_UID.
Definition domain_kernel : Domain := mkDomain DOMAIN_KERNEL BUFFER_GLOBAL.

Definition make_channel (name : string) (subbuffer_size : Z) : Channel :=
  mkChannel name (mkChannelAttr 0 subbuffer_size 2 0 200 EVENT_MMAP).

(** lines 278-280 and 283-285 of [setup] *)
Definition enable_domain (session_name : string) (domain : Domain)
    (channel : Channel) (events_list : list Event) : prog (option Handle) :=
  handle ← _create_handle session_name domain;
  _enable_channel handle channel ;;
  _enable_events handle events_list (channel_name channel) ;;
  mret (Some handle).

(** lines 222-292 of [setup] *)
Definition configure_session (session_name full_path : string)
    (ros_events kernel_events : str_collection)
    (context_fields : context_fields_t)
    (channel_name_ust channel_name_kernel : string)
    (subbuffer_size_ust subbuffer_size_kernel : Z) : prog string :=
  let ros_events := to_set ros_events in
  let kernel_events := to_set kernel_events in
  let context_fields :=
    match context_fields with
    | CtxList l => CtxSet (list_to_set l)
    | _ => context_fields
    end in
  let ust_enabled := (0 <? size ros_events)%nat in
  let kernel_enabled := (0 <? size kernel_events)%nat in
  let channel_ust := make_channel channel_name_ust subbuffer_size_ust in
  let events_list_ust := _create_events ros_events in
  let channel_kernel := make_channel channel_name_kernel subbuffer_size_kernel in
  let events_list_kernel := _create_events kernel_events in
  _create_session session_name full_path ;;
  handle_ust ← (if ust_enabled
                then enable_domain session_name domain_ust channel_ust
                       events_list_ust
                else mret None);
  handle_kernel ← (if kernel_enabled
                   then enable_domain session_name domain_kernel channel_kernel
                          events_list_kernel
                   else mret None);
  contexts_dict ← lift (_normalize_contexts_dict
                          [("kernel", handle_kernel); ("userspace", handle_ust)]
                          context_fields);
  _add_context contexts_dict ;;
  mret full_path.

(** lines 140-292; the keyword arguments are passed in the order of the
    signature, without defaults. *)
Definition setup (session_name base_path : string) (append_trace : bool)
    (ros_events kernel_events : str_collection)
    (context_fields : context_fields_t)
    (channel_name_ust channel_name_kernel : string)
    (subbuffer_size_ust subbuffer_size_kernel : Z) : prog string :=
  if bool_decide (session_name = EmptyString)
  then Raise (RuntimeError "empty session name")
  else
    let full_path := os_path_join base_path [session_name] in
    isdir ← call_ (os_path_isdir full_path);
    if isdir && negb append_trace
    then Raise (RuntimeError (directory_exists_message full_path))
    else
      ensure_session_daemon ;;
      check_kernel_tracer kernel_events ;;
      configure_session session_name full_path ros_events kernel_events
        context_fields channel_name_ust channel_name_kernel
        subbuffer_size_ust subbuffer_size_kernel.

(** ** The statements of the specification that the code does not satisfy

    Each is written down as the specification words it, to be refuted on a
    concrete run. *)

(** "When session creation returns -28, the stale session is destroyed and
    creation is retried exactly once." *)
Definition create_session_retry_claim : Prop :=
  ∀ session_name full_path w,
    answer (lttng_create session_name full_path) w = (-28)%Z →
    let trace := (run (_create_session session_name full_path) w).1.2 in
    count_calls is_destroy trace = 1 ∧ count_calls is_create trace = 2.

(** The content of a file is a positive integer: blanks apart, it is the
    decimal writing of some [n > 0]. *)
Definition positive_integer_text (content : string) : Prop :=
  ∃ n : Z, (0 < n)%Z ∧ int (strip content) = Ok n.

(** "[get_session_daemon_pid] returns [None] whenever the content of the PID
    file is not a positive integer." *)
Definition pid_file_content_claim : Prop :=
  ∀ w lttng_home tr w1,
    run get_lttng_home w = (Ok (Some lttng_home), tr, w1) →
    lttng_home ≠ EmptyString →
    let pid_file := os_path_join lttng_home [".lttng"; "lttng-sessiond.pid"] in
    answer (os_path_isfile pid_file) w1 = true →
    let content := answer (open_read pid_file) (after (os_path_isfile pid_file) w1) in
    ¬ positive_integer_text content →
    (run get_session_daemon_pid w).1.1 = Ok None.


(** "With a per-domain mapping, an enabled domain absent from the mapping gets
    an empty context list, not an error." *)
Definition normalize_absent_domain_claim : Prop :=
  ∀ (handles : dict string (option Handle)) (m : gmap string (list string))
    (d : string) (h : Handle),
    (d, Some h) ∈ handles →
    m !! d = None →
    ∃ plan, _normalize_contexts_dict handles (CtxDict m) = Ok plan
            ∧ dict_get h plan = Some [].


(** ** Running programs *)

Lemma run_call {A X} (c : call X) (k : X → prog A) w :
  run (Call c k) w =
    (let '(r, tr, w2) := run (k (answer c w)) (after c w) in
     (r, Ev c (answer c w) :: tr, w2)).
Proof.
  unfold answer, after. simpl. by destruct (handler X c w).
Qed.

Lemma run_call_bind {A X} (c : call X) (k : X → prog A) w :
  run (call_ c ≫= k) w =
    (let '(r, tr, w2) := run (k (answer c w)) (after c w) in
     (r, Ev c (answer c w) :: tr, w2)).
Proof. apply run_call. Qed.

Lemma run_bind {A B} (p : prog A) (k : A → prog B) w :
  run (p ≫= k) w =
    match run p w with
    | (Ok a, tr, w1) =>
        let '(r, tr', w2) := run (k a) w1 in (r, tr ++ tr', w2)
    | (Err e, tr, w1) => (Err e, tr, w1)
    end.
Proof.
  revert w. induction p as [a|e|X c k' IH]; intros w.
  - change (run (k a) w = let '(r, tr', w2) := run (k a) w in (r, [] ++ tr', w2)).
    by destruct (run (k a) w) as [[r tr'] w2].
  - done.
  - change (run (Call c (λ x, k' x ≫= k)) w = match run (Call c k') w with
      | (Ok a, tr, w1) => let '(r, tr', w2) := run (k a) w1 in (r, tr ++ tr', w2)
      | (Err e, tr, w1) => (Err e, tr, w1) end).
    rewrite !run_call, IH.
    destruct (run (k' (answer c w)) (after c w)) as [[[a|e] tr] w1]; [|done].
    by destruct (run (k a) w1) as [[r tr'] w2].
Qed.

(** ** [stop], [destroy] and session creation *)

Lemma run_stop session_name ignore_error w :
  let result := answer (lttng_stop session_name) w in
  run (stop session_name ignore_error) w =
    (if (result <? 0)%Z && negb ignore_error
     then Err (RuntimeError ("failed to stop tracing: " +:+ strerror result))
     else Ok (),
     [Ev (lttng_stop session_name) result],
     after (lttng_stop session_name) w).
Proof.
  intros result. unfold stop. rewrite run_call_bind. fold result.
  by destruct ((result <? 0)%Z && negb ignore_error).
Qed.

Lemma run_destroy session_name ignore_error w :
  let result := answer (lttng_destroy session_name) w in
  run (destroy session_name ignore_error) w =
    (if (result <? 0)%Z && negb ignore_error
     then Err (RuntimeError
                 ("failed to destroy tracing session: " +:+ strerror result))
     else Ok (),
     [Ev (lttng_destroy session_name) result],
     after (lttng_destroy session_name) w).
Proof.
  intros result. unfold destroy. rewrite run_call_bind. fold result.
  by destruct ((result <? 0)%Z && negb ignore_error).
Qed.

Lemma negative_and_not_ignored (result : Z) (ignore_error : bool) :
  (result <? 0)%Z && negb ignore_error = true
  ↔ (result < 0)%Z ∧ ignore_error = false.
Proof.
  rewrite andb_true_iff, negb_true_iff, Z.ltb_lt. tauto.
Qed.

(** C8. [stop] makes the one client call and raises [RuntimeError] with the
    daemon's error string exactly when the result is negative and
    [ignore_error] is false; otherwise, in particular with [ignore_error]
    set and a negative result, it returns normally.  [destroy] likewise. *)
Theorem stop_destroy_raise_iff session_name ignore_error w :
  let rs := answer (lttng_stop session_name) w in
  let rd := answer (lttng_destroy session_name) w in
  let out_stop := run (stop session_name ignore_error) w in
  let out_destroy := run (destroy session_name ignore_error) w in
  (out_stop.1.1 = Err (RuntimeError ("failed to stop tracing: " +:+ strerror rs))
   ↔ (rs < 0)%Z ∧ ignore_error = false)
  ∧ (out_stop.1.1 = Ok () ↔ ¬ ((rs < 0)%Z ∧ ignore_error = false))
  ∧ out_stop.1.2 = [Ev (lttng_stop session_name) rs]
  ∧ (out_destroy.1.1 =
       Err (RuntimeError ("failed to destroy tracing session: " +:+ strerror rd))
     ↔ (rd < 0)%Z ∧ ignore_error = false)
  ∧ (out_destroy.1.1 = Ok () ↔ ¬ ((rd < 0)%Z ∧ ignore_error = false))
  ∧ out_destroy.1.2 = [Ev (lttng_destroy session_name) rd].
Proof.
  intros rs rd out_stop out_destroy. subst out_stop out_destroy.
  rewrite run_stop, run_destroy. cbn [fst snd]. fold rs rd.
  rewrite <- !negative_and_not_ignored.
  destruct ((rs <? 0)%Z && negb ignore_error);
    destruct ((rd <? 0)%Z && negb ignore_error); naive_solver.
Qed.

Lemma run_create_session session_name full_path w :
  let r1 := answer (lttng_create session_name full_path) w in
  let w1 := after (lttng_create session_name full_path) w in
  let d := answer (lttng_destroy session_name) w1 in
  let w2 := after (lttng_destroy session_name) w1 in
  let r2 := answer (lttng_create session_name full_path) w2 in
  let w3 := after (lttng_create session_name full_path) w2 in
  let check (code : Z) : result () :=
    if (code <? 0)%Z
    then Err (RuntimeError ("session creation failed: " +:+ strerror code))
    else Ok () in
  run (_create_session session_name full_path) w =
    if (-28 =? r1)%Z
    then if (d <? 0)%Z
         then (Err (RuntimeError
                      ("failed to destroy tracing session: " +:+ strerror d)),
               [Ev (lttng_create session_name full_path) r1;
                Ev (lttng_destroy session_name) d], w2)
         else (check r2,
               [Ev (lttng_create session_name full_path) r1;
                Ev (lttng_destroy session_name) d;
                Ev (lttng_create session_name full_path) r2], w3)
    else (check r1, [Ev (lttng_create session_name full_path) r1], w1).
Proof.
  intros r1 w1 d w2 r2 w3 check. unfold _create_session.
  rewrite run_call_bind. fold r1 w1.
  destruct (-28 =? r1)%Z.
  - rewrite run_bind, run_bind, run_destroy. fold d w2.
    rewrite andb_true_r. destruct (d <? 0)%Z; [done|].
    change (run (call_ ?c) w2) with (run (Call c Ret) w2).
    rewrite run_call. fold r2 w3. cbn [run app]. unfold check.
    by destruct (r2 <? 0)%Z.
  - rewrite run_bind. cbn [run mret prog_ret app]. unfold check.
    by destruct (r1 <? 0)%Z.
Qed.

(** C9. On the retry path the stale session is destroyed without error
    suppression: when the first [create] answers -28 and [destroy] answers a
    negative result, [_create_session] raises the error of [destroy] at once;
    the calls made are the first [create] and the [destroy], and no second
    [create]. *)
Theorem create_session_destroy_failure session_name full_path w :
  let r1 := answer (lttng_create session_name full_path) w in
  let w1 := after (lttng_create session_name full_path) w in
  let d := answer (lttng_destroy session_name) w1 in
  r1 = (-28)%Z →
  (d < 0)%Z →
  run (_create_session session_name full_path) w =
    (Err (RuntimeError ("failed to destroy tracing session: " +:+ strerror d)),
     [Ev (lttng_create session_name full_path) r1;
      Ev (lttng_destroy session_name) d],
     after (lttng_destroy session_name) w1).
Proof.
  intros r1 w1 d Hr1 Hd. rewrite run_create_session. fold r1 w1 d.
  rewrite Hr1. cbn [Z.eqb Pos.eqb].
  by apply Z.ltb_lt in Hd as ->.
Qed.

(** C2 (as amended). When the first [create] answers -28, the stale session
    is destroyed and, provided that [destroy] does not fail, creation is
    retried exactly once: whatever the retry answers, no further call is
    made, and a negative answer (a second -28 included) is raised as an
    error.  A negative first answer other than -28 is raised at once, with
    no [destroy] and no retry. *)
Theorem create_session_retry session_name full_path w :
  let r1 := answer (lttng_create session_name full_path) w in
  let w1 := after (lttng_create session_name full_path) w in
  let d := answer (lttng_destroy session_name) w1 in
  let w2 := after (lttng_destroy session_name) w1 in
  let r2 := answer (lttng_create session_name full_path) w2 in
  let w3 := after (lttng_create session_name full_path) w2 in
  (r1 = (-28)%Z → (0 ≤ d)%Z →
   run (_create_session session_name full_path) w =
     (if (r2 <? 0)%Z
      then Err (RuntimeError ("session creation failed: " +:+ strerror r2))
      else Ok (),
      [Ev (lttng_create session_name full_path) r1;
       Ev (lttng_destroy session_name) d;
       Ev (lttng_create session_name full_path) r2], w3))
  ∧ (r1 ≠ (-28)%Z → (r1 < 0)%Z →
     run (_create_session session_name full_path) w =
       (Err (RuntimeError ("session creation failed: " +:+ strerror r1)),
        [Ev (lttng_create session_name full_path) r1], w1)).
Proof.
  intros r1 w1 d w2 r2 w3. split.
  - intros Hr1 Hd. rewrite run_create_session. fold r1 w1 d w2 r2 w3.
    rewrite Hr1. cbn [Z.eqb Pos.eqb].
    by apply Z.ltb_ge in Hd as ->.
  - intros Hr1 Hneg. rewrite run_create_session. fold r1 w1.
    destruct (Z.eqb_spec (-28) r1) as [Heq|_]; [by rewrite <- Heq in Hr1|].
    by apply Z.ltb_lt in Hneg as ->.
Qed.

(** ** Validation of the arguments of [setup] *)

(** C6. With an empty session name [setup] raises and makes no call at all.
    With a non-empty name, [append_trace] false and the directory
    [os.path.join(base_path, session_name)] present, it raises the
    "directory already exists" error that names this path; the only call
    made is the directory test, so no daemon call. *)
Theorem setup_validation base_path ros_events kernel_events context_fields
    channel_name_ust channel_name_kernel subbuffer_size_ust
    subbuffer_size_kernel w :
  (∀ append_trace,
     run (setup EmptyString base_path append_trace ros_events kernel_events
            context_fields channel_name_ust channel_name_kernel
            subbuffer_size_ust subbuffer_size_kernel) w =
       (Err (RuntimeError "empty session name"), [], w))
  ∧ (∀ session_name,
       session_name ≠ EmptyString →
       let full_path := os_path_join base_path [session_name] in
       answer (os_path_isdir full_path) w = true →
       let out :=
         run (setup session_name base_path false ros_events kernel_events
                context_fields channel_name_ust channel_name_kernel
                subbuffer_size_ust subbuffer_size_kernel) w in
       out =
         (Err (RuntimeError
                 ("trace directory already exists, use the append option to append to it: "
                  +:+ full_path)),
          [Ev (os_path_isdir full_path) true],
          after (os_path_isdir full_path) w)
       ∧ count_calls is_daemon_call out.1.2 = 0).
Proof.
  split.
  - done.
  - intros session_name Hname full_path Hdir out. subst out.
    unfold setup. rewrite bool_decide_eq_false_2 by done.
    fold full_path. rewrite run_call_bind, Hdir. done.
Qed.

(** ** The recorded session daemon *)

Lemma run_get_lttng_home w :
  let h1 := answer (os_environ_get "LTTNG_HOME") w in
  let w1 := after (os_environ_get "LTTNG_HOME") w in
  let h2 := answer (os_environ_get "HOME") w1 in
  let w2 := after (os_environ_get "HOME") w1 in
  run get_lttng_home w =
    if truthy h1 then (Ok h1, [Ev (os_environ_get "LTTNG_HOME") h1], w1)
    else (Ok h2, [Ev (os_environ_get "LTTNG_HOME") h1;
                  Ev (os_environ_get "HOME") h2], w2).
Proof.
  intros h1 w1 h2 w2. unfold get_lttng_home. rewrite run_call_bind.
  fold h1 w1. destruct (truthy h1); [done|].
  change (run (call_ ?c) w1) with (run (Call c Ret) w1).
  by rewrite run_call.
Qed.

Lemma decimal_char_isdigit a : is_decimal_char a = true → isdigit_char a = true.
Proof.
  unfold is_decimal_char, isdigit_char. cbv zeta. intros ->. done.
Qed.

Lemma decimal_isdigit s :
  s ≠ EmptyString → str_forallb is_decimal_char s = true → isdigit s = true.
Proof.
  intros Hne Hall. destruct s as [|a s]; [done|]. unfold isdigit.
  clear Hne. revert Hall. generalize (String a s). clear a s.
  induction s as [|a s IH]; [done|]. cbn [str_forallb].
  rewrite !andb_true_iff. intros [Ha Hs]. auto using decimal_char_isdigit.
Qed.

Lemma int_decimal s :
  s ≠ EmptyString → str_forallb is_decimal_char s = true →
  (String.length s ≤ 4300)%nat →
  int s = Ok (decimal_value 0 s).
Proof.
  intros Hne Hall Hlen%Nat.leb_le. destruct s as [|a s]; [done|].
  unfold int, int_max_str_digits. by rewrite Hall, Hlen.
Qed.

Lemma int_too_long s :
  str_forallb is_decimal_char s = true → (4300 < String.length s)%nat →
  int s = Err (ValueError s).
Proof.
  intros Hall Hlen%Nat.leb_gt. destruct s as [|a s]; [done|].
  unfold int, int_max_str_digits. by rewrite Hall, Hlen.
Qed.

Lemma int_not_decimal s :
  str_forallb is_decimal_char s = false → int s = Err (ValueError s).
Proof.
  intros Hall. destruct s as [|a s]; [done|]. unfold int. by rewrite Hall.
Qed.

(** C7 (as amended). [get_session_daemon_pid] returns [None] when the home is
    not resolved (unset or empty), when the PID file is absent, and when the
    content of the file, blanks stripped, is empty or has a character that is
    not a digit; when the stripped content is made of decimal digits, at most
    4300 of them, it returns the integer they write in base 10, zero
    included. *)
Theorem get_session_daemon_pid_cases w lttng_home tr w1 :
  run get_lttng_home w = (Ok lttng_home, tr, w1) →
  (truthy lttng_home = false →
   run get_session_daemon_pid w = (Ok None, tr, w1))
  ∧ (∀ home,
       lttng_home = Some home → home ≠ EmptyString →
       let pid_file := os_path_join home [".lttng"; "lttng-sessiond.pid"] in
       let w2 := after (os_path_isfile pid_file) w1 in
       let content := answer (open_read pid_file) w2 in
       let w3 := after (open_read pid_file) w2 in
       (answer (os_path_isfile pid_file) w1 = false →
        run get_session_daemon_pid w =
          (Ok None, tr ++ [Ev (os_path_isfile pid_file) false], w2))
       ∧ (answer (os_path_isfile pid_file) w1 = true →
          isdigit (strip content) = false →
          run get_session_daemon_pid w =
            (Ok None,
             tr ++ [Ev (os_path_isfile pid_file) true;
                    Ev (open_read pid_file) content], w3))
       ∧ (answer (os_path_isfile pid_file) w1 = true →
          strip content ≠ EmptyString →
          str_forallb is_decimal_char (strip content) = true →
          (String.length (strip content) ≤ 4300)%nat →
          run get_session_daemon_pid w =
            (Ok (Some (decimal_value 0 (strip content))),
             tr ++ [Ev (os_path_isfile pid_file) true;
                    Ev (open_read pid_file) content], w3))).
Proof.
  intros Hhome. split.
  - intros Hfalse. unfold get_session_daemon_pid. rewrite run_bind, Hhome.
    destruct lttng_home as [[|a home]|]; try done;
      cbn [run mret prog_ret]; by rewrite app_nil_r.
  - intros home -> Hne pid_file w2 content w3.
    unfold get_session_daemon_pid. rewrite run_bind, Hhome.
    destruct home as [|a home]; [done|].
    fold pid_file. rewrite run_call_bind. fold w2.
    split; [|split].
    + intros ->. done.
    + intros -> Hdigit. cbn [negb]. rewrite run_call_bind.
      fold content w3. by rewrite Hdigit.
    + intros -> Hstrip Hall Hlen. cbn [negb]. rewrite run_call_bind.
      fold content w3. rewrite decimal_isdigit by done. cbn [negb].
      rewrite run_bind, int_decimal by done. done.
Qed.

(** X23. [is_session_daemon_unreachable] follows the outcome of
    [get_session_daemon_pid].  An exception of the latter goes through, and
    [ps] is not run.  On [None] the answer is [False], and [ps] is not run
    either.  On a PID the function runs [ps -o comm= PID], as its only further
    call, and answers [True] when [ps] exits with status 1 (no such process),
    [True] when the command name printed, blanks stripped, differs from
    [lttng-sessiond], and [False] otherwise. *)
Theorem session_daemon_unreachable_cases w found tr w1 :
  run get_session_daemon_pid w = (found, tr, w1) →
  match found with
  | Err e => run is_session_daemon_unreachable w = (Err e, tr, w1)
  | Ok None => run is_session_daemon_unreachable w = (Ok false, tr, w1)
  | Ok (Some pid) =>
      let ps :=
        subprocess_run_piped_text ["ps"; "-o"; "comm="; str_of_int pid] in
      let process := answer ps w1 in
      ∃ unreachable,
        run is_session_daemon_unreachable w =
          (Ok unreachable, tr ++ [Ev ps process], after ps w1)
        ∧ (returncode process = 1%Z → unreachable = true)
        ∧ (strip (stdout process) ≠ "lttng-sessiond" → unreachable = true)
        ∧ (returncode process ≠ 1%Z →
           strip (stdout process) = "lttng-sessiond" → unreachable = false)
  end.
Proof.
  intros Hpid. destruct found as [[pid|]|e].
  3:{ unfold is_session_daemon_unreachable. by rewrite run_bind, Hpid. }
  - intros ps process.
    unfold is_session_daemon_unreachable. rewrite run_bind, Hpid. fold ps.
    change (run (call_ ps ≫= ?k) w1) with (run (Call ps k) w1).
    rewrite run_call. fold process. cbn [run mret prog_ret].
    eexists; split; [reflexivity|]. split; [|split].
    + intros Hcode. apply orb_true_iff. left. apply Z.eqb_eq. by symmetry.
    + intros Hname. apply orb_true_iff. right. apply negb_true_iff.
      apply String.eqb_neq. intros Heq. by apply Hname.
    + intros Hcode Hname. apply orb_false_iff. split.
      * apply Z.eqb_neq. intros Heq. by apply Hcode.
      * apply negb_false_iff, String.eqb_eq. by symmetry.
  - unfold is_session_daemon_unreachable. rewrite run_bind, Hpid.
    cbn [run mret prog_ret]. by rewrite app_nil_r.
Qed.

(** ** Context fields *)

Lemma elem_of_set_iter (s : gset string) n : n ∈ set_iter s ↔ n ∈ s.
Proof. by rewrite set_iter_perm, elem_of_elements. Qed.

Lemma NoDup_set_iter (s : gset string) : NoDup (set_iter s).
Proof. rewrite set_iter_perm. apply NoDup_elements. Qed.

Lemma create_context_list_from_ok names :
  (∀ n, n ∈ names → is_Some (_context_field_name_to_type n)) →
  ∃ cl, create_context_list_from names = Ok cl
        ∧ Forall2 (λ n c, _context_field_name_to_type n = Some (ctx c)) names cl.
Proof.
  induction names as [|n names IH]; intros Hall.
  - exists []. by split.
  - destruct (Hall n) as [ty Hty]; [by left|].
    destruct IH as (cl & Hcl & Hrel).
    { intros n' Hn'. apply Hall. by right. }
    exists (mkEventContext ty :: cl). cbn [create_context_list_from].
    rewrite Hty, Hcl. split; [done|]. by constructor.
Qed.

Lemma create_context_list_from_inv names cl :
  create_context_list_from names = Ok cl →
  Forall2 (λ n c, _context_field_name_to_type n = Some (ctx c)) names cl.
Proof.
  revert cl. induction names as [|n names IH]; intros cl; cbn [create_context_list_from].
  - intros [= <-]. constructor.
  - destruct (_context_field_name_to_type n) as [ty|] eqn:Hty; [|done].
    destruct (create_context_list_from names) as [cl'|e]; [|done].
    intros [= <-]. constructor; [done|]. by apply IH.
Qed.


Lemma create_context_list_from_err_inv names e :
  create_context_list_from names = Err e →
  ∃ n, n ∈ names ∧ _context_field_name_to_type n = None ∧ e = context_error n.
Proof.
  induction names as [|n names IH]; cbn [create_context_list_from]; [done|].
  destruct (_context_field_name_to_type n) as [ty|] eqn:Hty.
  - destruct (create_context_list_from names) as [cl|e'] eqn:Hrest; [done|].
    intros [= <-]. destruct (IH eq_refl) as (n' & Hin & Hnone & ->).
    exists n'. split_and!; [by right|done|done].
  - intros [= <-]. exists n. split_and!; [by left|done|done].
Qed.

Lemma elem_of_enabled_handles (handles : dict string (option Handle)) d h :
  (d, h) ∈ enabled_handles handles ↔ (d, Some h) ∈ handles.
Proof.
  unfold enabled_handles. rewrite list_elem_of_omap. split.
  - intros ([d' [h'|]] & Hin & Heq); simplify_eq/=. done.
  - intros Hin. exists (d, Some h). done.
Qed.

Lemma dict_set_fresh {V} (h : Handle) (v : V) (acc : dict Handle V) :
  h ∉ acc.*1 → dict_set h v acc = acc ++ [(h, v)].
Proof.
  induction acc as [|[h' v'] acc IH]; [done|]. cbn [dict_set fmap list_fmap fst app].
  rewrite not_elem_of_cons. intros [Hne Hnotin].
  rewrite decide_False by done. by rewrite IH.
Qed.

Lemma elem_of_dict_set {V} (h h' : Handle) (v v' : V) (acc : dict Handle V) :
  (h', v') ∈ dict_set h v acc → (h', v') ∈ acc ∨ (h' = h ∧ v' = v).
Proof.
  induction acc as [|[h0 v0] acc IH]; cbn [dict_set].
  - rewrite list_elem_of_singleton. intros [= -> ->]. by right.
  - destruct (decide (h = h0)) as [->|Hne]; rewrite !elem_of_cons.
    + intros [[= -> ->]|Hin]; [by right|]. left. by right.
    + intros [Heq|Hin]; [left; by left|].
      destruct (IH Hin) as [?|?]; [left; by right|by right].
Qed.

Lemma dict_get_NoDup {V} (h : Handle) (v : V) (d : dict Handle V) :
  NoDup d.*1 → (h, v) ∈ d → dict_get h d = Some v.
Proof.
  induction d as [|[h0 v0] d IH]; [by intros _ ?%elem_of_nil|].
  cbn [fmap list_fmap fst dict_get]. rewrite NoDup_cons, elem_of_cons.
  intros [Hnotin Hnodup] [[= -> ->]|Hin].
  - by rewrite decide_True.
  - rewrite decide_False; [by apply IH|].
    intros ->. apply Hnotin. by apply (list_elem_of_fmap_2 fst) in Hin.
Qed.

Lemma dict_comprehension_ok {V} (value : string → Handle → result V)
    items acc plan :
  Forall2 (λ '(d, h) '(h', v), h' = h ∧ value d h = Ok v) items plan →
  NoDup (acc.*1 ++ items.*2) →
  dict_comprehension value items acc = Ok (acc ++ plan).
Proof.
  intros Hrel. revert acc.
  induction Hrel as [|[d h] [h' v] items plan [-> Hv] Hrel IH]; intros acc Hnodup.
  - by rewrite app_nil_r.
  - cbn [dict_comprehension]. rewrite Hv.
    change (dict_comprehension value items (dict_set h v acc) = Ok (acc ++ (h, v) :: plan)).
    cbn [fmap list_fmap snd] in Hnodup.
    rewrite dict_set_fresh.
    + rewrite IH; [by rewrite <- app_assoc|].
      rewrite fmap_app. cbn [fmap list_fmap fst]. by rewrite <- app_assoc.
    + apply NoDup_app in Hnodup as (_ & Hdisj & _).
      intros Hin. apply (Hdisj h Hin). by left.
Qed.

Lemma dict_comprehension_err {V} (value : string → Handle → result V)
    items acc :
  (∃ d h, (d, h) ∈ items ∧ is_ok (value d h) = false) →
  ∃ d h e, (d, h) ∈ items ∧ value d h = Err e
           ∧ dict_comprehension value items acc = Err e.
Proof.
  revert acc. induction items as [|[d h] items IH]; intros acc (d' & h' & Hin & Hbad).
  - by apply elem_of_nil in Hin.
  - cbn [dict_comprehension]. destruct (value d h) as [v|e] eqn:Hv.
    + destruct (IH (dict_set h v acc)) as (d0 & h0 & e0 & Hin0 & Hv0 & Herr).
      { apply elem_of_cons in Hin as [[= -> ->]|Hin]; [by rewrite Hv in Hbad|]. eauto. }
      exists d0, h0, e0. split_and!; [by right|done|done].
    + exists d, h, e. split_and!; [by left|done|done].
Qed.

Lemma dict_comprehension_values {V} (value : string → Handle → result V)
    items acc plan :
  dict_comprehension value items acc = Ok plan →
  ∀ h v, (h, v) ∈ plan →
         (h, v) ∈ acc ∨ ∃ d, (d, h) ∈ items ∧ value d h = Ok v.
Proof.
  revert acc. induction items as [|[d h0] items IH]; intros acc; cbn [dict_comprehension].
  - intros [= <-] h v Hin. by left.
  - destruct (value d h0) as [v0|e] eqn:Hv; [|done].
    intros Hrest h v Hin.
    destruct (IH _ Hrest h v Hin) as [Hacc|(d' & Hin' & Hv')].
    + apply elem_of_dict_set in Hacc as [?|[-> ->]]; [by left|].
      right. exists d. split; [by left|done].
    + right. exists d'. split; [by right|done].
Qed.

Lemma dict_comprehension_err_inv {V} (value : string → Handle → result V)
    items acc e :
  dict_comprehension value items acc = Err e →
  ∃ d h, (d, h) ∈ items ∧ value d h = Err e.
Proof.
  revert acc. induction items as [|[d h] items IH]; intros acc;
    cbn [dict_comprehension]; [done|].
  destruct (value d h) as [v|e'] eqn:Hv.
  - intros (d' & h' & Hin & Herr)%IH. exists d', h'. split; [by right|done].
  - intros [= <-]. exists d, h. split; [by left|done].
Qed.

(** The exceptions of [_normalize_contexts_dict]. *)
Lemma normalize_errors (handles : dict string (option Handle))
    context_fields e :
  _normalize_contexts_dict handles context_fields = Err e →
  match context_fields with
  | CtxList _ => e = AssertionError
  | CtxSet s =>
      ∃ n, n ∈ s ∧ _context_field_name_to_type n = None ∧ e = context_error n
  | CtxDict m =>
      (∃ d h, (d, Some h) ∈ handles ∧ m !! d = None ∧ e = KeyError d)
      ∨ (∃ d h l n, (d, Some h) ∈ handles ∧ m !! d = Some l ∧ n ∈ l
                    ∧ _context_field_name_to_type n = None
                    ∧ e = context_error n)
  end.
Proof.
  unfold _normalize_contexts_dict. destruct context_fields as [l|s|m].
  - by intros [= <-].
  - intros (d & h & _ & Hv)%dict_comprehension_err_inv.
    apply create_context_list_from_err_inv in Hv as (n & Hin & Hn & ->).
    exists n. by rewrite <- elem_of_set_iter.
  - intros (d & h & Hin%elem_of_enabled_handles & Hv)%dict_comprehension_err_inv.
    unfold getitem in Hv. destruct (m !! d) as [l|] eqn:Hl.
    + right. apply create_context_list_from_err_inv in Hv as (n & Hn & Hty & ->).
      apply elem_of_set_iter, elem_of_list_to_set in Hn.
      by exists d, h, l, n.
    + left. injection Hv as <-. by exists d, h.
Qed.

Lemma comprehension_values_exist {V} (value : string → Handle → result V)
    (items : list (string * Handle)) :
  (∀ d h, (d, h) ∈ items → is_ok (value d h) = true) →
  ∃ plan, Forall2 (λ '(d, h) '(h', v), h' = h ∧ value d h = Ok v) items plan.
Proof.
  induction items as [|[d h] items IH]; intros Hall.
  - exists []. constructor.
  - destruct IH as [plan Hplan].
    { intros d' h' Hin. apply Hall. by right. }
    specialize (Hall d h (list_elem_of_here _ _)).
    destruct (value d h) as [v|] eqn:Hv; [|done].
    exists ((h, v) :: plan). by constructor.
Qed.

Lemma comprehension_keys {V} (value : string → Handle → result V)
    (items : list (string * Handle)) (plan : dict Handle V) :
  Forall2 (λ '(d, h) '(h', v), h' = h ∧ value d h = Ok v) items plan →
  plan.*1 = items.*2.
Proof.
  induction 1 as [|[d h] [h' v] items plan [-> _] _ IH]; [done|].
  cbn [fmap list_fmap fst snd]. f_equal. exact IH.
Qed.

Lemma comprehension_entry {V} (value : string → Handle → result V)
    (items : list (string * Handle)) (plan : dict Handle V) d h :
  Forall2 (λ '(d, h) '(h', v), h' = h ∧ value d h = Ok v) items plan →
  (d, h) ∈ items →
  ∃ v, (h, v) ∈ plan ∧ value d h = Ok v.
Proof.
  induction 1 as [|[d0 h0] [h' v] items plan [-> Hv] _ IH].
  - by intros ?%elem_of_nil.
  - rewrite elem_of_cons. intros [[= -> ->]|Hin].
    + exists v. split; [by left|done].
    + destruct (IH Hin) as (v' & Hin' & Hv'). exists v'. split; [by right|done].
Qed.

(** The value computed for a domain of a per-domain mapping. *)
Lemma mapping_value_inv (m : gmap string (list string)) d cl :
  (l ← getitem m d; _create_context_list (list_to_set l)) = Ok cl →
  ∃ l names,
    m !! d = Some l ∧ NoDup names ∧ (∀ n, n ∈ names ↔ n ∈ l)
    ∧ Forall2 (λ n c, _context_field_name_to_type n = Some (ctx c)) names cl.
Proof.
  unfold getitem. destruct (m !! d) as [l|]; [|done].
  change (_create_context_list (list_to_set l) = Ok cl → ∃ l0 names,
    Some l = Some l0 ∧ NoDup names ∧ (∀ n, n ∈ names ↔ n ∈ l0)
    ∧ Forall2 (λ n c, _context_field_name_to_type n = Some (ctx c)) names cl).
  intros Hcl%create_context_list_from_inv.
  exists l, (set_iter (list_to_set l)). split_and!; [done| |  |done].
  - apply NoDup_set_iter.
  - intros n. by rewrite elem_of_set_iter, elem_of_list_to_set.
Qed.

Lemma enabled_handles_app (pre post : dict string (option Handle)) :
  enabled_handles (pre ++ post) = enabled_handles pre ++ enabled_handles post.
Proof. apply omap_app. Qed.

Lemma dict_comprehension_app_err {V} (value : string → Handle → result V)
    items d h rest acc e :
  (∀ d' h', (d', h') ∈ items → is_ok (value d' h') = true) →
  value d h = Err e →
  dict_comprehension value (items ++ (d, h) :: rest) acc = Err e.
Proof.
  revert acc. induction items as [|[d0 h0] items IH]; intros acc Hitems Hv.
  - cbn [app dict_comprehension]. by rewrite Hv.
  - cbn [app dict_comprehension].
    specialize (Hitems d0 h0 (list_elem_of_here _ _)) as Hok.
    destruct (value d0 h0) as [v0|]; [|done].
    apply IH; [|done]. intros d' h' Hin. apply Hitems. by right.
Qed.

(** C1 (as amended). With a per-domain mapping that has a key for every
    enabled domain, names that all resolve and distinct handles,
    [_normalize_contexts_dict] returns a dictionary with one entry per enabled
    domain, in the order of [handles]; the entry of a domain holds one
    context per distinct name supplied for that domain, with the type the
    name resolves to.  An enabled domain that is not a key of the mapping
    makes the call fail.  The call raises [KeyError] with the name of the
    first such domain in the order of [handles], when the names listed for
    the domains enabled before it resolve; in every case it raises the
    [KeyError] of an enabled domain that is not a key, or the [RuntimeError]
    of a name listed for an enabled domain that does not resolve. *)
Theorem normalize_per_domain_mapping (handles : dict string (option Handle))
    (m : gmap string (list string)) :
  ((∀ d h, (d, Some h) ∈ handles →
           ∃ l, m !! d = Some l
                ∧ ∀ n, n ∈ l → is_Some (_context_field_name_to_type n)) →
   NoDup (enabled_handles handles).*2 →
   ∃ plan,
     _normalize_contexts_dict handles (CtxDict m) = Ok plan
     ∧ plan.*1 = (enabled_handles handles).*2
     ∧ ∀ d h, (d, Some h) ∈ handles →
         ∃ l names cl,
           m !! d = Some l ∧ dict_get h plan = Some cl
           ∧ NoDup names ∧ (∀ n, n ∈ names ↔ n ∈ l)
           ∧ Forall2 (λ n c, _context_field_name_to_type n = Some (ctx c))
               names cl)
  ∧ (∀ before d h rest,
       handles = before ++ (d, Some h) :: rest →
       m !! d = None →
       (∀ d' h', (d', Some h') ∈ before →
                 ∃ l, m !! d' = Some l
                      ∧ ∀ n, n ∈ l → is_Some (_context_field_name_to_type n)) →
       _normalize_contexts_dict handles (CtxDict m) = Err (KeyError d))
  ∧ (∀ d h, (d, Some h) ∈ handles → m !! d = None →
       ∃ e,
         _normalize_contexts_dict handles (CtxDict m) = Err e
         ∧ ((∃ d' h', (d', Some h') ∈ handles ∧ m !! d' = None
                      ∧ e = KeyError d')
            ∨ (∃ d' h' l n,
                 (d', Some h') ∈ handles ∧ m !! d' = Some l ∧ n ∈ l
                 ∧ _context_field_name_to_type n = None
                 ∧ e = RuntimeError ("failed to find context type: " +:+ n)))).
Proof.
  split_and!.
  - intros Hkeys Hnodup. unfold _normalize_contexts_dict.
    set (value := λ (d : string) (h : Handle),
           l ← getitem m d; _create_context_list (list_to_set l)).
    destruct (comprehension_values_exist value (enabled_handles handles))
      as [plan Hplan].
    { intros d h Hin%elem_of_enabled_handles.
      destruct (Hkeys d h Hin) as (l & Hl & Hres). unfold value, getitem.
      rewrite Hl.
      destruct (create_context_list_from_ok (set_iter (list_to_set l)))
        as (cl & Hcl & _).
      { intros n Hn%elem_of_set_iter%elem_of_list_to_set. auto. }
      change (is_ok (create_context_list_from (set_iter (list_to_set l))) = true).
      by rewrite Hcl. }
    pose proof (comprehension_keys _ _ _ Hplan) as Hfst.
    exists plan. split_and!.
    + by apply (dict_comprehension_ok value _ []).
    + done.
    + intros d h Hin%elem_of_enabled_handles.
      destruct (comprehension_entry _ _ _ _ _ Hplan Hin) as (cl & Hcl & Hv).
      apply mapping_value_inv in Hv as (l & names & Hl & Hnd & Hnames & Hrel).
      exists l, names, cl. split_and!; try done.
      apply dict_get_NoDup; [by rewrite Hfst|done].
  - intros before d h rest -> Hnone Hbefore.
    unfold _normalize_contexts_dict. rewrite enabled_handles_app.
    change (enabled_handles ((d, Some h) :: rest))
      with ((d, h) :: enabled_handles rest).
    apply dict_comprehension_app_err.
    + intros d' h' Hin%elem_of_enabled_handles.
      destruct (Hbefore d' h' Hin) as (l & Hl & Hres). unfold getitem.
      rewrite Hl.
      destruct (create_context_list_from_ok (set_iter (list_to_set l)))
        as (cl & Hcl & _).
      { intros n Hn%elem_of_set_iter%elem_of_list_to_set. auto. }
      change (is_ok (create_context_list_from (set_iter (list_to_set l))) = true).
      by rewrite Hcl.
    + unfold getitem. by rewrite Hnone.
  - intros d h Hin Hnone.
    destruct (_normalize_contexts_dict handles (CtxDict m)) as [plan|e] eqn:Hrun.
    + exfalso. unfold _normalize_contexts_dict in Hrun.
      edestruct (dict_comprehension_err
                   (λ d h, l ← getitem m d; _create_context_list (list_to_set l))
                   (enabled_handles handles) []) as (d' & h' & e & _ & _ & Herr).
      { exists d, h. split; [by apply elem_of_enabled_handles|].
        unfold getitem. by rewrite Hnone. }
      congruence.
    + exists e. split; [done|]. exact (normalize_errors _ _ _ Hrun).
Qed.

(** ** Calls that a program never makes *)

Lemma never_bind {A B} P (p : prog A) (k : A → prog B) :
  never P p → (∀ a, never P (k a)) → never P (p ≫= k).
Proof.
  intros Hp Hk. induction p as [a|e|X c k' IH]; [apply Hk|done|].
  intros x. destruct (Hp x) as [Hc Hk']. split; [done|]. by apply IH.
Qed.

Lemma never_for_each {X} P (l : list X) (body : X → prog ()) :
  (∀ x, never P (body x)) → never P (for_each l body).
Proof.
  intros Hbody. induction l as [|x l IH]; [done|].
  apply never_bind; [apply Hbody|]. intros _. exact IH.
Qed.

Lemma never_run {A} P (p : prog A) w :
  never P p → Forall (λ e, P e = false) (run p w).1.2.
Proof.
  revert w. induction p as [a|e|X c k IH]; intros w Hp; [constructor..|].
  rewrite run_call. destruct (Hp (answer c w)) as [Hc Hk].
  specialize (IH _ (after c w) Hk).
  destruct (run (k (answer c w)) (after c w)) as [[r tr] w2].
  by constructor.
Qed.

Section never_in_setup.

(** A class of calls that contains none of the calls made before the checks
    on the kernel tracer: environment, files, [ps], the spawning of the
    daemon and its liveness test. *)
Variable P : event → bool.
Hypothesis P_environ : ∀ name x, P (Ev (os_environ_get name) x) = false.
Hypothesis P_isdir : ∀ path x, P (Ev (os_path_isdir path) x) = false.
Hypothesis P_isfile : ∀ path x, P (Ev (os_path_isfile path) x) = false.
Hypothesis P_read : ∀ path x, P (Ev (open_read path) x) = false.
Hypothesis P_alive : ∀ x, P (Ev lttng_session_daemon_alive x) = false.
Hypothesis P_spawn :
  ∀ x, P (Ev (subprocess_run ["lttng-sessiond"; "--daemonize"]) x) = false.
Hypothesis P_ps :
  ∀ pid x, P (Ev (subprocess_run_piped_text ["ps"; "-o"; "comm="; pid]) x)
           = false.

Lemma never_get_session_daemon_pid : never P get_session_daemon_pid.
Proof.
  unfold get_session_daemon_pid, get_lttng_home.
  apply never_bind.
  - apply never_bind; [intros x; split; [apply P_environ|exact I]|].
    intros home. destruct (truthy home); [exact I|].
    intros x. split; [apply P_environ|exact I].
  - intros [[|a home]|]; [exact I| |exact I].
    apply never_bind; [intros x; split; [apply P_isfile|exact I]|].
    intros isfile. destruct (negb isfile); [exact I|].
    apply never_bind; [intros x; split; [apply P_read|exact I]|].
    intros content. destruct (negb (isdigit (strip content))); [exact I|].
    apply never_bind; [|by intros ?]. by destruct (int (strip content)).
Qed.

Lemma never_ensure_session_daemon : never P ensure_session_daemon.
Proof.
  unfold ensure_session_daemon, is_session_daemon_unreachable.
  apply never_bind; [intros x; split; [apply P_alive|exact I]|].
  intros alive. apply never_bind.
  { destruct (alive =? 0)%Z; [|exact I].
    apply never_bind; [|by intros ?]. intros x. split; [apply P_spawn|exact I]. }
  intros _. apply never_bind.
  { apply never_bind; [apply never_get_session_daemon_pid|].
    intros [pid|]; [|exact I].
    apply never_bind; [|by intros ?]. intros x. split; [apply P_ps|exact I]. }
  intros unreachable. destruct unreachable; [exact I|].
  apply never_bind; [intros x; split; [apply P_alive|exact I]|].
  intros alive'. by destruct (alive' =? 0)%Z.
Qed.

End never_in_setup.

Lemma never_create_session P session_name full_path :
  (∀ x, P (Ev (lttng_create session_name full_path) x) = false) →
  (∀ x, P (Ev (lttng_destroy session_name) x) = false) →
  never P (_create_session session_name full_path).
Proof.
  intros Hcreate Hdestroy. unfold _create_session, destroy.
  apply never_bind; [intros x; split; [apply Hcreate|exact I]|].
  intros r1. apply never_bind.
  - destruct (-28 =? r1)%Z; [|exact I]. apply never_bind.
    + apply never_bind; [intros x; split; [apply Hdestroy|exact I]|].
      intros d. by destruct ((d <? 0)%Z && negb false).
    + intros _ x. split; [apply Hcreate|exact I].
  - intros r. by destruct (r <? 0)%Z.
Qed.

Section never_in_configure.

(** A class of calls that contains none of the daemon operations of
    [configure_session]. *)
Variable P : event → bool.
Hypothesis P_create : ∀ n p x, P (Ev (lttng_create n p) x) = false.
Hypothesis P_destroy : ∀ n x, P (Ev (lttng_destroy n) x) = false.
Hypothesis P_handle : ∀ n d x, P (Ev (lttng_Handle n d) x) = false.
Hypothesis P_channel : ∀ h c x, P (Ev (lttng_enable_channel h c) x) = false.
Hypothesis P_event : ∀ h e c x, P (Ev (lttng_enable_event h e c) x) = false.

Lemma never_enable_domain session_name domain channel events_list :
  never P (enable_domain session_name domain channel events_list).
Proof.
  unfold enable_domain, _create_handle, _enable_channel, _enable_events.
  apply never_bind.
  - apply never_bind; [intros x; split; [apply P_handle|exact I]|].
    by intros [h|].
  - intros h. apply never_bind.
    + apply never_bind; [intros x; split; [apply P_channel|exact I]|].
      intros r. by destruct (r <? 0)%Z.
    + intros _. apply never_bind; [|by intros ?].
      apply never_for_each. intros e.
      apply never_bind; [intros x; split; [apply P_event|exact I]|].
      intros r. by destruct (r <? 0)%Z.
Qed.

Hypothesis P_context : ∀ h c x, P (Ev (lttng_add_context h c) x) = false.

Lemma never_add_context contexts : never P (_add_context contexts).
Proof.
  unfold _add_context. apply never_for_each. intros [h cl].
  apply never_for_each. intros c.
  apply never_bind; [intros x; split; [apply P_context|exact I]|].
  intros r. by destruct (r <? 0)%Z.
Qed.

Lemma never_configure_session session_name full_path ros_events kernel_events
    context_fields channel_name_ust channel_name_kernel subbuffer_size_ust
    subbuffer_size_kernel :
  never P (configure_session session_name full_path ros_events kernel_events
             context_fields channel_name_ust channel_name_kernel
             subbuffer_size_ust subbuffer_size_kernel).
Proof.
  unfold configure_session. cbv zeta.
  apply never_bind; [by apply never_create_session|]. intros _.
  apply never_bind.
  { destruct (0 <? size (to_set ros_events))%nat;
      [apply never_enable_domain|exact I]. }
  intros handle_ust. apply never_bind.
  { destruct (0 <? size (to_set kernel_events))%nat;
      [apply never_enable_domain|exact I]. }
  intros handle_kernel. apply never_bind.
  { by destruct (_normalize_contexts_dict _ _). }
  intros contexts_dict. apply never_bind; [apply never_add_context|by intros ?].
Qed.

End never_in_configure.

(** ** The steps of [setup] *)

Lemma run_is_kernel_tracer_available w :
  let probe := subprocess_run_piped kernel_probe_argv in
  let process := answer probe w in
  run is_kernel_tracer_available w =
    (if negb (0 =? returncode process)%Z
     then match bytes_decode (stderr process) with
          | Ok text => Ok (false, Some (strip_chars nl text))
          | Err e => Err e
          end
     else Ok (true, None),
     [Ev probe process], after probe w).
Proof.
  intros probe process. unfold is_kernel_tracer_available.
  rewrite run_call_bind.
  change (subprocess_run_piped ["lttng"; "list"; "-k"]) with probe.
  change (answer probe w) with process.
  destruct (negb (0 =? returncode process)%Z); [|done].
  by destruct (bytes_decode (stderr process)).
Qed.

Lemma run_check_kernel_tracer kernel_events w :
  let probe := subprocess_run_piped kernel_probe_argv in
  let process := answer probe w in
  run (check_kernel_tracer kernel_events) w =
    if (0 <? len kernel_events)%nat
    then (if negb (0 =? returncode process)%Z
          then match bytes_decode (stderr process) with
               | Ok text =>
                   Err (RuntimeError
                          (kernel_unavailable_message
                             (Some (strip_chars nl text))))
               | Err e => Err e
               end
          else Ok (),
          [Ev probe process], after probe w)
    else (Ok (), [], w).
Proof.
  intros probe process. unfold check_kernel_tracer.
  destruct (0 <? len kernel_events)%nat; [|done].
  rewrite run_bind, run_is_kernel_tracer_available. fold probe process.
  destruct (negb (0 =? returncode process)%Z); [|done].
  by destruct (bytes_decode (stderr process)).
Qed.

Lemma run_setup session_name base_path append_trace ros_events kernel_events
    context_fields channel_name_ust channel_name_kernel subbuffer_size_ust
    subbuffer_size_kernel w :
  session_name ≠ EmptyString →
  let full_path := os_path_join base_path [session_name] in
  let isdir := answer (os_path_isdir full_path) w in
  let w1 := after (os_path_isdir full_path) w in
  run (setup session_name base_path append_trace ros_events kernel_events
         context_fields channel_name_ust channel_name_kernel
         subbuffer_size_ust subbuffer_size_kernel) w =
    if isdir && negb append_trace
    then (Err (RuntimeError (directory_exists_message full_path)),
          [Ev (os_path_isdir full_path) isdir], w1)
    else
      match run ensure_session_daemon w1 with
      | (Err e, tr_d, w2) => (Err e, Ev (os_path_isdir full_path) isdir :: tr_d, w2)
      | (Ok _, tr_d, w2) =>
          match run (check_kernel_tracer kernel_events) w2 with
          | (Err e, tr_k, w3) =>
              (Err e, Ev (os_path_isdir full_path) isdir :: tr_d ++ tr_k, w3)
          | (Ok _, tr_k, w3) =>
              let '(r, tr_c, w4) :=
                run (configure_session session_name full_path ros_events
                       kernel_events context_fields channel_name_ust
                       channel_name_kernel subbuffer_size_ust
                       subbuffer_size_kernel) w3 in
              (r, Ev (os_path_isdir full_path) isdir :: tr_d ++ tr_k ++ tr_c, w4)
          end
      end.
Proof.
  intros Hname full_path isdir w1. unfold setup.
  rewrite bool_decide_eq_false_2 by done. fold full_path.
  rewrite run_call_bind. fold isdir w1.
  destruct (isdir && negb append_trace); [done|].
  rewrite run_bind.
  destruct (run ensure_session_daemon w1) as [[[[]|e] tr_d] w2]; [|done].
  rewrite run_bind.
  destruct (run (check_kernel_tracer kernel_events) w2) as [[[[]|e] tr_k] w3];
    [|done].
  destruct (run (configure_session _ _ _ _ _ _ _ _ _) w3) as [[r tr_c] w4].
  by rewrite app_assoc.
Qed.

Lemma Forall_not_Exists (P : event → bool) tr :
  Forall (λ e, P e = false) tr → ¬ Exists (λ e, P e = true) tr.
Proof.
  intros Hall Hex. apply Exists_exists in Hex as (e & Hin & He).
  rewrite Forall_forall in Hall. specialize (Hall e Hin). congruence.
Qed.

Lemma ensure_session_daemon_no_probe w :
  Forall (λ e, is_kernel_probe e = false) (run ensure_session_daemon w).1.2.
Proof. apply never_run, never_ensure_session_daemon; done. Qed.

Lemma ensure_session_daemon_no_domain_call w :
  Forall (λ e, is_domain_call e = false) (run ensure_session_daemon w).1.2.
Proof. apply never_run, never_ensure_session_daemon; done. Qed.

Lemma configure_session_no_probe session_name full_path ros_events
    kernel_events context_fields channel_name_ust channel_name_kernel
    subbuffer_size_ust subbuffer_size_kernel w :
  Forall (λ e, is_kernel_probe e = false)
    (run (configure_session session_name full_path ros_events kernel_events
            context_fields channel_name_ust channel_name_kernel
            subbuffer_size_ust subbuffer_size_kernel) w).1.2.
Proof. apply never_run, never_configure_session; done. Qed.

(** ** The check on the kernel tracer *)

(** X24. In a run of [setup] the probe [lttng list -k] is invoked only when
    [kernel_events] is not empty, and only after the steps on the session
    daemon (spawn if absent, unreachable daemon, liveness) have been run and
    have passed: the calls before the probe are the directory test and those
    of these steps.  When the probe exits with a non-zero status, it is the
    last call of [setup], and no handle, channel, event or context call is
    made.  If what the probe printed on its standard error decodes, [setup]
    raises the [RuntimeError] whose message is the six lines below, the
    first of which carries the decoded text, newlines at its two ends
    removed; if it does not decode, the exception of the decoding goes
    through. *)
Theorem kernel_tracer_check session_name base_path append_trace ros_events
    kernel_events context_fields channel_name_ust channel_name_kernel
    subbuffer_size_ust subbuffer_size_kernel w :
  let full_path := os_path_join base_path [session_name] in
  let isdir := os_path_isdir full_path in
  let probe := subprocess_run_piped kernel_probe_argv in
  let out :=
    run (setup session_name base_path append_trace ros_events kernel_events
           context_fields channel_name_ust channel_name_kernel
           subbuffer_size_ust subbuffer_size_kernel) w in
  Exists (λ e, is_kernel_probe e = true) out.1.2 →
  (0 < len kernel_events)%nat
  ∧ ∃ tr_d w2 process post,
      run ensure_session_daemon (after isdir w) = (Ok (), tr_d, w2)
      ∧ process = answer probe w2
      ∧ out.1.2 = Ev isdir (answer isdir w) :: tr_d ++ Ev probe process :: post
      ∧ Forall (λ e, is_kernel_probe e = false) (Ev isdir (answer isdir w) :: tr_d)
      ∧ Forall (λ e, is_kernel_probe e = false) post
      ∧ (returncode process ≠ 0%Z →
         post = []
         ∧ Forall (λ e, is_domain_call e = false) out.1.2
         ∧ match bytes_decode (stderr process) with
           | Ok text =>
               out.1.1 =
                 Err (RuntimeError
                        ("kernel tracer is not available: "
                         +:+ strip_chars nl text +:+ nl
                         +:+ "  cannot use kernel events:" +:+ nl
                         +:+ "    'ros2 trace' command: cannot use '-k' option"
                         +:+ nl
                         +:+ "    'Trace' action: cannot set 'events_kernel'/'events-kernel' list"
                         +:+ nl
                         +:+ "  install the kernel tracer, e.g., on Ubuntu, install lttng-modules-dkms"
                         +:+ nl
                         +:+ "  see: https://github.com/ros2/ros2_tracing#building"))
           | Err e => out.1.1 = Err e
           end).
Proof.
  intros full_path isdir probe out. subst out.
  destruct (decide (session_name = EmptyString)) as [->|Hname].
  { intros Hex. by apply Exists_nil in Hex. }
  rewrite run_setup by done. fold full_path isdir.
  destruct (answer isdir w && negb append_trace).
  { intros Hex. apply Exists_cons in Hex as [Hex|Hex]; [done|].
    by apply Exists_nil in Hex. }
  pose proof (ensure_session_daemon_no_probe (after isdir w)) as Hd_probe.
  pose proof (ensure_session_daemon_no_domain_call (after isdir w)) as Hd_dom.
  destruct (run ensure_session_daemon (after isdir w)) as [[[[]|e] tr_d] w2];
    cbn [fst snd] in Hd_probe, Hd_dom.
  2:{ intros Hex. cbn [fst snd] in Hex.
      apply Exists_cons in Hex as [Hex|Hex]; [done|].
      by apply Forall_not_Exists in Hd_probe. }
  rewrite run_check_kernel_tracer. fold probe.
  pose proof (configure_session_no_probe session_name full_path ros_events
                kernel_events context_fields channel_name_ust
                channel_name_kernel subbuffer_size_ust subbuffer_size_kernel)
    as Hc_probe.
  destruct (0 <? len kernel_events)%nat eqn:Hlen.
  - apply Nat.ltb_lt in Hlen. intros _. split; [done|].
    exists tr_d, w2, (answer probe w2).
    destruct (0 =? returncode (answer probe w2))%Z eqn:Hcode; cbn [negb].
    + specialize (Hc_probe (after probe w2)).
      destruct (run (configure_session _ _ _ _ _ _ _ _ _) (after probe w2))
        as [[r tr_c] w4]. cbn [fst snd] in *.
      exists tr_c. split_and!; try done.
      * by constructor.
      * apply Z.eqb_eq in Hcode. congruence.
    + assert (Forall (λ e, is_domain_call e = false)
                (Ev isdir (answer isdir w) :: tr_d ++ [Ev probe (answer probe w2)]))
        as Hdom.
      { constructor; [done|]. apply Forall_app. split; [done|].
        by repeat constructor. }
      exists [].
      destruct (bytes_decode (stderr (answer probe w2))) as [text|e];
        cbn [fst snd]; split_and!; try done; by constructor.
  - specialize (Hc_probe w2).
    destruct (run (configure_session _ _ _ _ _ _ _ _ _) w2) as [[r tr_c] w4].
    cbn [fst snd app] in *. intros Hex.
    apply Exists_cons in Hex as [Hex|Hex]; [done|].
    apply Exists_app in Hex as [Hex|Hex];
      by eapply Forall_not_Exists in Hex.
Qed.

(** ** [setup] without events *)

Lemma len_0_to_set c : len c = 0 → size (to_set c) = 0.
Proof.
  destruct c as [l|s]; cbn [len to_set]; [|done].
  intros ->%length_zero_iff_nil. apply size_empty.
Qed.

Lemma configure_session_without_events session_name full_path ros_events
    kernel_events context_fields channel_name_ust channel_name_kernel
    subbuffer_size_ust subbuffer_size_kernel :
  len ros_events = 0 → len kernel_events = 0 →
  configure_session session_name full_path ros_events kernel_events
    context_fields channel_name_ust channel_name_kernel subbuffer_size_ust
    subbuffer_size_kernel
  = (_create_session session_name full_path ;; mret full_path).
Proof.
  intros Hros%len_0_to_set Hkernel%len_0_to_set. unfold configure_session.
  cbv zeta. rewrite Hros, Hkernel. by destruct context_fields.
Qed.

Lemma Forall_or_probe tr :
  Forall (λ e, is_domain_call_or_probe e = false) tr →
  Forall (λ e, is_domain_call e = false ∧ is_kernel_probe e = false) tr.
Proof.
  intros Hall. eapply Forall_impl; [exact Hall|].
  intros e. unfold is_domain_call_or_probe. apply orb_false_iff.
Qed.

(** C10. With no ROS event and no kernel event, [setup] makes no handle,
    channel, event or context call and does not probe the kernel tracer,
    whatever the environment answers.  When the directory test, the steps on
    the session daemon and the creation of the session pass, it returns
    [os.path.join(base_path, session_name)], and its calls are exactly those
    of these three steps. *)
Theorem setup_without_events session_name base_path append_trace ros_events
    kernel_events context_fields channel_name_ust channel_name_kernel
    subbuffer_size_ust subbuffer_size_kernel w :
  len ros_events = 0 →
  len kernel_events = 0 →
  session_name ≠ EmptyString →
  let full_path := os_path_join base_path [session_name] in
  let isdir := os_path_isdir full_path in
  let out :=
    run (setup session_name base_path append_trace ros_events kernel_events
           context_fields channel_name_ust channel_name_kernel
           subbuffer_size_ust subbuffer_size_kernel) w in
  Forall (λ e, is_domain_call e = false ∧ is_kernel_probe e = false) out.1.2
  ∧ (answer isdir w && negb append_trace = false →
     ∀ tr_d w2 tr_c w3,
       run ensure_session_daemon (after isdir w) = (Ok (), tr_d, w2) →
       run (_create_session session_name full_path) w2 = (Ok (), tr_c, w3) →
       out = (Ok full_path, Ev isdir (answer isdir w) :: tr_d ++ tr_c, w3)).
Proof.
  intros Hros Hkernel Hname full_path isdir out. subst out.
  rewrite run_setup by done. fold full_path isdir.
  assert (Forall (λ e, is_domain_call_or_probe e = false)
            (run ensure_session_daemon (after isdir w)).1.2) as Hd.
  { apply never_run, never_ensure_session_daemon; done. }
  assert (∀ w2, Forall (λ e, is_domain_call_or_probe e = false)
            (run (_create_session session_name full_path ;; mret full_path)
               w2).1.2) as Hc.
  { intros w2.
    apply never_run, never_bind; [by apply never_create_session|done]. }
  destruct (answer isdir w && negb append_trace).
  { split; [by repeat constructor|done]. }
  destruct (run ensure_session_daemon (after isdir w)) as [[[[]|e] tr_d] w2];
    cbn [fst snd] in Hd.
  - rewrite run_check_kernel_tracer, Hkernel. cbn [Nat.ltb Nat.leb].
    rewrite configure_session_without_events by done.
    specialize (Hc w2). rewrite run_bind in Hc |- *.
    destruct (run (_create_session session_name full_path) w2)
      as [[[[]|e] tr_c] w3] eqn:Hrun; cbn [run mret prog_ret fst snd app] in *.
    + split.
      * apply Forall_or_probe. constructor; [done|]. by apply Forall_app.
      * intros _ ? ? ? ? ? Hcreate. simplify_eq. rewrite Hrun in Hcreate.
        simplify_eq. by rewrite app_nil_r.
    + split; [|intros _ ? ? ? ? ? Hcreate; simplify_eq;
                rewrite Hrun in Hcreate; simplify_eq].
      apply Forall_or_probe. constructor; [done|]. by apply Forall_app.
  - split; [|intros _ ? ? ? ? ? ?; simplify_eq].
    apply Forall_or_probe. by constructor.
Qed.

(** ** Unresolved context names *)









(** * Further properties of the module *)

(** ** Life cycle of a session *)

(** X1. [start] makes the one client call and raises [RuntimeError] with the
    daemon's error string exactly when the result is negative; there is no
    way to have the error ignored. *)
Theorem start_raises_iff session_name w :
  let r := answer (lttng_start session_name) w in
  let out := run (start session_name) w in
  (out.1.1 = Err (RuntimeError ("failed to start tracing: " +:+ strerror r))
   ↔ (r < 0)%Z)
  ∧ (out.1.1 = Ok () ↔ (0 ≤ r)%Z)
  ∧ out.1.2 = [Ev (lttng_start session_name) r]
  ∧ out.2 = after (lttng_start session_name) w.
Proof.
  intros r out. subst out. unfold start.
  change (run (call_ ?c ≫= ?k) w) with (run (Call c k) w).
  rewrite run_call. fold r.
  destruct (Z.ltb_spec r 0); cbn [run mret prog_ret fst snd];
    split_and!; try done; split; try done; intros; lia.
Qed.

(** X2. [_create_session] makes nothing but [create] and [destroy] calls, at
    most two of the former and one of the latter, and it returns normally
    only when its last call is a [create] that answered a non-negative
    result. *)
Theorem create_session_calls session_name full_path w :
  let out := run (_create_session session_name full_path) w in
  Forall (λ e, is_create e || is_destroy e = true) out.1.2
  ∧ count_calls is_create out.1.2 ≤ 2
  ∧ count_calls is_destroy out.1.2 ≤ 1
  ∧ (out.1.1 = Ok () →
     ∃ r, last out.1.2 = Some (Ev (lttng_create session_name full_path) r)
          ∧ (0 ≤ r)%Z).
Proof.
  intros out. subst out. rewrite run_create_session.
  set (r1 := answer (lttng_create session_name full_path) w).
  set (w1 := after (lttng_create session_name full_path) w).
  set (d := answer (lttng_destroy session_name) w1).
  set (w2 := after (lttng_destroy session_name) w1).
  set (r2 := answer (lttng_create session_name full_path) w2).
  destruct (-28 =? r1)%Z; [destruct (d <? 0)%Z|]; cbn [fst snd].
  - split_and!; [by repeat constructor|cbn; lia|cbn; lia|done].
  - split_and!; [by repeat constructor|cbn; lia|cbn; lia|].
    destruct (Z.ltb_spec r2 0); [done|]. intros _. by exists r2.
  - split_and!; [by repeat constructor|cbn; lia|cbn; lia|].
    destruct (Z.ltb_spec r1 0); [done|]. intros _. by exists r1.
Qed.

(** ** Loops over daemon calls *)

Section checked_loop.

Context {X : Type} (c : X → call Z) (err : X → Z → exn).

(** The loop calls [c x] for the elements of [l] in order, up to and
    including the first one that answers a negative result. *)
Lemma run_checked_loop l w :
  let loop :=
    for_each l (λ x, r ← call_ (c x);
                     if (r <? 0)%Z then Raise (err x r) else mret ()) in
  ∃ answers : list Z,
    (run loop w).1.2 = zip_with (λ x r, Ev (c x) r) l answers
    ∧ match (run loop w).1.1 with
      | Ok _ => length answers = length l ∧ Forall (λ r, 0 ≤ r)%Z answers
      | Err e =>
          ∃ passed x r,
            answers = passed ++ [r] ∧ Forall (λ r, 0 ≤ r)%Z passed
            ∧ (r < 0)%Z ∧ l !! length passed = Some x ∧ e = err x r
      end.
Proof.
  cbv zeta. revert w. induction l as [|x l IH]; intros w.
  - exists []. by repeat split.
  - cbn [for_each]. rewrite run_bind. cbv beta. rewrite run_call_bind.
    set (r := answer (c x) w). set (w1 := after (c x) w).
    destruct (Z.ltb_spec r 0) as [Hneg|Hpos]; cbn [run mret prog_ret].
    + exists [r]. cbn [fst snd]. split; [by destruct l|].
      exists [], x, r. by repeat split.
    + destruct (IH w1) as (answers & Htr & Hres).
      destruct (run (for_each l _) w1) as [[res tr] w2].
      cbn [fst snd] in *. exists (r :: answers). subst tr.
      split; [done|]. destruct res as [[]|e].
      * destruct Hres as [Hlen Hall]. cbn [length]. split; [lia|by constructor].
      * destruct Hres as (passed & x' & r' & -> & Hall & Hneg & Hx & ->).
        exists (r :: passed), x', r'. split_and!; try done. by constructor.
Qed.

End checked_loop.

Lemma run_for_each_app {X} (l1 l2 : list X) (body : X → prog ()) w :
  run (for_each (l1 ++ l2) body) w
  = run (for_each l1 body ;; for_each l2 body) w.
Proof.
  revert w. induction l1 as [|x l1 IH]; intros w; [done|].
  cbn [app for_each]. rewrite !run_bind.
  destruct (run (body x) w) as [[[[]|e] tr] w1]; [|done].
  rewrite IH, run_bind.
  destruct (run (for_each l1 body) w1) as [[[[]|e] tr1] w2]; [|done].
  destruct (run (for_each l2 body) w2) as [[r tr2] w3].
  by rewrite app_assoc.
Qed.

Lemma run_for_each_pairs (h : Handle) (cl : list EventContext)
    (body : Handle → EventContext → prog ()) w :
  run (for_each ((λ c, (h, c)) <$> cl) (λ '(h, c), body h c)) w
  = run (for_each cl (body h)) w.
Proof.
  revert w. induction cl as [|c cl IH]; intros w; [done|].
  cbn [fmap list_fmap for_each]. rewrite !run_bind.
  destruct (run (body h c) w) as [[[[]|e] tr] w1]; [|done].
  by rewrite <- IH.
Qed.

Lemma run_add_context_pairs contexts w :
  run (_add_context contexts) w
  = run (for_each (context_pairs contexts) (λ '(h, c),
           r ← call_ (lttng_add_context h c);
           if (r <? 0)%Z
           then Raise (RuntimeError
                         ("failed to add context field " +:+ str_of_context c
                          +:+ ": " +:+ strerror r))
           else mret ())) w.
Proof.
  unfold _add_context. revert w.
  induction contexts as [|[h cl] contexts IH]; intros w; [done|].
  unfold context_pairs. rewrite bind_cons. fold (context_pairs contexts).
  rewrite run_for_each_app. cbn [for_each]. rewrite !run_bind.
  rewrite (run_for_each_pairs h cl (λ h c,
             r ← call_ (lttng_add_context h c);
             if (r <? 0)%Z
             then Raise (RuntimeError
                           ("failed to add context field " +:+ str_of_context c
                            +:+ ": " +:+ strerror r))
             else mret ())).
  destruct (run (for_each cl _) w) as [[[[]|e] tr] w1]; [|done].
  by rewrite IH.
Qed.

(** X3. [_enable_events] enables the events in the order of the list; it
    stops at the first event for which the daemon answers a negative result,
    raises the error for that result, and does not attempt the events that
    follow.  It returns normally when every event was accepted. *)
Theorem enable_events_in_order handle events_list channel_name w :
  let out := run (_enable_events handle events_list channel_name) w in
  ∃ answers : list Z,
    out.1.2 = zip_with (λ e r, Ev (lttng_enable_event handle e channel_name) r)
                events_list answers
    ∧ match out.1.1 with
      | Ok _ =>
          length answers = length events_list
          ∧ Forall (λ r, 0 ≤ r)%Z answers
      | Err e =>
          ∃ passed r,
            answers = passed ++ [r] ∧ Forall (λ r, 0 ≤ r)%Z passed
            ∧ (r < 0)%Z ∧ length passed < length events_list
            ∧ e = RuntimeError ("event enabling failed: " +:+ strerror r)
      end.
Proof.
  intros out. subst out. unfold _enable_events.
  destruct (run_checked_loop
              (λ e, lttng_enable_event handle e channel_name)
              (λ _ r, RuntimeError ("event enabling failed: " +:+ strerror r))
              events_list w) as (answers & Htr & Hres).
  exists answers. split; [exact Htr|].
  destruct (run (for_each events_list _) w).1.1 as [[]|e]; [done|].
  destruct Hres as (passed & x & r & -> & Hall & Hneg & Hx & ->).
  exists passed, r. split_and!; try done. by eapply lookup_lt_Some.
Qed.

(** X4. [_add_context] adds the contexts handle by handle, in the order of
    the dictionary and of each list; it stops at the first one for which the
    daemon answers a negative result and raises the error for it, so that the
    contexts before it stay added and those after it are not attempted. *)
Theorem add_context_in_order contexts w :
  let out := run (_add_context contexts) w in
  ∃ answers : list Z,
    out.1.2 = zip_with (λ hc r, Ev (lttng_add_context hc.1 hc.2) r)
                (context_pairs contexts) answers
    ∧ match out.1.1 with
      | Ok _ =>
          length answers = length (context_pairs contexts)
          ∧ Forall (λ r, 0 ≤ r)%Z answers
      | Err e =>
          ∃ passed h c r,
            answers = passed ++ [r] ∧ Forall (λ r, 0 ≤ r)%Z passed
            ∧ (r < 0)%Z ∧ context_pairs contexts !! length passed = Some (h, c)
            ∧ e = RuntimeError ("failed to add context field "
                                +:+ str_of_context c +:+ ": " +:+ strerror r)
      end.
Proof.
  intros out. subst out. rewrite run_add_context_pairs.
  destruct (run_checked_loop
              (λ hc : Handle * EventContext, lttng_add_context hc.1 hc.2)
              (λ hc r, RuntimeError ("failed to add context field "
                                     +:+ str_of_context hc.2 +:+ ": "
                                     +:+ strerror r))
              (context_pairs contexts) w) as (answers & Htr & Hres).
  assert (∀ l, for_each l (λ '(h, c),
             r ← call_ (lttng_add_context h c);
             if (r <? 0)%Z
             then Raise (RuntimeError
                           ("failed to add context field " +:+ str_of_context c
                            +:+ ": " +:+ strerror r))
             else mret ())
          = for_each l (λ hc : Handle * EventContext,
             r ← call_ (lttng_add_context hc.1 hc.2);
             if (r <? 0)%Z
             then Raise (RuntimeError
                           ("failed to add context field "
                            +:+ str_of_context hc.2 +:+ ": " +:+ strerror r))
             else mret ())) as Hsame.
  { induction l as [|[h c] l IH]; [done|]. cbn [for_each]. by rewrite IH. }
  rewrite Hsame. exists answers. split; [exact Htr|].
  destruct (run (for_each (context_pairs contexts) _) w).1.1 as [[]|e]; [done|].
  destruct Hres as (passed & [h c] & r & -> & Hall & Hneg & Hx & ->).
  exists passed, h, c, r. by split_and!.
Qed.

(** ** Events and context fields *)

Lemma create_events_names (event_names : gset string) :
  event_name <$> _create_events event_names = set_iter event_names.
Proof.
  unfold _create_events. rewrite <- list_fmap_compose. apply list_fmap_id.
Qed.

(** X5. [_create_events] returns one event per name of the set, each a
    tracepoint with every log level; for a list given to [setup], that is one
    event per distinct name of the list. *)
Theorem create_events_one_per_name (event_names : gset string) :
  length (_create_events event_names) = size event_names
  ∧ NoDup (event_name <$> _create_events event_names)
  ∧ (∀ n, n ∈ event_name <$> _create_events event_names ↔ n ∈ event_names)
  ∧ Forall (λ e, event_type_of e = EVENT_TRACEPOINT
                 ∧ loglevel_type e = EVENT_LOGLEVEL_ALL)
      (_create_events event_names)
  ∧ (∀ (l : list string) n,
       n ∈ event_name <$> _create_events (to_set (PyList l)) ↔ n ∈ l).
Proof.
  split_and!.
  - unfold _create_events. rewrite length_fmap, set_iter_perm. done.
  - rewrite create_events_names. apply NoDup_set_iter.
  - intros n. rewrite create_events_names. apply elem_of_set_iter.
  - unfold _create_events. apply Forall_fmap, Forall_true. done.
  - intros l n. rewrite create_events_names, elem_of_set_iter.
    cbn [to_set]. apply elem_of_list_to_set.
Qed.

(** X6. A context name resolves to a type exactly when the table of names
    gives it the name of a constant and the bindings have that constant; a
    name mapped to [None] and a constant the bindings lack count as an
    unknown name. *)
Theorem context_field_name_resolves context_field_name ty :
  _context_field_name_to_type context_field_name = Some ty
  ↔ ∃ name_constant,
      CONTEXT_TYPE_CONSTANTS_MAP !! context_field_name = Some (Some name_constant)
      ∧ lttng_getattr name_constant = Some ty.
Proof.
  unfold _context_field_name_to_type, context_map. rewrite lookup_fmap.
  destruct (CONTEXT_TYPE_CONSTANTS_MAP !! context_field_name)
    as [[name_constant|]|]; cbn.
  - split; [intros H; by exists name_constant|].
    by intros (c & [= <-] & H).
  - split; [done|]. by intros (c & [=] & _).
  - split; [done|]. by intros (c & [=] & _).
Qed.

(** X7. [_create_context_list] succeeds exactly when every name of the set
    resolves, and then returns as many contexts as the set has names. *)
Theorem create_context_list_ok_iff (context_fields : gset string) :
  (is_ok (_create_context_list context_fields) = true
   ↔ ∀ n, n ∈ context_fields → is_Some (_context_field_name_to_type n))
  ∧ (∀ cl, _create_context_list context_fields = Ok cl →
           length cl = size context_fields).
Proof.
  unfold _create_context_list. split.
  - split.
    + destruct (create_context_list_from (set_iter context_fields))
        as [cl|e] eqn:Hcl; [|done].
      intros _ n Hn%elem_of_set_iter.
      apply create_context_list_from_inv in Hcl.
      apply list_elem_of_lookup in Hn as [i Hi].
      destruct (Forall2_lookup_l _ _ _ _ _ Hcl Hi) as (c & _ & Hty). eauto.
    + intros Hall.
      destruct (create_context_list_from_ok (set_iter context_fields))
        as (cl & -> & _); [|done].
      intros n Hn%elem_of_set_iter. auto.
  - intros cl Hcl%create_context_list_from_inv.
    apply Forall2_length in Hcl. rewrite <- Hcl, set_iter_perm. done.
Qed.

Lemma dict_set_keys_present {V} (h : Handle) (v : V) (acc : dict Handle V) :
  h ∈ acc.*1 → (dict_set h v acc).*1 = acc.*1.
Proof.
  induction acc as [|[h' v'] acc IH]; [by intros ?%elem_of_nil|].
  cbn [dict_set fmap list_fmap fst]. destruct (decide (h = h')) as [->|Hne].
  - done.
  - rewrite elem_of_cons. intros [?|Hin]; [done|].
    cbn [fmap list_fmap fst]. f_equal. by apply IH.
Qed.

Lemma dict_comprehension_keys {V} (value : string → Handle → result V)
    items acc plan :
  dict_comprehension value items acc = Ok plan →
  NoDup acc.*1 →
  NoDup plan.*1 ∧ ∀ h, h ∈ plan.*1 ↔ h ∈ acc.*1 ∨ h ∈ items.*2.
Proof.
  revert acc. induction items as [|[d h0] items IH]; intros acc;
    cbn [dict_comprehension].
  - intros [= <-] Hnd. split; [done|]. intros h. rewrite elem_of_nil. tauto.
  - destruct (value d h0) as [v|e]; [|done].
    change (dict_comprehension value items (dict_set h0 v acc) = Ok plan →
            NoDup acc.*1 →
            NoDup plan.*1
            ∧ ∀ h, h ∈ plan.*1 ↔ h ∈ acc.*1 ∨ h ∈ ((d, h0) :: items).*2).
    intros Hrest Hnd. cbn [fmap list_fmap snd].
    destruct (decide (h0 ∈ acc.*1)) as [Hin|Hnotin].
    + destruct (IH _ Hrest) as [Hnd' Hkeys].
      { by rewrite dict_set_keys_present. }
      split; [done|]. intros h. rewrite Hkeys, dict_set_keys_present by done.
      rewrite elem_of_cons. split; [tauto|]. intros [?|[->|?]]; tauto.
    + destruct (IH _ Hrest) as [Hnd' Hkeys].
      { rewrite dict_set_fresh, fmap_app by done. cbn [fmap list_fmap fst].
        apply NoDup_app. split_and!; [done| |by apply NoDup_singleton].
        intros h Hh ->%list_elem_of_singleton. done. }
      split; [done|]. intros h. rewrite Hkeys, dict_set_fresh by done.
      rewrite fmap_app, elem_of_app, elem_of_cons. cbn [fmap list_fmap fst].
      rewrite list_elem_of_singleton. tauto.
Qed.

Lemma enabled_handle_iff (handles : dict string (option Handle)) h :
  h ∈ (enabled_handles handles).*2 ↔ ∃ d, (d, Some h) ∈ handles.
Proof.
  rewrite list_elem_of_fmap. split.
  - intros ([d h'] & -> & Hin%elem_of_enabled_handles). by exists d.
  - intros (d & Hin%elem_of_enabled_handles). by exists (d, h).
Qed.

(** X8. With a set of names that all resolve, [_normalize_contexts_dict]
    gives every enabled domain the same list of contexts, in the order of
    [handles]; a domain whose handle is [None] gets no entry. *)
Theorem normalize_flat_set (handles : dict string (option Handle))
    (context_fields : gset string) :
  (∀ n, n ∈ context_fields → is_Some (_context_field_name_to_type n)) →
  NoDup (enabled_handles handles).*2 →
  ∃ cl,
    _create_context_list context_fields = Ok cl
    ∧ _normalize_contexts_dict handles (CtxSet context_fields)
      = Ok ((λ dh, (dh.2, cl)) <$> enabled_handles handles).
Proof.
  intros Hall Hnd. unfold _normalize_contexts_dict, _create_context_list.
  destruct (create_context_list_from_ok (set_iter context_fields))
    as (cl & Hcl & _).
  { intros n Hn%elem_of_set_iter. auto. }
  exists cl. split; [done|].
  apply (dict_comprehension_ok _ _ []); [|done].
  apply Forall2_fmap_r, Forall_Forall2_diag, Forall_forall.
  intros [d h] _. done.
Qed.

(** X9. The keys of the dictionary that [_normalize_contexts_dict] returns
    are the handles of the enabled domains, each once: no entry is made for a
    domain without a handle, whatever the context fields. *)
Theorem normalize_keys_enabled (handles : dict string (option Handle))
    context_fields plan :
  _normalize_contexts_dict handles context_fields = Ok plan →
  NoDup plan.*1 ∧ ∀ h, h ∈ plan.*1 ↔ ∃ d, (d, Some h) ∈ handles.
Proof.
  unfold _normalize_contexts_dict.
  destruct context_fields as [l|s|m]; [done| |];
    intros [Hnd Hkeys]%dict_comprehension_keys; try apply NoDup_nil_2;
    (split; [done|]); intros h; rewrite Hkeys, <- enabled_handle_iff;
    cbn [fmap list_fmap]; rewrite elem_of_nil; tauto.
Qed.

(** ** [setup] as a whole *)

(** X11. When the session name starts with a slash, [os.path.join] returns
    it as it is: the trace directory is the session name and [base_path] has
    no effect on what [setup] does. *)
Theorem setup_absolute_session_name session_name base_path append_trace
    ros_events kernel_events context_fields channel_name_ust
    channel_name_kernel subbuffer_size_ust subbuffer_size_kernel :
  startswith "/" session_name = true →
  os_path_join base_path [session_name] = session_name
  ∧ ∀ base_path',
      setup session_name base_path append_trace ros_events kernel_events
        context_fields channel_name_ust channel_name_kernel
        subbuffer_size_ust subbuffer_size_kernel
      = setup session_name base_path' append_trace ros_events kernel_events
          context_fields channel_name_ust channel_name_kernel
          subbuffer_size_ust subbuffer_size_kernel.
Proof.
  intros Habs.
  assert (∀ b, os_path_join b [session_name] = session_name) as Hjoin.
  { intros b. cbn [os_path_join]. by rewrite Habs. }
  split; [apply Hjoin|]. intros base_path'. unfold setup.
  by rewrite !Hjoin.
Qed.

Lemma configure_session_first_call session_name full_path ros_events
    kernel_events context_fields channel_name_ust channel_name_kernel
    subbuffer_size_ust subbuffer_size_kernel w :
  ∃ post,
    (run (configure_session session_name full_path ros_events kernel_events
            context_fields channel_name_ust channel_name_kernel
            subbuffer_size_ust subbuffer_size_kernel) w).1.2
    = Ev (lttng_create session_name full_path)
         (answer (lttng_create session_name full_path) w) :: post.
Proof.
  unfold configure_session. cbv zeta. rewrite run_bind, run_create_session.
  set (r1 := answer (lttng_create session_name full_path) w).
  destruct (-28 =? r1)%Z; [destruct (_ <? 0)%Z|].
  - eauto.
  - destruct (_ <? 0)%Z; [eauto|].
    destruct (run _ _) as [[r tr] w4]. cbn [fst snd app]. eauto.
  - destruct (r1 <? 0)%Z; [eauto|].
    destruct (run _ _) as [[r tr] w4]. cbn [fst snd app]. eauto.
Qed.

(** X12. [setup] asks the daemon to create the session only after all its
    checks have passed: the name is not empty, the directory test did not
    fail, the steps on the session daemon returned normally and so did the
    check of the kernel tracer.  The calls before the first [create] are
    those of these steps. *)
Theorem setup_creates_after_checks session_name base_path append_trace
    ros_events kernel_events context_fields channel_name_ust
    channel_name_kernel subbuffer_size_ust subbuffer_size_kernel w :
  let full_path := os_path_join base_path [session_name] in
  let isdir := os_path_isdir full_path in
  let out :=
    run (setup session_name base_path append_trace ros_events kernel_events
           context_fields channel_name_ust channel_name_kernel
           subbuffer_size_ust subbuffer_size_kernel) w in
  Exists (λ e, is_create e = true) out.1.2 →
  session_name ≠ EmptyString
  ∧ answer isdir w && negb append_trace = false
  ∧ ∃ tr_d w2 tr_k w3 r post,
      run ensure_session_daemon (after isdir w) = (Ok (), tr_d, w2)
      ∧ run (check_kernel_tracer kernel_events) w2 = (Ok (), tr_k, w3)
      ∧ out.1.2 = Ev isdir (answer isdir w) :: tr_d ++ tr_k
                  ++ Ev (lttng_create session_name full_path) r :: post
      ∧ Forall (λ e, is_create e = false)
          (Ev isdir (answer isdir w) :: tr_d ++ tr_k).
Proof.
  intros full_path isdir out. subst out.
  destruct (decide (session_name = EmptyString)) as [->|Hname].
  { intros Hex. by apply Exists_nil in Hex. }
  rewrite run_setup by done. fold full_path isdir.
  destruct (answer isdir w && negb append_trace) eqn:Hdir.
  { intros Hex. apply Exists_cons in Hex as [Hex|Hex]; [done|].
    by apply Exists_nil in Hex. }
  assert (Forall (λ e, is_create e = false)
            (run ensure_session_daemon (after isdir w)).1.2) as Hd.
  { apply never_run, never_ensure_session_daemon; done. }
  destruct (run ensure_session_daemon (after isdir w)) as [[[[]|e] tr_d] w2];
    cbn [fst snd] in Hd.
  2:{ intros Hex. cbn [fst snd] in Hex.
      apply Exists_cons in Hex as [Hex|Hex]; [done|].
      by apply Forall_not_Exists in Hd. }
  assert (Forall (λ e, is_create e = false)
            (run (check_kernel_tracer kernel_events) w2).1.2) as Hk.
  { rewrite run_check_kernel_tracer.
    destruct (0 <? len kernel_events)%nat; by repeat constructor. }
  destruct (run (check_kernel_tracer kernel_events) w2)
    as [[[[]|e] tr_k] w3] eqn:Hcheck; cbn [fst snd] in Hk.
  2:{ intros Hex. cbn [fst snd] in Hex.
      apply Exists_cons in Hex as [Hex|Hex]; [done|].
      apply Exists_app in Hex as [Hex|Hex];
        by eapply Forall_not_Exists in Hex. }
  destruct (configure_session_first_call session_name full_path ros_events
              kernel_events context_fields channel_name_ust
              channel_name_kernel subbuffer_size_ust subbuffer_size_kernel w3)
    as [post Hpost].
  destruct (run (configure_session _ _ _ _ _ _ _ _ _) w3) as [[r tr_c] w4].
  cbn [fst snd] in *. subst tr_c. intros _. split_and!; [done..|].
  eexists tr_d, w2, tr_k, w3, _, post. split_and!; try done.
  constructor; [done|]. by apply Forall_app.
Qed.

(** ** The steps on the session daemon *)

Lemma unreachable_never_spawn : never is_spawn is_session_daemon_unreachable.
Proof.
  unfold is_session_daemon_unreachable.
  apply never_bind; [by apply never_get_session_daemon_pid|].
  intros [pid|]; [|exact I].
  apply never_bind; [|by intros ?]. intros x. by split.
Qed.

Lemma run_ensure_session_daemon w :
  let alive := lttng_session_daemon_alive in
  let spawn := subprocess_run ["lttng-sessiond"; "--daemonize"] in
  let a1 := answer alive w in
  let w1 := after alive w in
  let spawned := if (a1 =? 0)%Z then [Ev spawn (answer spawn w1)] else [] in
  let w1' := if (a1 =? 0)%Z then after spawn w1 else w1 in
  run ensure_session_daemon w =
    match run is_session_daemon_unreachable w1' with
    | (Err e, tr_u, w2) => (Err e, Ev alive a1 :: spawned ++ tr_u, w2)
    | (Ok true, tr_u, w2) =>
        (Err (RuntimeError unreachable_message),
         Ev alive a1 :: spawned ++ tr_u, w2)
    | (Ok false, tr_u, w2) =>
        (if (answer alive w2 =? 0)%Z
         then Err (RuntimeError "failed to start lttng session daemon")
         else Ok (),
         Ev alive a1 :: spawned ++ tr_u ++ [Ev alive (answer alive w2)],
         after alive w2)
    end.
Proof.
  intros alive spawn a1 w1 spawned w1'. unfold ensure_session_daemon.
  rewrite run_call_bind. fold alive a1 w1. rewrite run_bind.
  change (subprocess_run ["lttng-sessiond"; "--daemonize"]) with spawn.
  assert (run (if (a1 =? 0)%Z
               then call_ spawn ;; mret ()
               else mret ()) w1 = (Ok (), spawned, w1')) as ->.
  { subst spawned w1'. destruct (a1 =? 0)%Z; [|done].
    by rewrite run_call_bind. }
  rewrite run_bind.
  destruct (run is_session_daemon_unreachable w1')
    as [[[[]|e] tr_u] w2]; [cbn [run]; by rewrite app_nil_r| |done].
  rewrite run_call_bind. fold alive.
  by destruct (answer alive w2 =? 0)%Z.
Qed.

(** X13. [ensure_session_daemon] first asks whether a session daemon is
    alive and spawns [lttng-sessiond --daemonize] exactly when the answer is
    0, at most once.  It returns normally only when its last call is a
    second liveness test that answered a non-zero value. *)
Theorem ensure_session_daemon_spawns_iff w :
  let alive := lttng_session_daemon_alive in
  let out := run ensure_session_daemon w in
  head out.1.2 = Some (Ev alive (answer alive w))
  ∧ (Exists (λ e, is_spawn e = true) out.1.2 ↔ answer alive w = 0%Z)
  ∧ count_calls is_spawn out.1.2 ≤ 1
  ∧ (out.1.1 = Ok () →
     ∃ a2, last out.1.2 = Some (Ev alive a2) ∧ a2 ≠ 0%Z).
Proof.
  intros alive out. subst out. rewrite run_ensure_session_daemon.
  fold alive. set (a1 := answer alive w). set (w1 := after alive w).
  set (spawn := subprocess_run ["lttng-sessiond"; "--daemonize"]).
  set (w1' := if (a1 =? 0)%Z then after spawn w1 else w1).
  pose proof (never_run is_spawn _ w1' unreachable_never_spawn) as Hu.
  assert (∀ tr, Forall (λ e, is_spawn e = false) tr →
            count_calls is_spawn tr = 0) as Hcount.
  { intros tr Hall. unfold count_calls. induction Hall as [|e tr He _ IH];
      [done|]. cbn [List.filter]. by rewrite He. }
  assert (∀ tr tr', count_calls is_spawn (tr ++ tr')
            = count_calls is_spawn tr + count_calls is_spawn tr') as Happ.
  { intros tr tr'. unfold count_calls.
    by rewrite List.filter_app, length_app. }
  destruct (run is_session_daemon_unreachable w1') as [[res tr_u] w2].
  cbn [fst snd] in Hu.
  assert (Forall (λ e, is_spawn e = false)
            (tr_u ++ [Ev alive (answer alive w2)])) as Hu'.
  { apply Forall_app. split; [done|]. by repeat constructor. }
  destruct (Z.eqb_spec a1 0) as [Ha1|Ha1].
  - assert (∀ tr, Forall (λ e, is_spawn e = false) tr →
              (Exists (λ e, is_spawn e = true)
                 (Ev alive a1 :: [Ev spawn (answer spawn w1)] ++ tr)
               ↔ a1 = 0%Z)
              ∧ count_calls is_spawn
                  (Ev alive a1 :: [Ev spawn (answer spawn w1)] ++ tr) ≤ 1)
      as Hboth.
    { intros tr Hall. split.
      - split; [done|]. intros _. apply Exists_cons_tl, Exists_cons_hd. done.
      - change (S (count_calls is_spawn tr) ≤ 1). by rewrite Hcount. }
    destruct res as [[|]|e]; cbn [fst snd].
    + destruct (Hboth tr_u Hu). split_and!; done.
    + destruct (Hboth _ Hu'). split_and!; try done.
      destruct (Z.eqb_spec (answer alive w2) 0); [done|]. intros _.
      exists (answer alive w2). split; [|done].
      change (last ([Ev alive a1; Ev spawn (answer spawn w1)]
                    ++ tr_u ++ [Ev alive (answer alive w2)]) = Some
                (Ev alive (answer alive w2))).
      by rewrite !app_assoc, last_snoc.
    + destruct (Hboth tr_u Hu). split_and!; done.
  - assert (∀ tr, Forall (λ e, is_spawn e = false) tr →
              (Exists (λ e, is_spawn e = true) (Ev alive a1 :: [] ++ tr)
               ↔ a1 = 0%Z)
              ∧ count_calls is_spawn (Ev alive a1 :: [] ++ tr) ≤ 1)
      as Hboth.
    { intros tr Hall. split.
      - split; [|done]. intros Hex. exfalso.
        apply Exists_cons in Hex as [Hex|Hex]; [done|].
        by apply Forall_not_Exists in Hall.
      - change (count_calls is_spawn tr ≤ 1). rewrite Hcount by done. lia. }
    destruct res as [[|]|e]; cbn [fst snd].
    + destruct (Hboth tr_u Hu). split_and!; done.
    + destruct (Hboth _ Hu'). split_and!; try done.
      destruct (Z.eqb_spec (answer alive w2) 0); [done|]. intros _.
      exists (answer alive w2). split; [|done].
      change (last ([Ev alive a1]
                    ++ tr_u ++ [Ev alive (answer alive w2)]) = Some
                (Ev alive (answer alive w2))).
      by rewrite !app_assoc, last_snoc.
    + destruct (Hboth tr_u Hu). split_and!; done.
Qed.

(** X26. The outcomes of the steps of [setup] on the session daemon, after
    the first liveness test and the spawning that may follow it.  An
    exception of [is_session_daemon_unreachable] goes through.  If the daemon
    is found unreachable, the steps raise the [RuntimeError] with the four
    sentences below, and the liveness is not tested again.  Otherwise the
    liveness is tested a second time, as the last call: on 0 the steps raise
    [RuntimeError] "failed to start lttng session daemon", on another value
    they return. *)
Theorem ensure_session_daemon_outcomes w :
  let alive := lttng_session_daemon_alive in
  let spawn := subprocess_run ["lttng-sessiond"; "--daemonize"] in
  let a1 := answer alive w in
  let w1 := after alive w in
  let before := Ev alive a1 :: if (a1 =? 0)%Z then [Ev spawn (answer spawn w1)]
                               else [] in
  let w1' := if (a1 =? 0)%Z then after spawn w1 else w1 in
  ∀ unreachable tr_u w2,
    run is_session_daemon_unreachable w1' = (unreachable, tr_u, w2) →
    match unreachable with
    | Err e => run ensure_session_daemon w = (Err e, before ++ tr_u, w2)
    | Ok true =>
        run ensure_session_daemon w =
          (Err (RuntimeError
                  ("lttng-sessiond seems to exist, but is unreachable. "
                   +:+ "If using two containers with the same HOME directory, set the LTTNG_HOME environment "
                   +:+ "variable to the path to a unique directory for each container and make sure that the "
                   +:+ "directory exists. See: https://bugs.lttng.org/issues/1371")),
           before ++ tr_u, w2)
    | Ok false =>
        let a2 := answer alive w2 in
        run ensure_session_daemon w =
          (if (a2 =? 0)%Z
           then Err (RuntimeError "failed to start lttng session daemon")
           else Ok (),
           before ++ tr_u ++ [Ev alive a2], after alive w2)
    end.
Proof.
  intros alive spawn a1 w1 before w1' unreachable tr_u w2 Hu.
  rewrite run_ensure_session_daemon. fold alive spawn a1 w1 w1'.
  rewrite Hu. subst before. by destruct unreachable as [[]|].
Qed.

(** ** What [setup] raises and returns *)

Lemma returns_only_bind {A B} R (p : prog A) (k : A → prog B) :
  (∀ a, returns_only R (k a)) → returns_only R (p ≫= k).
Proof.
  intros Hk. induction p as [a|e|X c k' IH]; [apply Hk|done|].
  intros x. apply IH.
Qed.

Lemma returns_only_run {A} R (p : prog A) w a :
  returns_only R p → (run p w).1.1 = Ok a → R a.
Proof.
  revert w. induction p as [a'|e|X c k IH]; intros w Hp; [|done|].
  - by intros [= <-].
  - rewrite run_call.
    specialize (IH (answer c w) (after c w) (Hp (answer c w))).
    by destruct (run (k (answer c w)) (after c w)) as [[r tr] w2].
Qed.

(** X15. The only value [setup] returns is the path
    [os.path.join(base_path, session_name)]. *)
Theorem setup_returns_full_path session_name base_path append_trace
    ros_events kernel_events context_fields channel_name_ust
    channel_name_kernel subbuffer_size_ust subbuffer_size_kernel w path :
  (run (setup session_name base_path append_trace ros_events kernel_events
          context_fields channel_name_ust channel_name_kernel
          subbuffer_size_ust subbuffer_size_kernel) w).1.1 = Ok path →
  path = os_path_join base_path [session_name].
Proof.
  apply (returns_only_run (λ p, p = os_path_join base_path [session_name])).
  unfold setup. destruct (bool_decide (session_name = EmptyString)); [done|].
  apply returns_only_bind. intros isdir.
  destruct (isdir && negb append_trace); [done|].
  apply returns_only_bind. intros _. apply returns_only_bind. intros _.
  unfold configure_session. cbv zeta.
  do 5 (apply returns_only_bind; intros ?). done.
Qed.

(** ** Strings *)

Lemma append_cons a s t : String a s +:+ t = String a (s +:+ t).
Proof. reflexivity. Qed.

Lemma append_nil_r s : s +:+ EmptyString = s.
Proof. induction s as [|a s IH]; [done|]. by rewrite append_cons, IH. Qed.

Lemma append_assoc s1 s2 s3 : (s1 +:+ s2) +:+ s3 = s1 +:+ (s2 +:+ s3).
Proof.
  induction s1 as [|a s1 IH]; [done|]. by rewrite !append_cons, IH.
Qed.

Lemma rev_app_append s1 s2 : String.rev_app s1 s2 = String.rev s1 +:+ s2.
Proof.
  unfold String.rev. revert s2. induction s1 as [|a s1 IH]; intros s2; [done|].
  cbn [String.rev_app]. rewrite (IH (String a s2)), (IH (String a EmptyString)).
  by rewrite append_assoc.
Qed.

Lemma rev_cons a s :
  String.rev (String a s) = String.rev s +:+ String a EmptyString.
Proof. unfold String.rev at 1. cbn [String.rev_app]. apply rev_app_append. Qed.

Lemma rev_append s1 s2 :
  String.rev (s1 +:+ s2) = String.rev s2 +:+ String.rev s1.
Proof.
  induction s1 as [|a s1 IH].
  - change (String.rev s2 = String.rev s2 +:+ EmptyString).
    by rewrite append_nil_r.
  - by rewrite append_cons, !rev_cons, IH, append_assoc.
Qed.

Lemma rev_involutive s : String.rev (String.rev s) = s.
Proof.
  induction s as [|a s IH]; [done|].
  by rewrite rev_cons, rev_append, IH.
Qed.

Lemma str_forallb_append p s1 s2 :
  str_forallb p (s1 +:+ s2) = str_forallb p s1 && str_forallb p s2.
Proof.
  induction s1 as [|a s1 IH]; [done|].
  rewrite append_cons. cbn [str_forallb]. by rewrite IH, andb_assoc.
Qed.

Lemma str_forallb_rev p s : str_forallb p (String.rev s) = str_forallb p s.
Proof.
  induction s as [|a s IH]; [done|].
  rewrite rev_cons, str_forallb_append, IH. cbn [str_forallb].
  by rewrite andb_true_r, andb_comm.
Qed.

Lemma lstrip_with_all p a s :
  str_forallb p a = true → lstrip_with p (a +:+ s) = lstrip_with p s.
Proof.
  induction a as [|c a IH]; [done|]. rewrite append_cons.
  cbn [str_forallb lstrip_with]. intros [-> Ha]%andb_true_iff. auto.
Qed.

Lemma lstrip_with_none p m s :
  m ≠ EmptyString → str_forallb (λ c, negb (p c)) m = true →
  lstrip_with p (m +:+ s) = m +:+ s.
Proof.
  destruct m as [|c m]; [done|]. rewrite append_cons.
  cbn [str_forallb lstrip_with]. intros _ [Hc _]%andb_true_iff.
  by apply negb_true_iff in Hc as ->.
Qed.

(** Stripping removes the characters of the class at both ends of a core
    that has none of them. *)
Lemma strip_with_core p a m b :
  str_forallb p a = true → str_forallb p b = true →
  m ≠ EmptyString → str_forallb (λ c, negb (p c)) m = true →
  strip_with p (a +:+ m +:+ b) = m.
Proof.
  intros Ha Hb Hne Hm. unfold strip_with.
  rewrite lstrip_with_all, lstrip_with_none by done.
  rewrite rev_append, lstrip_with_all by by rewrite str_forallb_rev.
  rewrite <- (append_nil_r (String.rev m)), lstrip_with_none.
  - by rewrite append_nil_r, rev_involutive.
  - intros Hrev. apply Hne. by rewrite <- (rev_involutive m), Hrev.
  - by rewrite str_forallb_rev.
Qed.

Lemma lstrip_with_head p s c s' :
  lstrip_with p s = String c s' → p c = false.
Proof.
  induction s as [|a s IH]; [done|]. cbn [lstrip_with].
  destruct (p a) eqn:Hp; [done|]. by intros [= <- <-].
Qed.

Lemma lstrip_with_suffix p s : ∃ pre, s = pre +:+ lstrip_with p s.
Proof.
  induction s as [|a s [pre IH]]; [by exists EmptyString|]. cbn [lstrip_with].
  destruct (p a); [|by exists EmptyString].
  exists (String a pre). by rewrite append_cons, <- IH.
Qed.

(** A stripped string neither starts nor ends with a character of the
    class. *)
Lemma strip_with_edges p s :
  (∀ c s', strip_with p s = String c s' → p c = false)
  ∧ (∀ c s', String.rev (strip_with p s) = String c s' → p c = false).
Proof.
  unfold strip_with.
  set (z := lstrip_with p s). set (x := lstrip_with p (String.rev z)).
  split.
  - intros c s' Hrev.
    destruct (lstrip_with_suffix p (String.rev z)) as [pre Hpre]. fold x in Hpre.
    assert (z = String.rev x +:+ String.rev pre) as Hz.
    { by rewrite <- rev_append, <- Hpre, rev_involutive. }
    rewrite Hrev, append_cons in Hz. by eapply lstrip_with_head.
  - intros c s'. rewrite rev_involutive. apply lstrip_with_head.
Qed.

Lemma decimal_not_space s :
  str_forallb is_decimal_char s = true →
  str_forallb (λ c, negb (isspace c)) s = true.
Proof.
  induction s as [|a s IH]; [done|]. cbn [str_forallb].
  intros [Ha Hs]%andb_true_iff. rewrite IH by done. rewrite andb_true_r.
  unfold is_decimal_char, isspace in *. cbv zeta in *.
  apply andb_true_iff in Ha as [?%N.leb_le ?%N.leb_le].
  set (n := N_of_ascii a) in *.
  destruct (N.leb_spec 9 n), (N.leb_spec n 13), (N.leb_spec 28 n),
    (N.leb_spec n 32), (N.eqb_spec n 133), (N.eqb_spec n 160);
    cbn [andb orb negb]; try reflexivity; lia.
Qed.

Lemma lstrip_with_prefix p s :
  ∃ pre, s = pre +:+ lstrip_with p s ∧ str_forallb p pre = true.
Proof.
  induction s as [|a s (pre & IH & Hpre)]; [by exists EmptyString|].
  cbn [lstrip_with]. destruct (p a) eqn:Hp; [|by exists EmptyString].
  exists (String a pre). rewrite append_cons, <- IH. cbn [str_forallb].
  by rewrite Hp, Hpre.
Qed.

(** What stripping removes: a string is its stripped core between two runs of
    characters of the class. *)
Lemma strip_with_decompose p s :
  ∃ a b, s = a +:+ strip_with p s +:+ b
         ∧ str_forallb p a = true ∧ str_forallb p b = true.
Proof.
  unfold strip_with.
  destruct (lstrip_with_prefix p s) as (a & Hs & Ha).
  set (z := lstrip_with p s) in *.
  destruct (lstrip_with_prefix p (String.rev z)) as (pre & Hz & Hpre).
  set (x := lstrip_with p (String.rev z)) in *.
  exists a, (String.rev pre). split_and!; [|done|by rewrite str_forallb_rev].
  by rewrite <- rev_append, <- Hz, rev_involutive.
Qed.

(** ** The PID file and the kernel tracer *)

Lemma run_get_session_daemon_pid_home w home tr w1 :
  run get_lttng_home w = (Ok (Some home), tr, w1) →
  home ≠ EmptyString →
  let pid_file := os_path_join home [".lttng"; "lttng-sessiond.pid"] in
  let w2 := after (os_path_isfile pid_file) w1 in
  let content := answer (open_read pid_file) w2 in
  let w3 := after (open_read pid_file) w2 in
  run get_session_daemon_pid w =
    if answer (os_path_isfile pid_file) w1
    then (if isdigit (strip content)
          then match int (strip content) with
               | Ok n => Ok (Some n)
               | Err e => Err e
               end
          else Ok None,
          tr ++ [Ev (os_path_isfile pid_file) true;
                 Ev (open_read pid_file) content], w3)
    else (Ok None, tr ++ [Ev (os_path_isfile pid_file) false], w2).
Proof.
  intros Hhome Hne pid_file w2 content w3.
  unfold get_session_daemon_pid. rewrite run_bind, Hhome.
  destruct home as [|a home]; [done|]. fold pid_file.
  rewrite run_call_bind. fold w2.
  destruct (answer (os_path_isfile pid_file) w1); [|done]. cbn [negb].
  rewrite run_call_bind. fold content w3.
  destruct (isdigit (strip content)); [|done]. cbn [negb].
  rewrite run_bind. by destruct (int (strip content)).
Qed.

(** X16. The PID file is read under [$LTTNG_HOME] when that variable is set
    and not empty, and then [$HOME] is not looked at; otherwise under
    [$HOME].  Blanks around the number in the file are ignored: a file that
    holds decimal digits, at most 4300 of them, between blanks gives the PID
    the digits write. *)
Theorem session_daemon_pid_file w home pad_l digits pad_r :
  let lttng_home := os_environ_get "LTTNG_HOME" in
  let home_var := os_environ_get "HOME" in
  let pid_file := os_path_join home [".lttng"; "lttng-sessiond.pid"] in
  home ≠ EmptyString →
  str_forallb isspace pad_l = true →
  str_forallb isspace pad_r = true →
  digits ≠ EmptyString →
  str_forallb is_decimal_char digits = true →
  (String.length digits ≤ 4300)%nat →
  ∀ w1,
    (answer lttng_home w = Some home ∧ w1 = after lttng_home w)
    ∨ (truthy (answer lttng_home w) = false
       ∧ answer home_var (after lttng_home w) = Some home
       ∧ w1 = after home_var (after lttng_home w)) →
    answer (os_path_isfile pid_file) w1 = true →
    answer (open_read pid_file) (after (os_path_isfile pid_file) w1)
    = pad_l +:+ digits +:+ pad_r →
    (run get_session_daemon_pid w).1.1 = Ok (Some (decimal_value 0 digits))
    ∧ (answer lttng_home w = Some home →
       Forall (λ e, is_environ_HOME e = false)
         (run get_session_daemon_pid w).1.2).
Proof.
  intros lttng_home home_var pid_file Hne Hl Hr Hd Hdec Hlen w1 Hw1 Hfile
    Hcontent.
  assert (strip (pad_l +:+ digits +:+ pad_r) = digits) as Hstrip.
  { apply strip_with_core; auto using decimal_not_space. }
  pose proof (run_get_lttng_home w) as Hrun. cbv zeta in Hrun.
  fold lttng_home home_var in Hrun.
  destruct Hw1 as [[Hset ->]|(Hunset & Hset & ->)].
  - rewrite Hset in Hrun.
    assert (truthy (Some home) = true) as Ht by by destruct home.
    rewrite Ht in Hrun.
    rewrite (run_get_session_daemon_pid_home _ _ _ _ Hrun Hne).
    fold pid_file. rewrite Hfile, Hcontent, Hstrip.
    rewrite decimal_isdigit, int_decimal by done. cbn [fst snd].
    split; [done|]. intros _. by repeat constructor.
  - rewrite Hunset, Hset in Hrun.
    rewrite (run_get_session_daemon_pid_home _ _ _ _ Hrun Hne).
    fold pid_file. rewrite Hfile, Hcontent, Hstrip.
    rewrite decimal_isdigit, int_decimal by done. cbn [fst snd].
    split; [done|]. intros Heq. rewrite Heq in Hunset. by destruct home.
Qed.

(** X17. When the content of the PID file, blanks stripped, passes
    [str.isdigit] but has a digit that is not decimal (a superscript digit),
    [get_session_daemon_pid] does not return [None]: [int] raises
    [ValueError], and so does [is_session_daemon_unreachable], which calls
    it, without running [ps]. *)
Theorem pid_file_non_decimal_digit w home tr w1 :
  run get_lttng_home w = (Ok (Some home), tr, w1) →
  home ≠ EmptyString →
  let pid_file := os_path_join home [".lttng"; "lttng-sessiond.pid"] in
  let w2 := after (os_path_isfile pid_file) w1 in
  let content := answer (open_read pid_file) w2 in
  answer (os_path_isfile pid_file) w1 = true →
  isdigit (strip content) = true →
  str_forallb is_decimal_char (strip content) = false →
  (run get_session_daemon_pid w).1.1 = Err (ValueError (strip content))
  ∧ run is_session_daemon_unreachable w
    = (Err (ValueError (strip content)),
       tr ++ [Ev (os_path_isfile pid_file) true;
              Ev (open_read pid_file) content],
       after (open_read pid_file) w2).
Proof.
  intros Hhome Hne pid_file w2 content Hfile Hdigit Hdec.
  pose proof (run_get_session_daemon_pid_home _ _ _ _ Hhome Hne) as Hrun.
  cbv zeta in Hrun. fold pid_file w2 content in Hrun.
  rewrite Hfile, Hdigit in Hrun.
  rewrite (int_not_decimal _ Hdec) in Hrun. split; [by rewrite Hrun|].
  unfold is_session_daemon_unreachable. by rewrite run_bind, Hrun.
Qed.

(** X25. When the content of the PID file, blanks stripped, is made of more
    than 4300 decimal digits, [int] refuses it: [get_session_daemon_pid]
    raises [ValueError] instead of returning a PID or [None], and so does
    [is_session_daemon_unreachable], which calls it, without running
    [ps]. *)
Theorem pid_file_too_many_digits w home tr w1 :
  run get_lttng_home w = (Ok (Some home), tr, w1) →
  home ≠ EmptyString →
  let pid_file := os_path_join home [".lttng"; "lttng-sessiond.pid"] in
  let w2 := after (os_path_isfile pid_file) w1 in
  let content := answer (open_read pid_file) w2 in
  answer (os_path_isfile pid_file) w1 = true →
  str_forallb is_decimal_char (strip content) = true →
  (4300 < String.length (strip content))%nat →
  (run get_session_daemon_pid w).1.1 = Err (ValueError (strip content))
  ∧ run is_session_daemon_unreachable w
    = (Err (ValueError (strip content)),
       tr ++ [Ev (os_path_isfile pid_file) true;
              Ev (open_read pid_file) content],
       after (open_read pid_file) w2).
Proof.
  intros Hhome Hne pid_file w2 content Hfile Hdec Hlen.
  pose proof (run_get_session_daemon_pid_home _ _ _ _ Hhome Hne) as Hrun.
  cbv zeta in Hrun. fold pid_file w2 content in Hrun.
  assert (strip content ≠ EmptyString) as Hstrip.
  { intros Heq. rewrite Heq in Hlen. cbn in Hlen. lia. }
  rewrite Hfile, (decimal_isdigit _ Hstrip Hdec) in Hrun.
  rewrite (int_too_long _ Hdec Hlen) in Hrun. split; [by rewrite Hrun|].
  unfold is_session_daemon_unreachable. by rewrite run_bind, Hrun.
Qed.

(** X18. [is_kernel_tracer_available] runs [lttng list -k] once, and makes
    no other call.  It answers [(True, None)] when the exit status is 0.
    Otherwise it decodes what the command printed on its standard error: when
    that fails the exception goes through; when it gives a text, the answer
    is [False] with the text less the newlines at both ends, which neither
    starts nor ends with a newline. *)
Theorem kernel_tracer_available_result w :
  let probe := subprocess_run_piped kernel_probe_argv in
  let process := answer probe w in
  let out := run is_kernel_tracer_available w in
  out.1.2 = [Ev probe process]
  ∧ (returncode process = 0%Z → out.1.1 = Ok (true, None))
  ∧ (returncode process ≠ 0%Z →
     match bytes_decode (stderr process) with
     | Err e => out.1.1 = Err e
     | Ok text =>
         ∃ message before after_,
           out.1.1 = Ok (false, Some message)
           ∧ text = before +:+ message +:+ after_
           ∧ str_forallb (λ c, bool_decide (c = "010"%char)) before = true
           ∧ str_forallb (λ c, bool_decide (c = "010"%char)) after_ = true
           ∧ startswith nl message = false
           ∧ endswith nl message = false
     end).
Proof.
  intros probe process out. subst out.
  rewrite run_is_kernel_tracer_available. fold probe process. cbn [fst snd].
  destruct (Z.eqb_spec 0 (returncode process)) as [Heq|Hne]; cbn [negb].
  - split_and!; [done|done|]. intros Hne. by rewrite <- Heq in Hne.
  - split_and!; [done|congruence|]. intros _.
    destruct (bytes_decode (stderr process)) as [text|e]; [|done].
    set (p := λ a : ascii, bool_decide (a ∈ list_ascii_of_string nl)).
    assert (∀ s, str_forallb p s = true →
              str_forallb (λ c, bool_decide (c = "010"%char)) s = true) as Hp.
    { intros s. induction s as [|a s IH]; [done|]. cbn [str_forallb].
      intros [Ha Hs]%andb_true_iff. rewrite IH by done.
      apply bool_decide_eq_true in Ha.
      apply list_elem_of_singleton in Ha as ->. done. }
    assert (∀ c, p c = false → c ≠ "010"%char) as Hc.
    { intros c Hpc ->. by vm_compute in Hpc. }
    destruct (strip_with_decompose p text) as (a & b & Hs & Ha & Hb).
    destruct (strip_with_edges p text) as [Hfirst Hlast].
    exists (strip_chars nl text), a, b.
    split_and!; [done|exact Hs|auto|auto| |].
    + unfold strip_chars. fold p.
      destruct (strip_with p text) as [|c s'] eqn:Hm; [done|].
      specialize (Hc _ (Hfirst _ _ eq_refl)). cbn [nl startswith].
      by rewrite bool_decide_eq_false_2.
    + unfold endswith, strip_chars. fold p.
      destruct (String.rev (strip_with p text)) as [|c s'] eqn:Hm;
        [done|].
      specialize (Hc _ (Hlast _ _ eq_refl)).
      change (String.rev nl) with nl. cbn [nl startswith].
      by rewrite bool_decide_eq_false_2.
Qed.

(** ** The version of the bindings *)

Lemma append_singleton c s : String c EmptyString +:+ s = String c s.
Proof. reflexivity. Qed.

Lemma split_on_cons_sep c s : split_on c (String c s) = EmptyString :: split_on c s.
Proof. cbn [split_on]. by rewrite bool_decide_eq_true_2. Qed.

Lemma split_on_not_nil c s : split_on c s ≠ [].
Proof.
  induction s as [|a s IH]; [done|]. cbn [split_on].
  destruct (bool_decide (a = c)); [done|]. by destruct (split_on c s).
Qed.

Lemma split_on_lacks c s : lacks c s = true → split_on c s = [s].
Proof.
  unfold lacks. induction s as [|a s IH]; [done|]. cbn [str_forallb split_on].
  intros [Ha Hs]%andb_true_iff. apply negb_true_iff in Ha as ->.
  by rewrite IH.
Qed.

Lemma split_on_append c a s :
  lacks c a = true → split_on c (a +:+ String c s) = a :: split_on c s.
Proof.
  unfold lacks. induction a as [|x a IH].
  - intros _. apply split_on_cons_sep.
  - rewrite append_cons. cbn [str_forallb split_on].
    intros [Hx Ha]%andb_true_iff. apply negb_true_iff in Hx as ->.
    by rewrite IH.
Qed.

Lemma join_split_on c s : join_with c (split_on c s) = s.
Proof.
  induction s as [|a s IH]; [done|]. cbn [split_on].
  destruct (bool_decide_reflect (a = c)) as [->|Hne].
  - pose proof (split_on_not_nil c s) as Hnil.
    destruct (split_on c s) as [|word words]; [done|].
    change (EmptyString +:+ String c (join_with c (word :: words)) = String c s).
    by rewrite IH.
  - pose proof (split_on_not_nil c s) as Hnil.
    destruct (split_on c s) as [|word words]; [done|].
    rewrite <- IH. by destruct words.
Qed.

Lemma split_on_pieces q c s :
  str_forallb q s = true → Forall (λ word, str_forallb q word = true) (split_on c s).
Proof.
  induction s as [|a s IH]; [by repeat constructor|].
  cbn [str_forallb split_on]. intros [Ha Hs]%andb_true_iff.
  specialize (IH Hs). destruct (bool_decide (a = c)); [by constructor|].
  destruct (split_on c s) as [|word words].
  - repeat constructor. cbn [str_forallb]. by rewrite Ha.
  - apply Forall_cons in IH as [Hword Hwords].
    constructor; [|done]. cbn [str_forallb]. by rewrite Ha, Hword.
Qed.

Lemma split_on_pieces_lack c s :
  Forall (λ word, lacks c word = true) (split_on c s).
Proof.
  unfold lacks. induction s as [|a s IH]; [by repeat constructor|].
  cbn [split_on]. destruct (bool_decide_reflect (a = c)) as [->|Hne];
    [by constructor|].
  destruct (split_on c s) as [|word words].
  - repeat constructor. cbn [str_forallb]. by rewrite bool_decide_eq_false_2.
  - apply Forall_cons in IH as [Hword Hwords].
    constructor; [|done]. cbn [str_forallb].
    by rewrite bool_decide_eq_false_2, Hword.
Qed.

Lemma drop_final_newline_lacks s :
  lacks "010"%char s = true → drop_final_newline s = s.
Proof.
  unfold lacks. induction s as [|a s IH]; [done|].
  cbn [str_forallb drop_final_newline]. intros [Ha Hs]%andb_true_iff.
  apply negb_true_iff in Ha. destruct s as [|b s]; [by rewrite Ha|].
  by rewrite IH.
Qed.

Lemma is_number_lacks c s :
  is_decimal_char c = false → is_number s = true → lacks c s = true.
Proof.
  intros Hc. unfold is_number, lacks. destruct s as [|a s]; [done|].
  generalize (String a s). clear a s. intros s.
  induction s as [|a s IH]; [done|]. cbn [str_forallb].
  intros [Ha Hs]%andb_true_iff. rewrite IH by done. rewrite andb_true_r.
  apply negb_true_iff, bool_decide_eq_false. intros ->. congruence.
Qed.

Lemma lacks_append c s1 s2 :
  lacks c (s1 +:+ s2) = lacks c s1 && lacks c s2.
Proof. apply str_forallb_append. Qed.

Lemma lacks_cons c a s :
  lacks c (String a s) = negb (bool_decide (a = c)) && lacks c s.
Proof. reflexivity. Qed.

Lemma split_on_version major minor micro :
  is_number major = true → is_number minor = true → is_number micro = true →
  split_on "."%char (major +:+ "." +:+ minor +:+ "." +:+ micro)
  = [major; minor; micro].
Proof.
  intros H1 H2 H3. rewrite !append_singleton.
  by rewrite !split_on_append, split_on_lacks
    by (apply is_number_lacks; done).
Qed.

Lemma int_number s :
  is_number s = true →
  int s = if (String.length s <=? 4300)%nat then Ok (decimal_value 0 s)
          else Err (ValueError s).
Proof.
  destruct s as [|a s]; [done|]. unfold is_number, int, int_max_str_digits.
  by intros ->.
Qed.

Lemma Version_of_numbers major minor micro :
  is_number major = true → is_number minor = true → is_number micro = true →
  let version := major +:+ "." +:+ minor +:+ "." +:+ micro in
  Version_of version =
    if (String.length major <=? 4300)%nat
    then if (String.length minor <=? 4300)%nat
         then if (String.length micro <=? 4300)%nat
              then Ok (mkVersion version)
              else Err (ValueError micro)
         else Err (ValueError minor)
    else Err (ValueError major).
Proof.
  intros H1 H2 H3 version. unfold Version_of. subst version.
  rewrite split_on_version by done. cbn [release_numbers].
  rewrite !int_number by done.
  destruct (String.length major <=? 4300)%nat; [|done].
  destruct (String.length minor <=? 4300)%nat; [|done].
  by destruct (String.length micro <=? 4300)%nat.
Qed.

Lemma Version_of_inv version v :
  Version_of version = Ok v → v = mkVersion version.
Proof.
  unfold Version_of.
  destruct (release_numbers (split_on "."%char version)); [|done].
  by intros [= <-].
Qed.

Lemma version_pattern_match_numbers major minor micro :
  is_number major = true → is_number minor = true → is_number micro = true →
  version_pattern_match (major +:+ "." +:+ minor +:+ "." +:+ micro) = true.
Proof.
  intros H1 H2 H3. unfold version_pattern_match.
  rewrite drop_final_newline_lacks.
  - rewrite split_on_version by done.
    by rewrite H1, H2, H3.
  - rewrite !append_singleton.
    repeat rewrite ?lacks_append, ?lacks_cons.
    rewrite !(is_number_lacks "010"%char) by done. done.
Qed.

Lemma version_pattern_match_inv v :
  lacks "010"%char v = true →
  version_pattern_match v = true →
  ∃ major minor micro,
    is_number major = true ∧ is_number minor = true ∧ is_number micro = true
    ∧ v = major +:+ "." +:+ minor +:+ "." +:+ micro.
Proof.
  intros Hnl. unfold version_pattern_match.
  rewrite drop_final_newline_lacks by done.
  pose proof (join_split_on "."%char v) as Hjoin.
  destruct (split_on "."%char v) as [|major [|minor [|micro [|]]]]; try done.
  intros [[H1 H2]%andb_true_iff H3]%andb_true_iff.
  exists major, minor, micro. by rewrite <- Hjoin.
Qed.

Lemma filter_lines_newlines pad s :
  newlines_only pad = true →
  filter (λ line, line ≠ EmptyString) (split_on "010"%char (pad +:+ s))
  = filter (λ line, line ≠ EmptyString) (split_on "010"%char s).
Proof.
  unfold newlines_only. induction pad as [|a pad IH]; [done|].
  rewrite append_cons. cbn [str_forallb].
  intros [->%bool_decide_eq_true Hpad]%andb_true_iff.
  rewrite split_on_cons_sep, filter_cons_False by (intros H; by apply H).
  auto.
Qed.

(** Only the first non-empty line of the docstring counts. *)
Lemma get_version_first_line pad line tail :
  newlines_only pad = true →
  line ≠ EmptyString → lacks "010"%char line = true →
  tail = EmptyString ∨ (∃ rest, tail = String "010"%char rest) →
  get_version (Some (pad +:+ line +:+ tail))
  = match split_on " "%char line !! 1 with
    | None => IndexError
    | Some version_string =>
        if version_pattern_match version_string
        then match Version_of version_string with
             | Ok version => Returned (Some version)
             | Err e => Raised e
             end
        else Returned None
    end.
Proof.
  intros Hpad Hne Hline Htail. unfold get_version. cbn [format_opt].
  rewrite filter_lines_newlines by done.
  destruct Htail as [->|[rest ->]].
  - by rewrite append_nil_r, split_on_lacks, filter_cons_True.
  - by rewrite split_on_append, filter_cons_True.
Qed.

(** X19. [get_version] raises [IndexError], and does not return [None],
    when the module has no docstring and when the first non-empty line of the
    docstring is a single word; it returns [None] when the docstring has no
    non-empty line. *)
Theorem get_version_index_error :
  get_version None = IndexError
  ∧ (∀ pad line tail,
       newlines_only pad = true →
       line ≠ EmptyString →
       lacks "010"%char line = true →
       lacks " "%char line = true →
       tail = EmptyString ∨ (∃ rest, tail = String "010"%char rest) →
       get_version (Some (pad +:+ line +:+ tail)) = IndexError)
  ∧ (∀ pad, newlines_only pad = true →
            get_version (Some pad) = Returned None).
Proof.
  split_and!.
  - reflexivity.
  - intros pad line tail Hpad Hne Hnl Hsp Htail.
    rewrite get_version_first_line by done. by rewrite split_on_lacks.
  - intros pad Hpad. unfold get_version. cbn [format_opt].
    rewrite <- (append_nil_r pad), filter_lines_newlines by done.
    cbn [split_on]. by rewrite filter_cons_False by (intros H; by apply H).
Qed.

(** X20. When the first non-empty line of the docstring is a word, a space
    and three groups of digits separated by dots, possibly followed by a
    space and more text, the lines that follow play no part.  If each group
    has at most 4300 digits, [get_version] returns the version built from
    the three groups.  Otherwise the construction of the [Version] raises
    the [ValueError] of [int] for the first group that is longer. *)
Theorem get_version_found pad name major minor micro suffix tail :
  newlines_only pad = true →
  lacks " "%char name = true → lacks "010"%char name = true →
  is_number major = true → is_number minor = true → is_number micro = true →
  suffix = EmptyString
  ∨ (∃ text, suffix = String " "%char text ∧ lacks "010"%char text = true) →
  tail = EmptyString ∨ (∃ rest, tail = String "010"%char rest) →
  let version_string := major +:+ "." +:+ minor +:+ "." +:+ micro in
  get_version
    (Some (pad +:+ (name +:+ " " +:+ version_string +:+ suffix) +:+ tail))
  = if (String.length major <=? 4300)%nat
    then if (String.length minor <=? 4300)%nat
         then if (String.length micro <=? 4300)%nat
              then Returned (Some (mkVersion version_string))
              else Raised (ValueError micro)
         else Raised (ValueError minor)
    else Raised (ValueError major).
Proof.
  intros Hpad Hsp Hnl H1 H2 H3 Hsuffix Htail version_string.
  assert (lacks " "%char version_string = true) as Hvsp.
  { subst version_string. rewrite !append_singleton.
    repeat rewrite ?lacks_append, ?lacks_cons.
    rewrite !(is_number_lacks " "%char) by done. done. }
  assert (lacks "010"%char version_string = true) as Hvnl.
  { subst version_string. rewrite !append_singleton.
    repeat rewrite ?lacks_append, ?lacks_cons.
    rewrite !(is_number_lacks "010"%char) by done. done. }
  rewrite get_version_first_line; try done.
  - rewrite !append_singleton.
    rewrite split_on_append by done.
    assert (split_on " "%char (version_string +:+ suffix) !! 0
            = Some version_string) as Hword.
    { destruct Hsuffix as [->|(text & -> & _)].
      - by rewrite append_nil_r, split_on_lacks.
      - by rewrite split_on_append. }
    change ((name :: ?l) !! 1) with (l !! 0). rewrite Hword.
    subst version_string.
    rewrite version_pattern_match_numbers, Version_of_numbers by done.
    destruct (String.length major <=? 4300)%nat; [|done].
    destruct (String.length minor <=? 4300)%nat; [|done].
    by destruct (String.length micro <=? 4300)%nat.
  - rewrite !append_singleton. by destruct name.
  - rewrite !append_singleton.
    repeat rewrite ?lacks_append, ?lacks_cons.
    rewrite Hnl, Hvnl. destruct Hsuffix as [->|(text & -> & Htext)]; [done|].
    by rewrite lacks_cons, Htext.
Qed.

(** X21. Whatever the docstring, a version that [get_version] returns is
    built from three non-empty groups of ASCII digits separated by two
    dots. *)
Theorem get_version_sound doc version_string :
  get_version doc = Returned (Some (mkVersion version_string)) →
  ∃ major minor micro,
    is_number major = true ∧ is_number minor = true ∧ is_number micro = true
    ∧ version_string = major +:+ "." +:+ minor +:+ "." +:+ micro.
Proof.
  unfold get_version.
  pose proof (split_on_pieces_lack "010"%char (format_opt doc)) as Hlines.
  set (lines := split_on "010"%char (format_opt doc)) in *.
  assert (Forall (λ word, lacks "010"%char word = true)
            (filter (λ line, line ≠ EmptyString) lines)) as Hfiltered.
  { apply Forall_forall. intros word [_ Hin]%list_elem_of_filter.
    rewrite Forall_forall in Hlines. auto. }
  destruct (filter (λ line, line ≠ EmptyString) lines) as [|line others];
    [done|].
  apply Forall_cons in Hfiltered as [Hline _].
  pose proof (split_on_pieces _ " "%char line Hline) as Hwords.
  destruct (split_on " "%char line !! 1) as [v|] eqn:Hv; [|done].
  destruct (version_pattern_match v) eqn:Hmatch; [|done].
  destruct (Version_of v) as [version|e] eqn:Hversion; [|done].
  apply Version_of_inv in Hversion as ->.
  intros [= <-]. apply version_pattern_match_inv; [|done].
  rewrite Forall_lookup in Hwords. by apply (Hwords 1).
Qed.

(** ** A run of [setup] that returns normally *)

Lemma elem_of_zip_with_answers {X} (f : X → Z → event) l answers x :
  length answers = length l → Forall (λ r, 0 ≤ r)%Z answers → x ∈ l →
  ∃ r, f x r ∈ zip_with f l answers ∧ (0 ≤ r)%Z.
Proof.
  intros Hlen Hall [i Hi]%list_elem_of_lookup_1.
  destruct (lookup_lt_is_Some_2 answers i) as [r Hr].
  { rewrite Hlen. by eapply lookup_lt_Some. }
  exists r. split.
  - apply (list_elem_of_lookup_2 _ i). by rewrite lookup_zip_with, Hi, Hr.
  - rewrite Forall_lookup in Hall. by eapply Hall.
Qed.

Lemma run_enable_events_ok handle events_list channel_name w tr w' :
  run (_enable_events handle events_list channel_name) w = (Ok (), tr, w') →
  ∀ e, e ∈ events_list →
       ∃ r, Ev (lttng_enable_event handle e channel_name) r ∈ tr ∧ (0 ≤ r)%Z.
Proof.
  intros Hrun e He. unfold _enable_events in Hrun.
  destruct (run_checked_loop
              (λ e, lttng_enable_event handle e channel_name)
              (λ _ r, RuntimeError ("event enabling failed: " +:+ strerror r))
              events_list w) as (answers & Htr & Hres).
  rewrite Hrun in Htr, Hres. cbn [fst snd] in Htr, Hres.
  destruct Hres as [Hlen Hall]. subst tr.
  by apply (elem_of_zip_with_answers
              (λ e r, Ev (lttng_enable_event handle e channel_name) r)).
Qed.

Lemma run_add_context_ok contexts w tr w' :
  run (_add_context contexts) w = (Ok (), tr, w') →
  ∀ h cl c, (h, cl) ∈ contexts → c ∈ cl →
            ∃ r, Ev (lttng_add_context h c) r ∈ tr ∧ (0 ≤ r)%Z.
Proof.
  intros Hrun h cl c Hin Hc.
  assert ((h, c) ∈ context_pairs contexts) as Hpair.
  { unfold context_pairs. apply list_elem_of_bind. exists (h, cl).
    split; [|done]. by apply list_elem_of_fmap_2. }
  pose proof (run_add_context_pairs contexts w) as Hpairs.
  rewrite Hrun in Hpairs.
  destruct (run_checked_loop
              (λ hc : Handle * EventContext, lttng_add_context hc.1 hc.2)
              (λ hc r, RuntimeError ("failed to add context field "
                                     +:+ str_of_context hc.2 +:+ ": "
                                     +:+ strerror r))
              (context_pairs contexts) w) as (answers & Htr & Hres).
  assert (∀ l, for_each l (λ '(h, c),
             r ← call_ (lttng_add_context h c);
             if (r <? 0)%Z
             then Raise (RuntimeError
                           ("failed to add context field " +:+ str_of_context c
                            +:+ ": " +:+ strerror r))
             else mret ())
          = for_each l (λ hc : Handle * EventContext,
             r ← call_ (lttng_add_context hc.1 hc.2);
             if (r <? 0)%Z
             then Raise (RuntimeError
                           ("failed to add context field "
                            +:+ str_of_context hc.2 +:+ ": " +:+ strerror r))
             else mret ())) as Hsame.
  { induction l as [|[h0 c0] l IH]; [done|]. cbn [for_each]. by rewrite IH. }
  rewrite Hsame in Hpairs. rewrite <- Hpairs in Htr, Hres.
  cbn [fst snd] in Htr, Hres. destruct Hres as [Hlen Hall]. subst tr.
  by apply (elem_of_zip_with_answers
              (λ hc r, Ev (lttng_add_context hc.1 hc.2) r) _ _ (h, c)).
Qed.

Lemma run_enable_domain_ok session_name domain channel events_list w ho tr w' :
  run (enable_domain session_name domain channel events_list) w
  = (Ok ho, tr, w') →
  ∃ h rc,
    ho = Some h
    ∧ Ev (lttng_Handle session_name domain) (Some h) ∈ tr
    ∧ Ev (lttng_enable_channel h channel) rc ∈ tr ∧ (0 ≤ rc)%Z
    ∧ ∀ e, e ∈ events_list →
           ∃ r, Ev (lttng_enable_event h e (channel_name channel)) r ∈ tr
                ∧ (0 ≤ r)%Z.
Proof.
  unfold enable_domain, _create_handle, _enable_channel.
  rewrite run_bind, run_call_bind.
  set (hc := lttng_Handle session_name domain).
  destruct (answer hc w) as [h|]; [|done]. cbn [run mret prog_ret].
  rewrite run_bind, run_call_bind.
  set (cc := lttng_enable_channel h channel). set (w1 := after hc w).
  destruct (Z.ltb_spec (answer cc w1) 0) as [Hneg|Hpos]; [done|].
  cbn [run mret prog_ret]. rewrite run_bind.
  destruct (run (_enable_events h events_list (channel_name channel))
              (after cc w1)) as [[[[]|e] tr_e] w2] eqn:Hev; [|done].
  cbn [run mret prog_ret app]. intros [= <- <- <-].
  exists h, (answer cc w1). split_and!; try done.
  - by left.
  - right. by left.
  - intros e He.
    destruct (run_enable_events_ok _ _ _ _ _ _ Hev e He) as (r & Hin & Hr).
    exists r. split; [|done]. right. right.
    rewrite app_nil_r. exact Hin.
Qed.

Lemma run_create_session_ok session_name full_path w tr w' :
  run (_create_session session_name full_path) w = (Ok (), tr, w') →
  ∃ r, Ev (lttng_create session_name full_path) r ∈ tr ∧ (0 ≤ r)%Z.
Proof.
  rewrite run_create_session.
  set (r1 := answer (lttng_create session_name full_path) w).
  destruct (-28 =? r1)%Z; [destruct (_ <? 0)%Z; [done|]|].
  - match goal with |- context [(?r2 <? 0)%Z] =>
      destruct (Z.ltb_spec r2 0); [done|]; intros [= <- <-]; exists r2 end.
    split; [|done]. right. right. by left.
  - destruct (Z.ltb_spec r1 0); [done|]. intros [= <- <-]. exists r1.
    split; [by left|done].
Qed.

Lemma run_configure_session_ok session_name full_path ros_events
    kernel_events context_fields channel_name_ust channel_name_kernel
    subbuffer_size_ust subbuffer_size_kernel w path tr w' :
  run (configure_session session_name full_path ros_events kernel_events
         context_fields channel_name_ust channel_name_kernel
         subbuffer_size_ust subbuffer_size_kernel) w = (Ok path, tr, w') →
  let context_fields' :=
    match context_fields with
    | CtxList l => CtxSet (list_to_set l)
    | _ => context_fields
    end in
  ∃ tr1 w1 handle_ust tr2 w2 handle_kernel tr3 w3 plan tr4,
    run (_create_session session_name full_path) w = (Ok (), tr1, w1)
    ∧ run (if (0 <? size (to_set ros_events))%nat
           then enable_domain session_name domain_ust
                  (make_channel channel_name_ust subbuffer_size_ust)
                  (_create_events (to_set ros_events))
           else mret None) w1 = (Ok handle_ust, tr2, w2)
    ∧ run (if (0 <? size (to_set kernel_events))%nat
           then enable_domain session_name domain_kernel
                  (make_channel channel_name_kernel subbuffer_size_kernel)
                  (_create_events (to_set kernel_events))
           else mret None) w2 = (Ok handle_kernel, tr3, w3)
    ∧ _normalize_contexts_dict
        [("kernel", handle_kernel); ("userspace", handle_ust)] context_fields'
      = Ok plan
    ∧ run (_add_context plan) w3 = (Ok (), tr4, w')
    ∧ tr = tr1 ++ tr2 ++ tr3 ++ tr4.
Proof.
  unfold configure_session. cbv zeta. rewrite run_bind.
  destruct (run (_create_session session_name full_path) w)
    as [[[[]|e] tr1] w1]; [|done].
  rewrite run_bind.
  destruct (run (if (0 <? size (to_set ros_events))%nat then _ else _) w1)
    as [[[handle_ust|e] tr2] w2] eqn:H2; [|done].
  rewrite run_bind.
  destruct (run (if (0 <? size (to_set kernel_events))%nat then _ else _) w2)
    as [[[handle_kernel|e] tr3] w3] eqn:H3; [|done].
  destruct (_normalize_contexts_dict _ _) as [plan|e] eqn:Hplan; [|done].
  cbn [lift]. change (Ret plan ≫= ?k) with (k plan). cbv beta.
  rewrite run_bind.
  destruct (run (_add_context plan) w3) as [[[[]|e] tr4] w4] eqn:H4; [|done].
  cbn [run mret prog_ret]. rewrite app_nil_r. intros [= <- <- <-].
  by eexists tr1, w1, handle_ust, tr2, w2, handle_kernel, tr3, w3, plan, tr4.
Qed.

Lemma run_setup_ok session_name base_path append_trace ros_events
    kernel_events context_fields channel_name_ust channel_name_kernel
    subbuffer_size_ust subbuffer_size_kernel w path tr w' :
  run (setup session_name base_path append_trace ros_events kernel_events
         context_fields channel_name_ust channel_name_kernel
         subbuffer_size_ust subbuffer_size_kernel) w = (Ok path, tr, w') →
  ∃ tr0 w0 tr_c,
    run (configure_session session_name (os_path_join base_path [session_name])
           ros_events kernel_events context_fields channel_name_ust
           channel_name_kernel subbuffer_size_ust subbuffer_size_kernel) w0
    = (Ok path, tr_c, w')
    ∧ tr = tr0 ++ tr_c.
Proof.
  destruct (decide (session_name = EmptyString)) as [->|Hname].
  { unfold setup. by rewrite bool_decide_eq_true_2. }
  rewrite run_setup by done. cbv zeta.
  destruct (_ && _); [done|].
  destruct (run ensure_session_daemon _) as [[[[]|e] tr_d] w2]; [|done].
  destruct (run (check_kernel_tracer _) w2) as [[[[]|e] tr_k] w3]; [|done].
  destruct (run (configure_session _ _ _ _ _ _ _ _ _) w3)
    as [[r tr_c] w4] eqn:Hconfigure.
  intros [= -> <- <-].
  eexists (_ :: tr_d ++ tr_k), w3, tr_c. split; [done|].
  by rewrite app_comm_cons, app_assoc.
Qed.

Lemma normalize_flat_plan handles context_fields names plan d h n :
  _normalize_contexts_dict handles
    match context_fields with
    | CtxList l => CtxSet (list_to_set l)
    | _ => context_fields
    end = Ok plan →
  flat_names context_fields = Some names →
  (d, Some h) ∈ handles → n ∈ names →
  ∃ ty cl, _context_field_name_to_type n = Some ty
           ∧ (h, cl) ∈ plan ∧ mkEventContext ty ∈ cl.
Proof.
  intros Hplan Hnames Hin Hn.
  assert (dict_comprehension (λ _ _, _create_context_list names)
            (enabled_handles handles) [] = Ok plan) as Hcomp.
  { by destruct context_fields; simplify_eq/=. }
  clear Hplan Hnames.
  destruct (dict_comprehension_keys _ _ _ _ Hcomp) as [_ Hkeys];
    [constructor|].
  assert (h ∈ plan.*1) as Hh.
  { apply Hkeys. right. apply enabled_handle_iff. by exists d. }
  apply list_elem_of_fmap in Hh as ([h' cl] & -> & Hcl).
  destruct (dict_comprehension_values _ _ _ _ Hcomp _ _ Hcl)
    as [Hnil|(d' & _ & Hlist)]; [by apply elem_of_nil in Hnil|].
  apply create_context_list_from_inv in Hlist.
  apply elem_of_set_iter, list_elem_of_lookup_1 in Hn as [i Hi].
  destruct (Forall2_lookup_l _ _ _ _ _ Hlist Hi) as ([ty] & Hc & Hty).
  exists ty, cl. split_and!; [done|done|].
  by apply (list_elem_of_lookup_2 _ i).
Qed.

(** X22. When [setup] returns normally, the session was created, and for
    each domain with at least one event: a handle was obtained, the channel
    was enabled on it, every event of the domain was enabled on that channel
    and, when the context fields are a list or a set, every context field
    was added to the handle, each of these calls answering a non-negative
    code. *)
Theorem setup_success_enables_all session_name base_path append_trace
    ros_events kernel_events context_fields channel_name_ust
    channel_name_kernel subbuffer_size_ust subbuffer_size_kernel w path :
  (run (setup session_name base_path append_trace ros_events kernel_events
          context_fields channel_name_ust channel_name_kernel
          subbuffer_size_ust subbuffer_size_kernel) w).1.1 = Ok path →
  let trace :=
    (run (setup session_name base_path append_trace ros_events kernel_events
            context_fields channel_name_ust channel_name_kernel
            subbuffer_size_ust subbuffer_size_kernel) w).1.2 in
  let accepted (c : call Z) := ∃ r, Ev c r ∈ trace ∧ (0 ≤ r)%Z in
  let configured domain channel events :=
    (0 < size (to_set events))%nat →
    ∃ h,
      Ev (lttng_Handle session_name domain) (Some h) ∈ trace
      ∧ accepted (lttng_enable_channel h channel)
      ∧ (∀ n, n ∈ to_set events →
           accepted (lttng_enable_event h
                       (mkEvent n EVENT_TRACEPOINT EVENT_LOGLEVEL_ALL)
                       (channel_name channel)))
      ∧ (∀ names n, flat_names context_fields = Some names → n ∈ names →
           ∃ ty, _context_field_name_to_type n = Some ty
                 ∧ accepted (lttng_add_context h (mkEventContext ty))) in
  accepted (lttng_create session_name (os_path_join base_path [session_name]))
  ∧ configured domain_ust (make_channel channel_name_ust subbuffer_size_ust)
      ros_events
  ∧ configured domain_kernel
      (make_channel channel_name_kernel subbuffer_size_kernel) kernel_events.
Proof.
  destruct (run (setup _ _ _ _ _ _ _ _ _ _) w) as [[res tr] w'] eqn:Hrun.
  cbn [fst snd]. intros ->.
  apply run_setup_ok in Hrun as (tr0 & w0 & tr_c & Hconfigure & ->).
  apply run_configure_session_ok in Hconfigure. cbv zeta in Hconfigure.
  destruct Hconfigure as (tr1 & w1 & handle_ust & tr2 & w2 & handle_kernel
                          & tr3 & w3 & plan & tr4
                          & Hcreate & Hust & Hkernel & Hplan & Hadd & ->).
  cbv zeta. split_and!.
  - destruct (run_create_session_ok _ _ _ _ _ Hcreate) as (r & Hin & Hr).
    exists r. split; [|done]. rewrite !elem_of_app. tauto.
  - intros Hsize. apply Nat.ltb_lt in Hsize. rewrite Hsize in Hust.
    destruct (run_enable_domain_ok _ _ _ _ _ _ _ _ Hust)
      as (h & rc & -> & Hhandle & Hchannel & Hrc & Hevents).
    exists h. split_and!.
    + rewrite !elem_of_app. tauto.
    + exists rc. split; [|done]. rewrite !elem_of_app. tauto.
    + intros n Hn. destruct (Hevents (mkEvent n EVENT_TRACEPOINT EVENT_LOGLEVEL_ALL))
        as (r & Hin & Hr).
      { unfold _create_events. apply list_elem_of_fmap. exists n.
        split; [done|]. by apply elem_of_set_iter. }
      exists r. split; [|done]. rewrite !elem_of_app. tauto.
    + intros names n Hnames Hn.
      destruct (normalize_flat_plan _ _ _ _ "userspace" h n Hplan Hnames)
        as (ty & cl & Hty & Hcl & Hc); [set_solver|done|].
      destruct (run_add_context_ok _ _ _ _ Hadd _ _ _ Hcl Hc) as (r & Hin & Hr).
      exists ty. split; [done|]. exists r. split; [|done].
      rewrite !elem_of_app. tauto.
  - intros Hsize. apply Nat.ltb_lt in Hsize. rewrite Hsize in Hkernel.
    destruct (run_enable_domain_ok _ _ _ _ _ _ _ _ Hkernel)
      as (h & rc & -> & Hhandle & Hchannel & Hrc & Hevents).
    exists h. split_and!.
    + rewrite !elem_of_app. tauto.
    + exists rc. split; [|done]. rewrite !elem_of_app. tauto.
    + intros n Hn. destruct (Hevents (mkEvent n EVENT_TRACEPOINT EVENT_LOGLEVEL_ALL))
        as (r & Hin & Hr).
      { unfold _create_events. apply list_elem_of_fmap. exists n.
        split; [done|]. by apply elem_of_set_iter. }
      exists r. split; [|done]. rewrite !elem_of_app. tauto.
    + intros names n Hnames Hn.
      destruct (normalize_flat_plan _ _ _ _ "kernel" h n Hplan Hnames)
        as (ty & cl & Hty & Hcl & Hc); [set_solver|done|].
      destruct (run_add_context_ok _ _ _ _ Hadd _ _ _ Hcl Hc) as (r & Hin & Hr).
      exists ty. split; [done|]. exists r. split; [|done].
      rewrite !elem_of_app. tauto.
Qed.


End lttng_impl.

(** ** Runs in the simulated environment *)

Example strip_pid_file : strip ("  4242" +:+ nl) = "4242".
Proof. reflexivity. Qed.

Example isdigit_examples :
  isdigit "4242" = true ∧ isdigit EmptyString = false
  ∧ isdigit "-1" = false ∧ isdigit "12a" = false.
Proof. by vm_compute. Qed.

Example int_4242 : int "4242" = Ok 4242%Z.
Proof. reflexivity. Qed.

Example os_path_join_examples :
  os_path_join "/tmp" ["s1"] = "/tmp/s1"
  ∧ os_path_join "/tmp/" ["s1"] = "/tmp/s1"
  ∧ os_path_join EmptyString ["s1"] = "s1"
  ∧ os_path_join "/tmp" ["/var/s1"] = "/var/s1"
  ∧ os_path_join "/home/u" [".lttng"; "lttng-sessiond.pid"]
    = "/home/u/.lttng/lttng-sessiond.pid".
Proof. by vm_compute. Qed.

(** The daemon recorded in the PID file is running, is another program, is
    gone. *)
Example unreachable_examples :
  (run sim sim_handler is_session_daemon_unreachable sim_daemon_4242).1.1
  = Ok false
  ∧ (run sim sim_handler is_session_daemon_unreachable sim_other_4242).1.1
    = Ok true
  ∧ (run sim sim_handler is_session_daemon_unreachable sim_dead_4242).1.1
    = Ok true
  ∧ (run sim sim_handler is_session_daemon_unreachable sim_healthy).1.1
    = Ok false.
Proof. by vm_compute. Qed.

(** Two userspace events, no kernel event, one context field, on a healthy
    machine: one domain is set up, with two events and one context. *)
Example setup_userspace_only :
  run sim sim_handler
    (setup sample_strerror sample_constants sample_getattr
       sample_str_of_context sample_set_iter sample_decode "s1" "/tmp" false
       (PySet {[ "e1"; "e2" ]}) (PySet ∅) (CtxSet {[ "pid" ]})
       "ros2" "kchan" 32768 131072) sim_healthy =
  (Ok "/tmp/s1",
   [Ev (os_path_isdir "/tmp/s1") false;
    Ev lttng_session_daemon_alive 1%Z;
    Ev (os_environ_get "LTTNG_HOME") None;
    Ev (os_environ_get "HOME") (Some "/home/u");
    Ev (os_path_isfile "/home/u/.lttng/lttng-sessiond.pid") false;
    Ev lttng_session_daemon_alive 1%Z;
    Ev (lttng_create "s1" "/tmp/s1") 0%Z;
    Ev (lttng_Handle "s1" domain_ust) (Some 1);
    Ev (lttng_enable_channel 1 (make_channel "ros2" 32768)) 0%Z;
    Ev (lttng_enable_event 1
          (mkEvent "e1" EVENT_TRACEPOINT EVENT_LOGLEVEL_ALL) "ros2") 0%Z;
    Ev (lttng_enable_event 1
          (mkEvent "e2" EVENT_TRACEPOINT EVENT_LOGLEVEL_ALL) "ros2") 0%Z;
    Ev (lttng_add_context 1 (mkEventContext 0)) 0%Z],
   mkSim [("HOME", "/home/u")] [] [] [] [] None [] [] 0 2).
Proof. by vm_compute. Qed.

(** Context fields: a name listed twice gives one context; with no enabled
    domain nothing is looked up. *)
Example normalize_examples :
  _normalize_contexts_dict sample_constants sample_getattr sample_set_iter
    handles_userspace (CtxDict {[ "userspace" := ["vpid"; "vpid"] ]})
  = Ok [(1, [mkEventContext 5])]
  ∧ _normalize_contexts_dict sample_constants sample_getattr sample_set_iter
      handles_none (CtxSet {[ "bogus" ]})
    = Ok []
  ∧ _normalize_contexts_dict sample_constants sample_getattr sample_set_iter
      handles_userspace (CtxSet {[ "bogus" ]})
    = Err (RuntimeError "failed to find context type: bogus")
  ∧ _normalize_contexts_dict sample_constants sample_getattr sample_set_iter
      handles_userspace (CtxList ["vpid"])
    = Err AssertionError.
Proof. by vm_compute. Qed.

(** No daemon at first: one is spawned before the checks. *)
Example setup_spawns_daemon :
  (run sim sim_handler
     (setup sample_strerror sample_constants sample_getattr
        sample_str_of_context sample_set_iter sample_decode "s1" "/tmp" false
        (PyList []) (PyList []) (CtxList []) "ros2" "kchan" 32768 131072)
     (mkSim [("HOME", "/home/u")] [] [] [] [0; 1]%Z None [] [] 0 1)).1 =
  (Ok "/tmp/s1",
   [Ev (os_path_isdir "/tmp/s1") false;
    Ev lttng_session_daemon_alive 0%Z;
    Ev (subprocess_run ["lttng-sessiond"; "--daemonize"])
       (mkCompletedProcess 0 () ());
    Ev (os_environ_get "LTTNG_HOME") None;
    Ev (os_environ_get "HOME") (Some "/home/u");
    Ev (os_path_isfile "/home/u/.lttng/lttng-sessiond.pid") false;
    Ev lttng_session_daemon_alive 1%Z;
    Ev (lttng_create "s1" "/tmp/s1") 0%Z]).
Proof. by vm_compute. Qed.

Lemma create_session_destroy_failure_witness :
  run sim sim_handler
    (_create_session sample_strerror "s1" "/tmp/s1") sim_stale_session =
  (Err (RuntimeError "failed to destroy tracing session: error -1"),
   [Ev (lttng_create "s1" "/tmp/s1") (-28)%Z; Ev (lttng_destroy "s1") (-1)%Z],
   mkSim [("HOME", "/home/u")] [] [] [] [] None [0]%Z [] 0 1).
Proof.
  apply (create_session_destroy_failure sample_strerror sim sim_handler
           "s1" "/tmp/s1" sim_stale_session); reflexivity.
Defined.

Lemma create_session_retry_witness :
  run sim sim_handler
    (_create_session sample_strerror "s1" "/tmp/s1") sim_stale_twice =
  (Err (RuntimeError "session creation failed: error -28"),
   [Ev (lttng_create "s1" "/tmp/s1") (-28)%Z; Ev (lttng_destroy "s1") 0%Z;
    Ev (lttng_create "s1" "/tmp/s1") (-28)%Z],
   mkSim [("HOME", "/home/u")] [] [] [] [] None [] [] 0 1).
Proof.
  apply (proj1 (create_session_retry sample_strerror sim sim_handler
                  "s1" "/tmp/s1" sim_stale_twice)).
  - reflexivity.
  - vm_compute. discriminate.
Defined.

(** C2 (as stated) fails: with a stale session that the daemon refuses to
    destroy, creation is attempted once, not twice. *)
Lemma create_session_retry_counterexample :
  ¬ create_session_retry_claim sample_strerror sim sim_handler.
Proof.
  intros claim.
  specialize (claim "s1" "/tmp/s1" sim_stale_session eq_refl) as [_ Hcreate].
  vm_compute in Hcreate. discriminate.
Qed.

Lemma setup_validation_witness :
  run sim sim_handler
    (setup sample_strerror sample_constants sample_getattr
       sample_str_of_context sample_set_iter sample_decode "s1" "/tmp" false
       (PyList ["ros2:rcl_init"]) (PyList []) (CtxList ["vpid"])
       "ros2" "kchan" 32768 131072) sim_existing_directory =
  (Err (RuntimeError
          "trace directory already exists, use the append option to append to it: /tmp/s1"),
   [Ev (os_path_isdir "/tmp/s1") true], sim_existing_directory).
Proof.
  apply (proj2 (setup_validation sample_strerror sample_constants
                  sample_getattr sample_str_of_context sample_set_iter sample_decode
                  sim sim_handler "/tmp" (PyList ["ros2:rcl_init"]) (PyList [])
                  (CtxList ["vpid"]) "ros2" "kchan" 32768 131072
                  sim_existing_directory) "s1").
  - discriminate.
  - reflexivity.
Defined.

Lemma get_session_daemon_pid_cases_witness :
  (run sim sim_handler get_session_daemon_pid sim_daemon_4242).1.1
  = Ok (Some 4242%Z).
Proof.
  edestruct (get_session_daemon_pid_cases sim sim_handler sim_daemon_4242)
    as [_ Hfile]; [vm_compute; reflexivity|].
  destruct (Hfile "/home/u" eq_refl) as (_ & _ & Hdigits); [discriminate|].
  rewrite Hdigits;
    [reflexivity|reflexivity|vm_compute; discriminate|reflexivity|].
  apply Nat.leb_le. vm_compute. reflexivity.
Defined.

(** C7 (as stated) fails: a PID file that holds [0] does not hold a positive
    integer, and [get_session_daemon_pid] returns 0, not [None]. *)
Lemma pid_file_content_counterexample :
  ¬ pid_file_content_claim sim sim_handler.
Proof.
  intros claim.
  assert ((run sim sim_handler get_session_daemon_pid sim_pid_zero).1.1
          = Ok None) as Hnone.
  { eapply (claim sim_pid_zero "/home/u");
      [vm_compute; reflexivity|discriminate|reflexivity|].
    intros (n & Hpos & Hint). vm_compute in Hint.
    injection Hint as <-. lia. }
  vm_compute in Hnone. discriminate.
Qed.

(** C3. The code departs from the claim on a PID file that holds the
    character U+00B2 (superscript two).  No PID is recorded there, so the
    claim has [is_session_daemon_unreachable] return [False].  The content
    passes the guard [pid.isdigit()], [int(pid)] raises [ValueError], and the
    exception goes through [get_session_daemon_pid] and
    [is_session_daemon_unreachable]: the function returns neither [False]
    nor [True], and [ps] is not run. *)
Theorem session_daemon_unreachable_superscript_pid :
  run sim sim_handler is_session_daemon_unreachable sim_pid_superscript =
  (Err (ValueError (String "178"%char EmptyString)),
   [Ev (os_environ_get "LTTNG_HOME") None;
    Ev (os_environ_get "HOME") (Some "/home/u");
    Ev (os_path_isfile "/home/u/.lttng/lttng-sessiond.pid") true;
    Ev (open_read "/home/u/.lttng/lttng-sessiond.pid")
       (String "178"%char EmptyString)],
   sim_pid_superscript).
Proof. vm_compute. reflexivity. Qed.

Lemma sample_set_iter_perm (s : gset string) : sample_set_iter s ≡ₚ elements s.
Proof. reflexivity. Qed.

Lemma normalize_per_domain_mapping_witness :
  (∃ plan,
     _normalize_contexts_dict sample_constants sample_getattr sample_set_iter
       handles_both
       (CtxDict {[ "kernel" := ["pid"];
                   "userspace" := ["vpid"; "procname"; "vpid"] ]}) = Ok plan
     ∧ plan.*1 = [2; 1]
     ∧ ∀ d h, (d, Some h) ∈ handles_both →
         ∃ l names cl,
           ({[ "kernel" := ["pid"];
               "userspace" := ["vpid"; "procname"; "vpid"] ]}
              : gmap string (list string)) !! d = Some l
           ∧ dict_get h plan = Some cl
           ∧ NoDup names ∧ (∀ n, n ∈ names ↔ n ∈ l)
           ∧ Forall2 (λ n c,
                        _context_field_name_to_type sample_constants
                          sample_getattr n = Some (ctx c)) names cl)
  ∧ _normalize_contexts_dict sample_constants sample_getattr sample_set_iter
      handles_both (CtxDict {[ "kernel" := ["vpid"] ]})
    = Err (KeyError "userspace").
Proof.
  split.
  - apply (proj1 (normalize_per_domain_mapping sample_constants
                    sample_getattr sample_set_iter sample_set_iter_perm
                    handles_both
                    {[ "kernel" := ["pid"];
                       "userspace" := ["vpid"; "procname"; "vpid"] ]})).
    + intros d h Hin. unfold handles_both in Hin.
      rewrite !elem_of_cons, elem_of_nil in Hin.
      destruct Hin as [[= -> ->]|[[= -> ->]|[]]].
      * exists ["pid"]. split; [reflexivity|].
        intros n Hn. rewrite !elem_of_cons, elem_of_nil in Hn.
        destruct Hn as [->|[]]; vm_compute; eauto.
      * exists ["vpid"; "procname"; "vpid"]. split; [reflexivity|].
        intros n Hn. rewrite !elem_of_cons, elem_of_nil in Hn.
        destruct Hn as [->|[->|[->|[]]]]; vm_compute; eauto.
    + vm_compute. apply NoDup_cons. split; [|apply NoDup_singleton].
      intros ?%list_elem_of_singleton. discriminate.
  - apply (proj1 (proj2 (normalize_per_domain_mapping sample_constants
                           sample_getattr sample_set_iter sample_set_iter_perm
                           handles_both {[ "kernel" := ["vpid"] ]}))
             [("kernel", Some 2)] "userspace" 1 []).
    + reflexivity.
    + reflexivity.
    + intros d h Hin. apply list_elem_of_singleton in Hin as [= -> ->].
      exists ["vpid"]. split; [reflexivity|].
      intros n Hn. apply list_elem_of_singleton in Hn as ->.
      vm_compute. eauto.
Defined.

(** C1 (as stated) fails: with the userspace domain enabled and a mapping
    that has no entry for it, the call raises [KeyError]. *)
Lemma normalize_absent_domain_counterexample :
  ¬ normalize_absent_domain_claim sample_constants sample_getattr
      sample_set_iter.
Proof.
  intros claim.
  destruct (claim handles_userspace {[ "kernel" := ["vpid"] ]} "userspace" 1)
    as (plan & Hplan & _).
  - unfold handles_userspace. rewrite !elem_of_cons. auto.
  - reflexivity.
  - vm_compute in Hplan. discriminate.
Qed.



(** C5. The code departs from the claim when the probe fails and what it
    printed on its standard error is not UTF-8, here the one byte 0xFF.  The
    claim has [setup] fail with the diagnostic that includes the error text
    of the probe.  [process.stderr.decode()] raises [UnicodeDecodeError] in
    [is_kernel_tracer_available], and [setup] lets it through: no diagnostic
    is built, and the error is not the [RuntimeError] that the docstring of
    [setup] announces. *)
Theorem setup_kernel_error_not_utf8 :
  run sim sim_handler
    (setup sample_strerror sample_constants sample_getattr
       sample_str_of_context sample_set_iter sample_decode "s1" "/tmp" false
       (PyList []) (PyList ["sched_switch"]) (CtxList []) "ros2" "kchan"
       32768 131072)
    sim_kernel_error_not_utf8 =
  (Err UnicodeDecodeError,
   [Ev (os_path_isdir "/tmp/s1") false;
    Ev lttng_session_daemon_alive 1%Z;
    Ev (os_environ_get "LTTNG_HOME") None;
    Ev (os_environ_get "HOME") (Some "/home/u");
    Ev (os_path_isfile "/home/u/.lttng/lttng-sessiond.pid") false;
    Ev lttng_session_daemon_alive 1%Z;
    Ev (subprocess_run_piped ["lttng"; "list"; "-k"])
       (mkCompletedProcess 1 [] [xff])],
   sim_kernel_error_not_utf8).
Proof. vm_compute. reflexivity. Qed.

Lemma setup_without_events_witness :
  run sim sim_handler
    (setup sample_strerror sample_constants sample_getattr
       sample_str_of_context sample_set_iter sample_decode "s1" "/tmp" false
       (PyList []) (PySet ∅) (CtxList ["vpid"]) "ros2" "kchan" 32768 131072)
    sim_healthy =
  (Ok "/tmp/s1",
   [Ev (os_path_isdir "/tmp/s1") false;
    Ev lttng_session_daemon_alive 1%Z;
    Ev (os_environ_get "LTTNG_HOME") None;
    Ev (os_environ_get "HOME") (Some "/home/u");
    Ev (os_path_isfile "/home/u/.lttng/lttng-sessiond.pid") false;
    Ev lttng_session_daemon_alive 1%Z;
    Ev (lttng_create "s1" "/tmp/s1") 0%Z],
   sim_healthy).
Proof.
  destruct (setup_without_events sample_strerror sample_constants
              sample_getattr sample_str_of_context sample_set_iter sample_decode
              sim sim_handler "s1" "/tmp" false (PyList []) (PySet ∅)
              (CtxList ["vpid"]) "ros2" "kchan" 32768 131072 sim_healthy)
    as [_ Hrun]; [reflexivity|vm_compute; reflexivity|discriminate|].
  apply (Hrun eq_refl
           [Ev lttng_session_daemon_alive 1%Z;
            Ev (os_environ_get "LTTNG_HOME") None;
            Ev (os_environ_get "HOME") (Some "/home/u");
            Ev (os_path_isfile "/home/u/.lttng/lttng-sessiond.pid") false;
            Ev lttng_session_daemon_alive 1%Z]
           sim_healthy [Ev (lttng_create "s1" "/tmp/s1") 0%Z] sim_healthy);
    vm_compute; reflexivity.
Defined.

(** ** Further runs in the simulated environment *)

Lemma kernel_tracer_check_witness :
  let out :=
    run sim sim_handler
      (setup sample_strerror sample_constants sample_getattr
         sample_str_of_context sample_set_iter sample_decode "s1" "/tmp" false
         (PyList ["ros2:rcl_init"]) (PyList ["sched_switch"])
         (CtxList ["vpid"]) "ros2" "kchan" 32768 131072)
      sim_no_kernel_tracer in
  out.1.1 =
    Err (RuntimeError
           ("kernel tracer is not available: Error: Unable to list kernel events"
            +:+ nl +:+ "  cannot use kernel events:"
            +:+ nl +:+ "    'ros2 trace' command: cannot use '-k' option"
            +:+ nl
            +:+ "    'Trace' action: cannot set 'events_kernel'/'events-kernel' list"
            +:+ nl
            +:+ "  install the kernel tracer, e.g., on Ubuntu, install lttng-modules-dkms"
            +:+ nl +:+ "  see: https://github.com/ros2/ros2_tracing#building"))
  ∧ Forall (λ e, is_domain_call e = false) out.1.2.
Proof.
  intros out.
  destruct (kernel_tracer_check sample_strerror sample_constants
              sample_getattr sample_str_of_context sample_set_iter
              sample_decode sim sim_handler "s1" "/tmp" false
              (PyList ["ros2:rcl_init"]) (PyList ["sched_switch"])
              (CtxList ["vpid"]) "ros2" "kchan" 32768 131072
              sim_no_kernel_tracer)
    as (_ & tr_d & w2 & process & post & Hrun & Hprocess & _ & _ & _ & Hfail).
  - apply (bool_decide_unpack _). vm_compute. exact I.
  - vm_compute in Hrun. injection Hrun as <- <-.
    vm_compute in Hprocess. subst process.
    destruct Hfail as (_ & Hcalls & Herr); [discriminate|].
    split; [exact Herr|exact Hcalls].
Defined.

Lemma session_daemon_unreachable_cases_witness :
  run sim sim_handler is_session_daemon_unreachable sim_other_4242 =
  (Ok true,
   [Ev (os_environ_get "LTTNG_HOME") None;
    Ev (os_environ_get "HOME") (Some "/home/u");
    Ev (os_path_isfile "/home/u/.lttng/lttng-sessiond.pid") true;
    Ev (open_read "/home/u/.lttng/lttng-sessiond.pid") ("4242" +:+ nl);
    Ev (subprocess_run_piped_text ["ps"; "-o"; "comm="; "4242"])
       (mkCompletedProcess 0 ("bash" +:+ nl) EmptyString)],
   sim_other_4242).
Proof.
  edestruct (session_daemon_unreachable_cases sim sim_handler sim_other_4242
               (Ok (Some 4242%Z))) as (unreachable & Hrun & _ & Hname & _);
    [vm_compute; reflexivity|].
  rewrite Hrun, Hname; [reflexivity|vm_compute; discriminate].
Defined.

Lemma create_session_calls_witness :
  ∃ r,
    last (run sim sim_handler
            (_create_session sample_strerror "s1" "/tmp/s1")
            (mkSim [] [] [] [] [] None [-28; 0]%Z [0]%Z 0 1)).1.2
    = Some (Ev (lttng_create "s1" "/tmp/s1") r)
    ∧ (0 ≤ r)%Z.
Proof.
  apply (create_session_calls sample_strerror sim sim_handler "s1" "/tmp/s1"
           (mkSim [] [] [] [] [] None [-28; 0]%Z [0]%Z 0 1)).
  vm_compute. reflexivity.
Defined.

Lemma create_events_one_per_name_witness :
  length (_create_events sample_set_iter {[ "e1"; "e2" ]}) = 2.
Proof.
  rewrite (proj1 (create_events_one_per_name sample_set_iter
                    sample_set_iter_perm {[ "e1"; "e2" ]})).
  vm_compute. reflexivity.
Defined.

Lemma create_context_list_ok_iff_witness :
  is_Some (_context_field_name_to_type sample_constants sample_getattr "vpid").
Proof.
  apply (proj1 (proj1 (create_context_list_ok_iff sample_constants
                         sample_getattr sample_set_iter sample_set_iter_perm
                         {[ "vpid"; "procname" ]}))).
  - vm_compute. reflexivity.
  - apply elem_of_union. left. by apply elem_of_singleton.
Defined.

Lemma normalize_flat_set_witness :
  ∃ cl,
    _create_context_list sample_constants sample_getattr sample_set_iter
      {[ "vpid"; "procname" ]} = Ok cl
    ∧ _normalize_contexts_dict sample_constants sample_getattr sample_set_iter
        [("kernel", Some 2); ("userspace", Some 1)]
        (CtxSet {[ "vpid"; "procname" ]})
      = Ok [(2, cl); (1, cl)].
Proof.
  apply (normalize_flat_set sample_constants sample_getattr sample_set_iter
           sample_set_iter_perm [("kernel", Some 2); ("userspace", Some 1)]
           {[ "vpid"; "procname" ]}).
  - intros n Hn. apply elem_of_union in Hn as [Hn|Hn];
      apply elem_of_singleton in Hn as ->; vm_compute; eauto.
  - vm_compute. apply NoDup_cons. split; [|apply NoDup_singleton].
    intros ?%list_elem_of_singleton. discriminate.
Defined.

Lemma normalize_keys_enabled_witness :
  NoDup [1] ∧ ∀ h, h ∈ [1] ↔ ∃ d, (d, Some h) ∈ handles_userspace.
Proof.
  apply (normalize_keys_enabled sample_constants sample_getattr
           sample_set_iter handles_userspace (CtxSet {[ "vpid" ]})
           [(1, [mkEventContext 5])]).
  vm_compute. reflexivity.
Defined.

Lemma setup_absolute_session_name_witness :
  os_path_join "/tmp" ["/var/traces/s1"] = "/var/traces/s1".
Proof.
  apply (setup_absolute_session_name sample_strerror sample_constants
           sample_getattr sample_str_of_context sample_set_iter
           sample_decode "/var/traces/s1" "/tmp" false (PyList []) (PyList [])
           (CtxList []) "ros2" "kchan" 32768 131072).
  reflexivity.
Defined.

Lemma setup_creates_after_checks_witness :
  answer sim sim_handler (os_path_isdir (os_path_join "/tmp" ["s1"]))
    sim_healthy && negb false = false.
Proof.
  apply (setup_creates_after_checks sample_strerror sample_constants
           sample_getattr sample_str_of_context sample_set_iter sample_decode sim
           sim_handler "s1" "/tmp" false (PyList ["e1"]) (PyList [])
           (CtxList ["vpid"]) "ros2" "kchan" 32768 131072 sim_healthy).
  apply (bool_decide_unpack _). vm_compute. exact I.
Defined.

Lemma ensure_session_daemon_spawns_iff_witness :
  ∃ a2,
    last (run sim sim_handler ensure_session_daemon
            (mkSim [("HOME", "/home/u")] [] [] [] [0; 1]%Z None [] [] 0 1)).1.2
    = Some (Ev lttng_session_daemon_alive a2)
    ∧ a2 ≠ 0%Z.
Proof.
  apply (ensure_session_daemon_spawns_iff sim sim_handler
           (mkSim [("HOME", "/home/u")] [] [] [] [0; 1]%Z None [] [] 0 1)).
  vm_compute. reflexivity.
Defined.

Lemma setup_returns_full_path_witness :
  "/tmp/s1" = os_path_join "/tmp" ["s1"].
Proof.
  apply (setup_returns_full_path sample_strerror sample_constants
           sample_getattr sample_str_of_context sample_set_iter sample_decode sim
           sim_handler "s1" "/tmp" false (PyList ["e1"]) (PyList [])
           (CtxList ["vpid"]) "ros2" "kchan" 32768 131072 sim_healthy).
  vm_compute. reflexivity.
Defined.

Lemma session_daemon_pid_file_witness :
  (run sim sim_handler get_session_daemon_pid sim_daemon_4242).1.1
  = Ok (Some 4242%Z).
Proof.
  apply (proj1 (session_daemon_pid_file sim sim_handler sim_daemon_4242
                  "/home/u" EmptyString "4242" nl ltac:(discriminate)
                  eq_refl eq_refl ltac:(discriminate) eq_refl
                  ltac:(apply Nat.leb_le; vm_compute; reflexivity)
                  sim_daemon_4242
                  (or_intror (conj eq_refl (conj eq_refl eq_refl)))
                  eq_refl eq_refl)).
Defined.

Lemma pid_file_non_decimal_digit_witness :
  (run sim sim_handler get_session_daemon_pid
     (mkSim [("HOME", "/home/u")] []
        [("/home/u/.lttng/lttng-sessiond.pid",
          String "178"%char EmptyString)] [] [] None [] [] 0 1)).1.1
  = Err (ValueError (String "178"%char EmptyString)).
Proof.
  edestruct (pid_file_non_decimal_digit sim sim_handler
               (mkSim [("HOME", "/home/u")] []
                  [("/home/u/.lttng/lttng-sessiond.pid",
                    String "178"%char EmptyString)] [] [] None [] [] 0 1)
               "/home/u") as [Hpid _].
  - vm_compute. reflexivity.
  - discriminate.
  - vm_compute. reflexivity.
  - vm_compute. reflexivity.
  - vm_compute. reflexivity.
  - exact Hpid.
Defined.

Lemma kernel_tracer_available_result_witness :
  ∃ message before after_,
    (run sim sim_handler (is_kernel_tracer_available sample_decode)
       sim_no_kernel_tracer).1.1
    = Ok (false, Some message)
    ∧ ("Error: Unable to list kernel events" +:+ nl)
      = before +:+ message +:+ after_
    ∧ str_forallb (λ c, bool_decide (c = "010"%char)) before = true
    ∧ str_forallb (λ c, bool_decide (c = "010"%char)) after_ = true
    ∧ startswith nl message = false
    ∧ endswith nl message = false.
Proof.
  apply (proj2 (proj2 (kernel_tracer_available_result sample_decode sim
                         sim_handler sim_no_kernel_tracer))).
  vm_compute. discriminate.
Defined.

Lemma get_version_index_error_witness :
  get_version (Some ("lttng" +:+ nl +:+ "Python bindings")) = IndexError.
Proof.
  apply (proj1 (proj2 get_version_index_error) EmptyString "lttng"
           (nl +:+ "Python bindings"));
    try (vm_compute; reflexivity); try discriminate.
  right. by eexists.
Defined.

Lemma get_version_found_witness :
  get_version
    (Some (nl +:+ ("LTTNG" +:+ " " +:+ ("2" +:+ "." +:+ "13" +:+ "." +:+ "0")
                   +:+ " Python module")
           +:+ nl +:+ "second line"))
  = Returned (Some (mkVersion "2.13.0")).
Proof.
  apply (get_version_found nl "LTTNG" "2" "13" "0" " Python module"
           (nl +:+ "second line"));
    try (vm_compute; reflexivity).
  - right. eexists. split; [reflexivity|]. vm_compute. reflexivity.
  - right. by eexists.
Defined.

Lemma get_version_sound_witness :
  ∃ major minor micro,
    is_number major = true ∧ is_number minor = true ∧ is_number micro = true
    ∧ "2.13.0" = major +:+ "." +:+ minor +:+ "." +:+ micro.
Proof.
  apply (get_version_sound (Some "LTTNG 2.13.0")).
  vm_compute. reflexivity.
Defined.

Lemma setup_success_enables_all_witness :
  ∃ r, Ev (lttng_create "s1" (os_path_join "/tmp" ["s1"])) r
       ∈ (run sim sim_handler
            (setup sample_strerror sample_constants sample_getattr
               sample_str_of_context sample_set_iter sample_decode "s1" "/tmp" false
               (PyList ["e1"]) (PyList []) (CtxList ["vpid"]) "ros2" "kchan"
               32768 131072) sim_healthy).1.2
       ∧ (0 ≤ r)%Z.
Proof.
  edestruct (setup_success_enables_all sample_strerror sample_constants
               sample_getattr sample_str_of_context sample_set_iter
               sample_set_iter_perm sample_decode sim sim_handler "s1" "/tmp" false
               (PyList ["e1"]) (PyList []) (CtxList ["vpid"]) "ros2" "kchan"
               32768 131072 sim_healthy) as [Hcreate _].
  - vm_compute. reflexivity.
  - exact Hcreate.
Defined.

Lemma pid_file_too_many_digits_witness :
  (run sim sim_handler get_session_daemon_pid sim_pid_too_long).1.1
  = Err (ValueError (str_repeat 4301 "7")).
Proof.
  edestruct (pid_file_too_many_digits sim sim_handler sim_pid_too_long
               "/home/u") as [Hpid _].
  - vm_compute. reflexivity.
  - discriminate.
  - vm_compute. reflexivity.
  - vm_compute. reflexivity.
  - apply Nat.ltb_lt. vm_compute. reflexivity.
  - rewrite Hpid. vm_compute. reflexivity.
Defined.

Lemma ensure_session_daemon_outcomes_witness :
  run sim sim_handler ensure_session_daemon sim_dead_4242 =
  (Err (RuntimeError
          ("lttng-sessiond seems to exist, but is unreachable. "
           +:+ "If using two containers with the same HOME directory, set the LTTNG_HOME environment "
           +:+ "variable to the path to a unique directory for each container and make sure that the "
           +:+ "directory exists. See: https://bugs.lttng.org/issues/1371")),
   [Ev lttng_session_daemon_alive 1%Z;
    Ev (os_environ_get "LTTNG_HOME") None;
    Ev (os_environ_get "HOME") (Some "/home/u");
    Ev (os_path_isfile "/home/u/.lttng/lttng-sessiond.pid") true;
    Ev (open_read "/home/u/.lttng/lttng-sessiond.pid") ("4242" +:+ nl);
    Ev (subprocess_run_piped_text ["ps"; "-o"; "comm="; "4242"])
       (mkCompletedProcess 1 EmptyString EmptyString)],
   sim_dead_4242).
Proof.
  apply (ensure_session_daemon_outcomes sim sim_handler sim_dead_4242
           (Ok true)
           [Ev (os_environ_get "LTTNG_HOME") None;
            Ev (os_environ_get "HOME") (Some "/home/u");
            Ev (os_path_isfile "/home/u/.lttng/lttng-sessiond.pid") true;
            Ev (open_read "/home/u/.lttng/lttng-sessiond.pid") ("4242" +:+ nl);
            Ev (subprocess_run_piped_text ["ps"; "-o"; "comm="; "4242"])
               (mkCompletedProcess 1 EmptyString EmptyString)]
           sim_dead_4242).
  vm_compute. reflexivity.
Defined.
